(** * Landing page content model: repository, assembler and sample data

    A shallow embedding of [app/models.py], [app/landing_service.py] and the
    feature partition of [app/landing_page.py], with the record store the
    service talks to through [get_session] written out as explicit state. *)

From stdpp Require Import gmap strings list sorting.
From Stdlib Require Import ZArith Lia.

Local Open Scope Z_scope.
Local Open Scope string_scope.

(** ** Keyword arguments and validation results *)

(** The scalar values the callers pass as keyword arguments: [None], a
    [bool], an [int] or a [str]. *)
Inductive value : Type :=
  | VNone
  | VBool (b : bool)
  | VInt (n : Z)
  | VStr (s : string).

(** Keyword arguments of a constructor call: a Python [dict] keyed by the
    argument name. *)
Abbreviation kwargs := (gmap string value).

(** The exceptions that reach the callers of the service. *)
Inductive error : Type :=
  | ValidationError    (* pydantic: a Create schema rejects its arguments *)
  | IntegrityError     (* store: unique or foreign-key constraint violated *)
  | OperationalError   (* store: the session could not commit *)
  | ValueError.        (* raised by [create_sample_data] itself *)

Inductive result (A : Type) : Type :=
  | Ok (a : A)
  | Err (e : error).
Arguments Ok {A} a.
Arguments Err {A} e.

Definition is_ok {A} (r : result A) : bool :=
  match r with Ok _ => true | Err _ => false end.

Definition rbind {A B} (r : result A) (k : A → result B) : result B :=
  match r with
  | Ok a => k a
  | Err e => Err e
  end.

(** *** Field validators of the Create schemas

    A field declared [str = Field(max_length=n)] takes a string of at most
    [n] characters; [Optional[str]] also takes [None]; a field with a
    default may be left out; a required field may not.  A value of another
    kind is rejected (the conversions pydantic attempts between kinds are
    not part of the model).  Keys that no field reads are never looked at:
    the schemas keep pydantic's default of ignoring extra arguments. *)

Definition check_len (max_length : nat) (s : string) : result string :=
  if (String.length s <=? max_length)%nat then Ok s else Err ValidationError.

Definition req_str (kw : kwargs) (name : string) (max_length : nat)
  : result string :=
  match kw !! name with
  | Some (VStr s) => check_len max_length s
  | _ => Err ValidationError
  end.

Definition opt_str (kw : kwargs) (name : string) (max_length : nat)
  : result (option string) :=
  match kw !! name with
  | None | Some VNone => Ok None
  | Some (VStr s) => rbind (check_len max_length s) (λ s, Ok (Some s))
  | Some _ => Err ValidationError
  end.

Definition def_str (kw : kwargs) (name : string) (default : string)
    (max_length : nat) : result string :=
  match kw !! name with
  | None => Ok default
  | Some (VStr s) => check_len max_length s
  | Some _ => Err ValidationError
  end.

Definition req_int (kw : kwargs) (name : string) : result Z :=
  match kw !! name with
  | Some (VInt n) => Ok n
  | _ => Err ValidationError
  end.

Definition def_bool (kw : kwargs) (name : string) (default : bool)
  : result bool :=
  match kw !! name with
  | None => Ok default
  | Some (VBool b) => Ok b
  | Some _ => Err ValidationError
  end.

(** ** Persisted models ([app/models.py]) *)

Module LandingPage.
Record t : Type := mk {
  id : option Z;
  title : string;
  slug : string;
  is_active : bool;
  meta_title : option string;
  meta_description : option string;
  created_at : Z;
  updated_at : Z
}.

Definition set_id (i : Z) (p : t) : t :=
  mk (Some i) (title p) (slug p) (is_active p) (meta_title p)
     (meta_description p) (created_at p) (updated_at p).
End LandingPage.

Module HeroSection.
Record t : Type := mk {
  id : option Z;
  landing_page_id : Z;
  headline : string;
  subheadline : option string;
  description : option string;
  background_image_url : option string;
  background_color : option string;
  text_color : option string;
  primary_button_text : option string;
  primary_button_url : option string;
  secondary_button_text : option string;
  secondary_button_url : option string;
  alignment : string;
  height : string;
  display_order : Z;
  is_active : bool;
  created_at : Z;
  updated_at : Z
}.

Definition set_id (i : Z) (h : t) : t :=
  mk (Some i) (landing_page_id h) (headline h) (subheadline h)
     (description h) (background_image_url h) (background_color h)
     (text_color h) (primary_button_text h) (primary_button_url h)
     (secondary_button_text h) (secondary_button_url h) (alignment h)
     (height h) (display_order h) (is_active h) (created_at h)
     (updated_at h).
End HeroSection.

Module Feature.
Record t : Type := mk {
  id : option Z;
  landing_page_id : Z;
  title : string;
  description : string;
  icon : option string;
  icon_color : option string;
  image_url : option string;
  link_text : option string;
  link_url : option string;
  background_color : option string;
  text_color : option string;
  display_order : Z;
  is_featured : bool;
  is_active : bool;
  created_at : Z;
  updated_at : Z
}.

Definition set_id (i : Z) (f : t) : t :=
  mk (Some i) (landing_page_id f) (title f) (description f) (icon f)
     (icon_color f) (image_url f) (link_text f) (link_url f)
     (background_color f) (text_color f) (display_order f)
     (is_featured f) (is_active f) (created_at f) (updated_at f).
End Feature.

Module CallToActionSection.
Record t : Type := mk {
  id : option Z;
  landing_page_id : Z;
  headline : string;
  subheadline : option string;
  description : option string;
  primary_button_text : string;
  primary_button_url : string;
  primary_button_style : string;
  secondary_button_text : option string;
  secondary_button_url : option string;
  secondary_button_style : string;
  background_color : option string;
  text_color : option string;
  background_image_url : option string;
  alignment : string;
  size : string;
  display_order : Z;
  is_active : bool;
  created_at : Z;
  updated_at : Z
}.

Definition set_id (i : Z) (c : t) : t :=
  mk (Some i) (landing_page_id c) (headline c) (subheadline c)
     (description c) (primary_button_text c) (primary_button_url c)
     (primary_button_style c) (secondary_button_text c)
     (secondary_button_url c) (secondary_button_style c)
     (background_color c) (text_color c) (background_image_url c)
     (alignment c) (size c) (display_order c) (is_active c)
     (created_at c) (updated_at c).
End CallToActionSection.

(** ** Create schemas ([app/models.py], the classes with [table=False]) *)

Module LandingPageCreate.
Record t : Type := mk {
  title : string;
  slug : string;
  meta_title : option string;
  meta_description : option string
}.

(** The constructor call [LandingPageCreate] with keyword arguments [kw]. *)
Definition init (kw : kwargs) : result t :=
  rbind (req_str kw "title" 200) (λ title,
  rbind (req_str kw "slug" 100) (λ slug,
  rbind (opt_str kw "meta_title" 200) (λ meta_title,
  rbind (opt_str kw "meta_description" 500) (λ meta_description,
  Ok (mk title slug meta_title meta_description))))).

(** The fields the schema declares. *)
Definition fields : list string :=
  ["title"; "slug"; "meta_title"; "meta_description"].
End LandingPageCreate.

Module HeroSectionCreate.
Record t : Type := mk {
  landing_page_id : Z;
  headline : string;
  subheadline : option string;
  description : option string;
  background_image_url : option string;
  primary_button_text : option string;
  primary_button_url : option string;
  alignment : string
}.

(** The constructor call [HeroSectionCreate] with keyword arguments [kw]. *)
Definition init (kw : kwargs) : result t :=
  rbind (req_int kw "landing_page_id") (λ landing_page_id,
  rbind (req_str kw "headline" 300) (λ headline,
  rbind (opt_str kw "subheadline" 500) (λ subheadline,
  rbind (opt_str kw "description" 1000) (λ description,
  rbind (opt_str kw "background_image_url" 500) (λ background_image_url,
  rbind (opt_str kw "primary_button_text" 100) (λ primary_button_text,
  rbind (opt_str kw "primary_button_url" 500) (λ primary_button_url,
  rbind (def_str kw "alignment" "center" 20) (λ alignment,
  Ok (mk landing_page_id headline subheadline description
         background_image_url primary_button_text primary_button_url
         alignment))))))))).

(** The fields the schema declares. *)
Definition fields : list string :=
  ["landing_page_id"; "headline"; "subheadline"; "description";
   "background_image_url"; "primary_button_text"; "primary_button_url";
   "alignment"].
End HeroSectionCreate.

Module FeatureCreate.
Record t : Type := mk {
  landing_page_id : Z;
  title : string;
  description : string;
  icon : option string;
  image_url : option string;
  link_text : option string;
  link_url : option string;
  is_featured : bool
}.

(** The constructor call [FeatureCreate] with keyword arguments [kw]. *)
Definition init (kw : kwargs) : result t :=
  rbind (req_int kw "landing_page_id") (λ landing_page_id,
  rbind (req_str kw "title" 200) (λ title,
  rbind (req_str kw "description" 1000) (λ description,
  rbind (opt_str kw "icon" 100) (λ icon,
  rbind (opt_str kw "image_url" 500) (λ image_url,
  rbind (opt_str kw "link_text" 100) (λ link_text,
  rbind (opt_str kw "link_url" 500) (λ link_url,
  rbind (def_bool kw "is_featured" false) (λ is_featured,
  Ok (mk landing_page_id title description icon image_url link_text
         link_url is_featured))))))))).

(** The fields the schema declares. *)
Definition fields : list string :=
  ["landing_page_id"; "title"; "description"; "icon"; "image_url";
   "link_text"; "link_url"; "is_featured"].
End FeatureCreate.

Module CallToActionSectionCreate.
Record t : Type := mk {
  landing_page_id : Z;
  headline : string;
  subheadline : option string;
  description : option string;
  primary_button_text : string;
  primary_button_url : string;
  secondary_button_text : option string;
  secondary_button_url : option string;
  alignment : string
}.

(** The constructor call [CallToActionSectionCreate] with keyword arguments [kw]. *)
Definition init (kw : kwargs) : result t :=
  rbind (req_int kw "landing_page_id") (λ landing_page_id,
  rbind (req_str kw "headline" 300) (λ headline,
  rbind (opt_str kw "subheadline" 500) (λ subheadline,
  rbind (opt_str kw "description" 1000) (λ description,
  rbind (req_str kw "primary_button_text" 100) (λ primary_button_text,
  rbind (req_str kw "primary_button_url" 500) (λ primary_button_url,
  rbind (opt_str kw "secondary_button_text" 100) (λ secondary_button_text,
  rbind (opt_str kw "secondary_button_url" 500) (λ secondary_button_url,
  rbind (def_str kw "alignment" "center" 20) (λ alignment,
  Ok (mk landing_page_id headline subheadline description
         primary_button_text primary_button_url secondary_button_text
         secondary_button_url alignment)))))))))).

(** The fields the schema declares. *)
Definition fields : list string :=
  ["landing_page_id"; "headline"; "subheadline"; "description";
   "primary_button_text"; "primary_button_url"; "secondary_button_text";
   "secondary_button_url"; "alignment"].
End CallToActionSectionCreate.


(** ** Row construction: the table model built from [data.model_dump()]

    [model_dump] yields the declared fields of the Create schema and nothing
    else; the table model takes them and fills every other column with its
    declared default.  The two timestamps come from [datetime.utcnow]; the
    primary key stays [None] until the row is committed and refreshed. *)

Definition LandingPage_init (data : LandingPageCreate.t) (created updated : Z)
  : LandingPage.t :=
  {| LandingPage.id := None;
     LandingPage.title := LandingPageCreate.title data;
     LandingPage.slug := LandingPageCreate.slug data;
     LandingPage.is_active := true;
     LandingPage.meta_title := LandingPageCreate.meta_title data;
     LandingPage.meta_description := LandingPageCreate.meta_description data;
     LandingPage.created_at := created;
     LandingPage.updated_at := updated |}.

Definition HeroSection_init (data : HeroSectionCreate.t) (created updated : Z)
  : HeroSection.t :=
  {| HeroSection.id := None;
     HeroSection.landing_page_id := HeroSectionCreate.landing_page_id data;
     HeroSection.headline := HeroSectionCreate.headline data;
     HeroSection.subheadline := HeroSectionCreate.subheadline data;
     HeroSection.description := HeroSectionCreate.description data;
     HeroSection.background_image_url :=
       HeroSectionCreate.background_image_url data;
     HeroSection.background_color := None;
     HeroSection.text_color := None;
     HeroSection.primary_button_text :=
       HeroSectionCreate.primary_button_text data;
     HeroSection.primary_button_url :=
       HeroSectionCreate.primary_button_url data;
     HeroSection.secondary_button_text := None;
     HeroSection.secondary_button_url := None;
     HeroSection.alignment := HeroSectionCreate.alignment data;
     HeroSection.height := "full";
     HeroSection.display_order := 0;
     HeroSection.is_active := true;
     HeroSection.created_at := created;
     HeroSection.updated_at := updated |}.

Definition Feature_init (data : FeatureCreate.t) (created updated : Z)
  : Feature.t :=
  {| Feature.id := None;
     Feature.landing_page_id := FeatureCreate.landing_page_id data;
     Feature.title := FeatureCreate.title data;
     Feature.description := FeatureCreate.description data;
     Feature.icon := FeatureCreate.icon data;
     Feature.icon_color := None;
     Feature.image_url := FeatureCreate.image_url data;
     Feature.link_text := FeatureCreate.link_text data;
     Feature.link_url := FeatureCreate.link_url data;
     Feature.background_color := None;
     Feature.text_color := None;
     Feature.display_order := 0;
     Feature.is_featured := FeatureCreate.is_featured data;
     Feature.is_active := true;
     Feature.created_at := created;
     Feature.updated_at := updated |}.

Definition CallToActionSection_init (data : CallToActionSectionCreate.t)
    (created updated : Z) : CallToActionSection.t :=
  {| CallToActionSection.id := None;
     CallToActionSection.landing_page_id :=
       CallToActionSectionCreate.landing_page_id data;
     CallToActionSection.headline := CallToActionSectionCreate.headline data;
     CallToActionSection.subheadline :=
       CallToActionSectionCreate.subheadline data;
     CallToActionSection.description :=
       CallToActionSectionCreate.description data;
     CallToActionSection.primary_button_text :=
       CallToActionSectionCreate.primary_button_text data;
     CallToActionSection.primary_button_url :=
       CallToActionSectionCreate.primary_button_url data;
     CallToActionSection.primary_button_style := "primary";
     CallToActionSection.secondary_button_text :=
       CallToActionSectionCreate.secondary_button_text data;
     CallToActionSection.secondary_button_url :=
       CallToActionSectionCreate.secondary_button_url data;
     CallToActionSection.secondary_button_style := "secondary";
     CallToActionSection.background_color := None;
     CallToActionSection.text_color := None;
     CallToActionSection.background_image_url := None;
     CallToActionSection.alignment :=
       CallToActionSectionCreate.alignment data;
     CallToActionSection.size := "medium";
     CallToActionSection.display_order := 0;
     CallToActionSection.is_active := true;
     CallToActionSection.created_at := created;
     CallToActionSection.updated_at := updated |}.

(** What a persisted row says about the fields of its Create schema. *)

Definition LandingPage_dump (p : LandingPage.t) : LandingPageCreate.t :=
  LandingPageCreate.mk (LandingPage.title p) (LandingPage.slug p)
    (LandingPage.meta_title p) (LandingPage.meta_description p).

Definition HeroSection_dump (h : HeroSection.t) : HeroSectionCreate.t :=
  HeroSectionCreate.mk (HeroSection.landing_page_id h)
    (HeroSection.headline h) (HeroSection.subheadline h)
    (HeroSection.description h) (HeroSection.background_image_url h)
    (HeroSection.primary_button_text h) (HeroSection.primary_button_url h)
    (HeroSection.alignment h).

Definition Feature_dump (f : Feature.t) : FeatureCreate.t :=
  FeatureCreate.mk (Feature.landing_page_id f) (Feature.title f)
    (Feature.description f) (Feature.icon f) (Feature.image_url f)
    (Feature.link_text f) (Feature.link_url f) (Feature.is_featured f).

Definition CallToActionSection_dump (c : CallToActionSection.t)
  : CallToActionSectionCreate.t :=
  CallToActionSectionCreate.mk (CallToActionSection.landing_page_id c)
    (CallToActionSection.headline c) (CallToActionSection.subheadline c)
    (CallToActionSection.description c)
    (CallToActionSection.primary_button_text c)
    (CallToActionSection.primary_button_url c)
    (CallToActionSection.secondary_button_text c)
    (CallToActionSection.secondary_button_url c)
    (CallToActionSection.alignment c).

(** ** The record store

    One table per model, rows in insertion order.  [commits] counts the
    commits attempted so far and [clock] the readings of [utcnow] taken so
    far; both only index the environment below. *)

Record Store : Type := mkStore {
  landing_pages : list LandingPage.t;
  hero_sections : list HeroSection.t;
  features : list Feature.t;
  cta_sections : list CallToActionSection.t;
  commits : nat;
  clock : nat
}.

Definition empty_store : Store := mkStore [] [] [] [] 0 0.

(** What lies outside the program: whether the store is reachable at a given
    commit, what the clock shows at a given reading, and whether the engine
    behind [get_session] enforces the declared foreign keys. *)
Record Env : Type := mkEnv {
  outage : nat → bool;
  utcnow : nat → Z;
  foreign_keys : bool
}.

(** A store that is always reachable, with the clock reading its index. *)
Definition calm (fk : bool) : Env := mkEnv (λ _, false) Z.of_nat fk.

(** The four tables of a store, without the two counters. *)
Definition rows (s : Store) :=
  (landing_pages s, hero_sections s, features s, cta_sections s).

(** *** Computations over the store that may raise *)

Definition M (A : Type) : Type := Store → result A * Store.

Definition ret {A} (a : A) : M A := λ s, (Ok a, s).

Definition raise {A} (e : error) : M A := λ s, (Err e, s).

Definition lift {A} (r : result A) : M A := λ s, (r, s).

(** Sequencing: an exception skips the rest, the store changes made before
    it stay. *)
Definition bind {A B} (m : M A) (k : A → M B) : M B := λ s,
  match m s with
  | (Ok a, s') => k a s'
  | (Err e, s') => (Err e, s')
  end.

Notation "x <- m ;; k" := (bind m (λ x, k))
  (at level 100, m at next level, right associativity,
   format "'[v' x  <-  m  ;;  '/' k ']'").

(** [for x in xs: body(x)]. *)
Fixpoint for_each {A B} (xs : list A) (body : A → M B) : M unit :=
  match xs with
  | [] => ret tt
  | x :: xs' => _ <- body x ;; for_each xs' body
  end.

(** Validation of a list literal of schema instances, left to right. *)
Fixpoint all_ok {A} (rs : list (result A)) : result (list A) :=
  match rs with
  | [] => Ok []
  | r :: rs' => rbind r (λ a, rbind (all_ok rs') (λ l, Ok (a :: l)))
  end.

Definition tick (s : Store) : Store :=
  mkStore (landing_pages s) (hero_sections s) (features s) (cta_sections s)
    (commits s) (S (clock s)).

Definition count_commit (s : Store) : Store :=
  mkStore (landing_pages s) (hero_sections s) (features s) (cta_sections s)
    (S (commits s)) (clock s).

(** [datetime.utcnow()]. *)
Definition read_clock (env : Env) : M Z := λ s,
  (Ok (utcnow env (clock s)), tick s).

(** The key given to a new row: one more than the largest key in the table. *)
Definition next_id (ids : list (option Z)) : Z :=
  1 + foldr Z.max 0 (omap id ids).

(** [session.add(row); session.commit(); session.refresh(row)]: the commit
    is counted, fails when the store is out of reach or when a constraint
    of the table is violated, and otherwise appends the row. *)
Definition commit {R} (env : Env) (violated : Store → bool)
    (insert : Store → R * Store) : M R := λ s,
  if outage env (commits s) then (Err OperationalError, count_commit s)
  else if violated s then (Err IntegrityError, count_commit s)
  else let '(r, s') := insert (count_commit s) in (Ok r, s').

(** What a failed commit raises: one of the two store errors, and the
    constraint error whenever the store was within reach. *)
Definition store_error (env : Env) (s : Store) (e : error) : Prop :=
  (e = OperationalError ∨ e = IntegrityError)
  ∧ (outage env (commits s) = false → e = IntegrityError).

(** [slug] is declared [unique=True]. *)
Definition slug_taken (slug : string) (s : Store) : bool :=
  existsb (λ p, String.eqb (LandingPage.slug p) slug) (landing_pages s).

(** [landing_page_id] is declared [foreign_key="landing_pages.id"]. *)
Definition page_exists (page_id : Z) (s : Store) : bool :=
  existsb (λ p, bool_decide (LandingPage.id p = Some page_id))
    (landing_pages s).

Definition dangling (env : Env) (page_id : Z) (s : Store) : bool :=
  foreign_keys env && negb (page_exists page_id s).

Definition add_landing_page (p : LandingPage.t) (s : Store)
  : LandingPage.t * Store :=
  let row := LandingPage.set_id (next_id (LandingPage.id <$> landing_pages s)) p in
  (row, mkStore (landing_pages s ++ [row]) (hero_sections s) (features s)
          (cta_sections s) (commits s) (clock s)).

Definition add_hero_section (h : HeroSection.t) (s : Store)
  : HeroSection.t * Store :=
  let row := HeroSection.set_id (next_id (HeroSection.id <$> hero_sections s)) h in
  (row, mkStore (landing_pages s) (hero_sections s ++ [row]) (features s)
          (cta_sections s) (commits s) (clock s)).

Definition add_feature (f : Feature.t) (s : Store) : Feature.t * Store :=
  let row := Feature.set_id (next_id (Feature.id <$> features s)) f in
  (row, mkStore (landing_pages s) (hero_sections s) (features s ++ [row])
          (cta_sections s) (commits s) (clock s)).

Definition add_cta_section (c : CallToActionSection.t) (s : Store)
  : CallToActionSection.t * Store :=
  let row :=
    CallToActionSection.set_id
      (next_id (CallToActionSection.id <$> cta_sections s)) c in
  (row, mkStore (landing_pages s) (hero_sections s) (features s)
          (cta_sections s ++ [row]) (commits s) (clock s)).

(** [session.get(Model, key)]: the persisted row with that primary key. *)
Definition get_landing_page (key : Z) (s : Store) : option LandingPage.t :=
  head (filter (λ p, LandingPage.id p = Some key) (landing_pages s)).

Definition get_hero_section (key : Z) (s : Store) : option HeroSection.t :=
  head (filter (λ h, HeroSection.id h = Some key) (hero_sections s)).

Definition get_feature (key : Z) (s : Store) : option Feature.t :=
  head (filter (λ f, Feature.id f = Some key) (features s)).

Definition get_cta_section (key : Z) (s : Store)
  : option CallToActionSection.t :=
  head (filter (λ c, CallToActionSection.id c = Some key) (cta_sections s)).

(** *** [ORDER BY]

    A stable insertion sort by a boolean "comes no later than": rows that
    the order does not separate keep their insertion order. *)

Fixpoint insert_by {A} (leb : A → A → bool) (x : A) (l : list A) : list A :=
  match l with
  | [] => [x]
  | y :: l' => if leb x y then x :: y :: l' else y :: insert_by leb x l'
  end.

Fixpoint order_by {A} (leb : A → A → bool) (l : list A) : list A :=
  match l with
  | [] => []
  | x :: l' => insert_by leb x (order_by leb l')
  end.

(** The relation a boolean order decides. *)
Definition le_of {A} (leb : A → A → bool) : relation A :=
  λ x y, leb x y = true.

(** [asc(HeroSection.display_order)]. *)
Definition hero_leb (a b : HeroSection.t) : bool :=
  (HeroSection.display_order a <=? HeroSection.display_order b)%Z.

(** [asc(Feature.display_order), asc(Feature.title)]; titles compare
    character by character. *)
Definition feature_leb (a b : Feature.t) : bool :=
  (Feature.display_order a <? Feature.display_order b)%Z
  || ((Feature.display_order a =? Feature.display_order b)%Z
      && String.leb (Feature.title a) (Feature.title b)).

(** [asc(CallToActionSection.display_order)]. *)
Definition cta_leb (a b : CallToActionSection.t) : bool :=
  (CallToActionSection.display_order a
   <=? CallToActionSection.display_order b)%Z.


(** ** The service ([app/landing_service.py]) *)

Definition dict (items : list (string * value)) : kwargs := list_to_map items.

Module LandingPageService.

(** *** Read accessors: [select(...).where(and_(...)).order_by(...)]

    A read is a function of the tables: what the query returns when the
    store answers it.  It has no error result of its own and leaves the
    store as it is. *)

Definition get_active_landing_page (s : Store) (slug : string)
  : option LandingPage.t :=
  head (filter (λ p, LandingPage.slug p = slug ∧ LandingPage.is_active p = true)
          (landing_pages s)).

Definition get_hero_sections (s : Store) (landing_page_id : Z)
  : list HeroSection.t :=
  order_by hero_leb
    (filter (λ h, HeroSection.landing_page_id h = landing_page_id
                  ∧ HeroSection.is_active h = true)
       (hero_sections s)).

Definition get_features (s : Store) (landing_page_id : Z) : list Feature.t :=
  order_by feature_leb
    (filter (λ f, Feature.landing_page_id f = landing_page_id
                  ∧ Feature.is_active f = true)
       (features s)).

Definition get_cta_sections (s : Store) (landing_page_id : Z)
  : list CallToActionSection.t :=
  order_by cta_leb
    (filter (λ c, CallToActionSection.landing_page_id c = landing_page_id
                  ∧ CallToActionSection.is_active c = true)
       (cta_sections s)).

(** *** Creation: one session and one commit per call *)

Definition create_landing_page (env : Env) (data : LandingPageCreate.t)
  : M LandingPage.t :=
  created <- read_clock env ;;
  updated <- read_clock env ;;
  let landing_page := LandingPage_init data created updated in
  commit env (slug_taken (LandingPage.slug landing_page))
    (add_landing_page landing_page).

Definition create_hero_section (env : Env) (data : HeroSectionCreate.t)
  : M HeroSection.t :=
  created <- read_clock env ;;
  updated <- read_clock env ;;
  let hero_section := HeroSection_init data created updated in
  commit env (dangling env (HeroSection.landing_page_id hero_section))
    (add_hero_section hero_section).

Definition create_feature (env : Env) (data : FeatureCreate.t)
  : M Feature.t :=
  created <- read_clock env ;;
  updated <- read_clock env ;;
  let feature := Feature_init data created updated in
  commit env (dangling env (Feature.landing_page_id feature))
    (add_feature feature).

Definition create_cta_section (env : Env)
    (data : CallToActionSectionCreate.t) : M CallToActionSection.t :=
  created <- read_clock env ;;
  updated <- read_clock env ;;
  let cta_section := CallToActionSection_init data created updated in
  commit env (dangling env (CallToActionSection.landing_page_id cta_section))
    (add_cta_section cta_section).

(** *** Sample data: the keyword arguments as [create_sample_data] writes
    them *)

Definition landing_page_kwargs : kwargs :=
  dict [("title", VStr "Modern Landing Page");
        ("slug", VStr "home");
        ("meta_title", VStr "Modern Landing Page - Beautiful Design");
        ("meta_description",
         VStr "A modern and elegant landing page with clean design and engaging features.")].

Definition hero_kwargs (page_id : Z) : kwargs :=
  dict [("landing_page_id", VInt page_id);
        ("headline", VStr "Transform Your Business with Modern Solutions");
        ("subheadline",
         VStr "Unlock your potential with our cutting-edge platform");
        ("description",
         VStr "Experience the future of business automation with our intuitive, powerful, and beautifully designed platform that grows with your needs.");
        ("background_color", VStr "#1e293b");
        ("text_color", VStr "#ffffff");
        ("primary_button_text", VStr "Get Started");
        ("primary_button_url", VStr "/signup");
        ("alignment", VStr "center");
        ("height", VStr "full")].

Definition features_kwargs (page_id : Z) : list kwargs :=
  [ dict [("landing_page_id", VInt page_id);
          ("title", VStr "Lightning Fast Performance");
          ("description",
           VStr "Built with modern technology stack for maximum speed and reliability. Experience blazing-fast load times and seamless user interactions.");
          ("icon", VStr "speed");
          ("icon_color", VStr "#10b981");
          ("display_order", VInt 1);
          ("is_featured", VBool true)];
    dict [("landing_page_id", VInt page_id);
          ("title", VStr "Intuitive Design");
          ("description",
           VStr "User-centered design that makes complex tasks simple. Our interface adapts to your workflow, not the other way around.");
          ("icon", VStr "design_services");
          ("icon_color", VStr "#3b82f6");
          ("display_order", VInt 2);
          ("is_featured", VBool true)];
    dict [("landing_page_id", VInt page_id);
          ("title", VStr "Enterprise Security");
          ("description",
           VStr "Bank-level security with end-to-end encryption, SSO integration, and compliance with industry standards.");
          ("icon", VStr "security");
          ("icon_color", VStr "#8b5cf6");
          ("display_order", VInt 3);
          ("is_featured", VBool true)];
    dict [("landing_page_id", VInt page_id);
          ("title", VStr "24/7 Support");
          ("description",
           VStr "Our dedicated support team is available around the clock to help you succeed with personalized assistance.");
          ("icon", VStr "support_agent");
          ("icon_color", VStr "#f59e0b");
          ("display_order", VInt 4)];
    dict [("landing_page_id", VInt page_id);
          ("title", VStr "Scalable Infrastructure");
          ("description",
           VStr "From startup to enterprise, our platform scales with your business without compromising performance.");
          ("icon", VStr "trending_up");
          ("icon_color", VStr "#ef4444");
          ("display_order", VInt 5)];
    dict [("landing_page_id", VInt page_id);
          ("title", VStr "Advanced Analytics");
          ("description",
           VStr "Make data-driven decisions with comprehensive analytics and real-time insights into your business metrics.");
          ("icon", VStr "analytics");
          ("icon_color", VStr "#06b6d4");
          ("display_order", VInt 6)] ].

Definition cta_kwargs (page_id : Z) : kwargs :=
  dict [("landing_page_id", VInt page_id);
        ("headline", VStr "Ready to Transform Your Business?");
        ("subheadline", VStr "Join thousands of satisfied customers");
        ("description",
         VStr "Start your journey today with our free trial. No credit card required, no hidden fees, just pure innovation at your fingertips.");
        ("primary_button_text", VStr "Start Free Trial");
        ("primary_button_url", VStr "/trial");
        ("secondary_button_text", VStr "View Pricing");
        ("secondary_button_url", VStr "/pricing");
        ("background_color", VStr "#f8fafc");
        ("alignment", VStr "center");
        ("size", VStr "large")].

(** The component inserts of [create_sample_data], once the page has its
    key: the hero section, the six features (the list literal is built, and
    so validated, as a whole before the loop), the call to action. *)
Definition create_sample_components (env : Env) (page_id : Z) : M unit :=
  hero_data <- lift (HeroSectionCreate.init (hero_kwargs page_id)) ;;
  _ <- create_hero_section env hero_data ;;
  features_data <-
    lift (all_ok (FeatureCreate.init <$> features_kwargs page_id)) ;;
  _ <- for_each features_data (create_feature env) ;;
  cta_data <- lift (CallToActionSectionCreate.init (cta_kwargs page_id)) ;;
  _ <- create_cta_section env cta_data ;;
  ret tt.

Definition create_sample_data (env : Env) : M LandingPage.t :=
  landing_page_data <- lift (LandingPageCreate.init landing_page_kwargs) ;;
  landing_page <- create_landing_page env landing_page_data ;;
  match LandingPage.id landing_page with
  | None => raise ValueError
  | Some page_id =>
      _ <- create_sample_components env page_id ;;
      ret landing_page
  end.

End LandingPageService.

(** ** The assembler ([app/landing_page.py]) *)

Module landing_page.

(** What the page functions put on the screen, in order. *)
Inductive Ui : Type :=
  | NotFoundLabel
  | ErrorLabel (e : error)
  | Notify
  | Head (title : string) (description : string)
  | Hero (hero : HeroSection.t)
  | FeaturesHeader
  | FeaturedRow (cards : list Feature.t)
  | MoreFeaturesLabel
  | FeaturesGrid (cards : list Feature.t)
  | Cta (cta : CallToActionSection.t).

(** [[f for f in features if f.is_featured][:3]]. *)
Definition featured_features (features : list Feature.t) : list Feature.t :=
  take 3 (filter (λ f, Feature.is_featured f = true) features).

(** [[f for f in features if not f.is_featured]]. *)
Definition other_features (features : list Feature.t) : list Feature.t :=
  filter (λ f, Feature.is_featured f = false) features.

Definition create_features_section (features : list Feature.t) : list Ui :=
  match features with
  | [] => []
  | _ =>
      [FeaturesHeader]
      ++ (match featured_features features with
          | [] => []
          | cards => [FeaturedRow cards]
          end)
      ++ (match other_features features with
          | [] => []
          | cards => [MoreFeaturesLabel; FeaturesGrid cards]
          end)
  end.

(** Python's [a or b] on an optional string: [b] when [a] is [None] or
    empty. *)
Definition or_else (a : option string) (b : string) : string :=
  match a with
  | None | Some EmptyString => b
  | Some s => s
  end.

Definition create_landing_page_ui (s : Store) (landing_page : LandingPage.t)
  : list Ui :=
  match LandingPage.id landing_page with
  | None => [NotFoundLabel]
  | Some page_id =>
      let hero_sections := LandingPageService.get_hero_sections s page_id in
      let features := LandingPageService.get_features s page_id in
      let cta_sections := LandingPageService.get_cta_sections s page_id in
      [Head (or_else (LandingPage.meta_title landing_page)
               (LandingPage.title landing_page))
            (or_else (LandingPage.meta_description landing_page) EmptyString)]
      ++ (Hero <$> hero_sections)
      ++ (match features with
          | [] => []
          | _ => create_features_section features
          end)
      ++ (Cta <$> cta_sections)
  end.

(** The route ["/"]: the active page ["home"], or the sample data when there
    is none; an exception of the sample data ends as a label. *)
Definition route (env : Env) (s : Store) : list Ui * Store :=
  match LandingPageService.get_active_landing_page s "home" with
  | Some page => (create_landing_page_ui s page, s)
  | None =>
      match LandingPageService.create_sample_data env s with
      | (Ok page, s') => (Notify :: create_landing_page_ui s' page, s')
      | (Err e, s') => ([ErrorLabel e], s')
      end
  end.

(** The third claim's reading of [others]: every feature that is not among
    the [slots] first featured ones, in order.  This follows the words of
    the specification, not the code. *)
Fixpoint others_as_stated (slots : nat) (features : list Feature.t)
  : list Feature.t :=
  match features with
  | [] => []
  | f :: rest =>
      if Feature.is_featured f then
        match slots with
        | O => f :: others_as_stated O rest
        | S slots' => others_as_stated slots' rest
        end
      else f :: others_as_stated slots rest
  end.

End landing_page.

(** ** Stores used in the examples *)

Module Examples.

Definition page_row (key : Z) (slug : string) (active : bool)
  : LandingPage.t :=
  LandingPage.mk (Some key) "Page" slug active None None 0 0.

Definition hero_row (key page_id order : Z) (headline : string)
    (active : bool) : HeroSection.t :=
  HeroSection.mk (Some key) page_id headline None None None None None None
    None None None "center" "full" order active 0 0.

Definition feature_row (key page_id order : Z) (title : string)
    (featured active : bool) : Feature.t :=
  Feature.mk (Some key) page_id title "Description" None None None None None
    None None order featured active 0 0.

Definition cta_row (key page_id order : Z) (headline : string)
    (active : bool) : CallToActionSection.t :=
  CallToActionSection.mk (Some key) page_id headline None None "Go" "/go"
    "primary" None None "secondary" None None None "center" "medium" order
    active 0 0.

(** Display orders 2 and 1, inserted in that order. *)
Definition two_orders : Store :=
  mkStore [page_row 1 "test" true] []
    [feature_row 1 1 2 "B" false true; feature_row 2 1 1 "A" false true]
    [] 3 6.

(** Equal display orders, titles "B" then "A". *)
Definition tied_orders : Store :=
  mkStore [page_row 1 "test" true] []
    [feature_row 1 1 1 "B" false true; feature_row 2 1 1 "A" false true]
    [] 3 6.

(** An inactive page that owns one active and one inactive row of each
    kind, and an active page without components. *)
Definition mixed : Store :=
  mkStore [page_row 1 "old" false; page_row 2 "empty" true]
    [hero_row 1 1 0 "shown" true; hero_row 2 1 0 "hidden" false]
    [feature_row 1 1 0 "shown" false true;
     feature_row 2 1 0 "hidden" false false]
    [cta_row 1 1 0 "shown" true; cta_row 2 1 0 "hidden" false]
    8 16.

(** Five featured features with display orders 1 to 5 and one plain
    feature after them. *)
Definition five_featured : Store :=
  mkStore [page_row 1 "home" true] []
    [feature_row 1 1 1 "F1" true true; feature_row 2 1 2 "F2" true true;
     feature_row 3 1 3 "F3" true true; feature_row 4 1 4 "F4" true true;
     feature_row 5 1 5 "F5" true true; feature_row 6 1 6 "P6" false true]
    [] 7 14.

(** The page of the sample data as an empty store holds it. *)
Definition sample_page : LandingPage.t :=
  LandingPage.mk (Some 1) "Modern Landing Page" "home" true
    (Some "Modern Landing Page - Beautiful Design")
    (Some "A modern and elegant landing page with clean design and engaging features.")
    0 1.

(** A store that is out of reach at its fourth commit only. *)
Definition flaky : Env := mkEnv (λ n, Nat.eqb n 3) Z.of_nat true.

(** The store after one run of the sample data on an empty store that is
    always reachable. *)
Definition seeded : Store :=
  (LandingPageService.create_sample_data (calm true) empty_store).2.

End Examples.

(** Creation inputs used in the examples. *)
Module Inputs.

Definition page : LandingPageCreate.t :=
  LandingPageCreate.mk "Test Landing Page" "test-page"
    (Some "Test Page Title") None.

Definition home_again : LandingPageCreate.t :=
  LandingPageCreate.mk "Another Page" "home" None None.

Definition hero : HeroSectionCreate.t :=
  HeroSectionCreate.mk 2 "Test Headline" (Some "Test Subheadline") None None
    (Some "Click Me") (Some "/test") "left".

Definition feature : FeatureCreate.t :=
  FeatureCreate.mk 2 "Test Feature" "Test feature description" (Some "star")
    None None None true.

Definition cta : CallToActionSectionCreate.t :=
  CallToActionSectionCreate.mk 2 "Test CTA" None (Some "Test CTA description")
    "Primary Action" "/primary" (Some "Secondary Action") (Some "/secondary")
    "center".

(** A feature asked for with columns the schema does not declare. *)
Definition feature_kwargs : kwargs :=
  dict [("landing_page_id", VInt 2);
        ("title", VStr "Feature B");
        ("description", VStr "Description B");
        ("display_order", VInt 2);
        ("icon_color", VStr "#10b981");
        ("background_color", VStr "#ffffff");
        ("text_color", VStr "#000000");
        ("is_active", VBool false)].

(** A hero section asked for with colours, a height and an order. *)
Definition hero_kwargs : kwargs :=
  dict [("landing_page_id", VInt 2);
        ("headline", VStr "First Hero");
        ("background_color", VStr "#1e293b");
        ("text_color", VStr "#ffffff");
        ("height", VStr "compact");
        ("display_order", VInt 2);
        ("is_active", VBool false)].

End Inputs.

(** ** Invariants of the store *)

(** Every row of a table has a key and no two rows share one. *)
Definition keyed {A} (key_of : A → option Z) (l : list A) : Prop :=
  NoDup (key_of <$> l) ∧ Forall (λ r, is_Some (key_of r)) l.

Definition keys_unique (s : Store) : Prop :=
  keyed LandingPage.id (landing_pages s)
  ∧ keyed HeroSection.id (hero_sections s)
  ∧ keyed Feature.id (features s)
  ∧ keyed CallToActionSection.id (cta_sections s).

(** No two pages share a slug. *)
Definition slugs_unique (s : Store) : Prop :=
  NoDup (LandingPage.slug <$> landing_pages s).

(** Every component belongs to a page of the store. *)
Definition references_valid (s : Store) : Prop :=
  Forall (λ h, page_exists (HeroSection.landing_page_id h) s = true)
    (hero_sections s)
  ∧ Forall (λ f, page_exists (Feature.landing_page_id f) s = true)
      (features s)
  ∧ Forall (λ c, page_exists (CallToActionSection.landing_page_id c) s = true)
      (cta_sections s).

(** A computation keeps a property of the store, however it ends. *)
Definition preserves {A} (inv : Store → Prop) (m : M A) : Prop :=
  ∀ s r s', inv s → m s = (r, s') → inv s'.


(** Every table of the second store starts with the rows of the first, in
    the same order and unchanged. *)
Definition extends (s s' : Store) : Prop :=
  landing_pages s `prefix_of` landing_pages s'
  ∧ hero_sections s `prefix_of` hero_sections s'
  ∧ features s `prefix_of` features s'
  ∧ cta_sections s `prefix_of` cta_sections s'.

(** A computation that, on a store holding the page [page_id], attempts
    exactly [k] commits when it ends well, and otherwise raises the store's
    operational error because one of its at most [k] commits found the
    store out of reach; the page is still there afterwards. *)
Definition within {A} (env : Env) (page_id : Z) (k : nat) (m : M A) : Prop :=
  ∀ s r s',
    page_exists page_id s = true → m s = (r, s') →
    page_exists page_id s' = true
    ∧ match r with
      | Ok _ => commits s' = (commits s + k)%nat
      | Err e =>
          e = OperationalError
          ∧ ∃ n, (commits s ≤ n < commits s + k)%nat ∧ outage env n = true
      end.

Module MoreExamples.

(** A store whose only page "home" has been deactivated. *)
Definition retired_home : Store :=
  mkStore [Examples.page_row 1 "home" false]
    [Examples.hero_row 1 1 0 "Old hero" true] [] [] 2 4.

(** A hero section whose first button has the url "#" and whose second
    has none. *)
Definition hero_hash : HeroSection.t :=
  HeroSection.mk (Some 1) 1 "Headline" None None None None None
    (Some "Go") (Some "#") (Some "More") None "center" "full" 0 true 0 0.

End MoreExamples.

(** The feature cards a rendering shows, in order. *)
Definition cards_shown (ui : list landing_page.Ui) : list Feature.t :=
  concat ((λ node, match node with
                   | landing_page.FeaturedRow cards
                   | landing_page.FeaturesGrid cards => cards
                   | _ => []
                   end) <$> ui).

(** ** The widgets of a page ([app/landing_page.py])

    What [create_hero_section], [create_feature_card] and
    [create_cta_section] of the page module build: the elements in the
    order of the calls, each with the arguments of its call. *)

Module view.

#[warnings="-register-all"]
Inductive Element : Type :=
  | Box (kind style classes props : string) (children : list Element)
  | Label (text classes : string)
  | Button (text : string) (on_click : option string)
           (classes props : string)
  | Icon (name size style : string)
  | Badge (text classes : string)
  | Link (text target : string) (new_tab : bool) (classes : string).

Definition nl : string := String (Ascii.ascii_of_nat 10) EmptyString.

(** The truth value Python gives an optional string in [if a:]. *)
Definition truthy (a : option string) : bool :=
  match a with
  | None | Some EmptyString => false
  | Some _ => true
  end.

(** [handle_primary_click] and [handle_secondary_click] of the hero
    section: where a click navigates to, if anywhere. *)
Definition handle_hero_click (url : string) : option string :=
  if String.eqb url "#" then None else Some url.

Definition hero_bg_style (hero : HeroSection.t) : string :=
  (nl ++ "        background: "
   ++ landing_page.or_else (HeroSection.background_color hero)
        "linear-gradient(135deg, #1e293b 0%, #334155 100%)"
   ++ ";" ++ nl ++ "        color: "
   ++ landing_page.or_else (HeroSection.text_color hero) "#ffffff"
   ++ ";" ++ nl ++ "        min-height: 100vh;"
   ++ nl ++ "        position: relative;"
   ++ nl ++ "        overflow: hidden;"
   ++ nl ++ "    ")
  ++ (if truthy (HeroSection.background_image_url hero)
      then "background-image: url('"
           ++ default EmptyString (HeroSection.background_image_url hero)
           ++ "'); background-size: cover; background-position: center;"
      else EmptyString).

Definition hero_decoration_style : string :=
  nl ++ "            position: absolute;"
  ++ nl ++ "            top: 0;"
  ++ nl ++ "            left: 0;"
  ++ nl ++ "            right: 0;"
  ++ nl ++ "            bottom: 0;"
  ++ nl ++ "            background: radial-gradient(circle at 30% 20%, rgba(59, 130, 246, 0.3) 0%, transparent 50%),"
  ++ nl ++ "                        radial-gradient(circle at 70% 80%, rgba(139, 92, 246, 0.3) 0%, transparent 50%);"
  ++ nl ++ "            pointer-events: none;"
  ++ nl ++ "        ".

(** The buttons of the hero section, inside the row. *)
Definition hero_buttons (hero : HeroSection.t) : list Element :=
  ((if truthy (HeroSection.primary_button_text hero)
    then [Button (default EmptyString (HeroSection.primary_button_text hero))
            (handle_hero_click
               (landing_page.or_else (HeroSection.primary_button_url hero)
                  "#"))
            "cta-button px-8 py-4 text-lg rounded-xl shadow-lg" EmptyString]
    else [])
   ++ (if truthy (HeroSection.secondary_button_text hero)
       then [Button
               (default EmptyString (HeroSection.secondary_button_text hero))
               (handle_hero_click
                  (landing_page.or_else (HeroSection.secondary_button_url hero)
                     "#"))
               "px-8 py-4 text-lg rounded-xl border-2 border-white/30 bg-transparent hover:bg-white/10 transition-all"
               "outline"]
       else []))%list.

Definition create_hero_section (hero : HeroSection.t) : Element :=
  Box "section" (hero_bg_style hero)
    "flex items-center justify-center relative" EmptyString
    [Box "div" hero_decoration_style EmptyString EmptyString [];
     Box "column" EmptyString
       "z-10 max-w-4xl mx-auto text-center px-6 fade-in" EmptyString
       ([Label (HeroSection.headline hero)
           "text-5xl md:text-6xl font-bold mb-6 leading-tight"]
        ++ (if truthy (HeroSection.subheadline hero)
            then [Label (default EmptyString (HeroSection.subheadline hero))
                    "text-xl md:text-2xl font-light mb-8 opacity-90"]
            else [])
        ++ (if truthy (HeroSection.description hero)
            then [Label (default EmptyString (HeroSection.description hero))
                    "text-lg mb-12 max-w-2xl mx-auto opacity-80 leading-relaxed"]
            else [])
        ++ (if truthy (HeroSection.primary_button_text hero)
               || truthy (HeroSection.secondary_button_text hero)
            then [Box "row" EmptyString "gap-4 justify-center flex-wrap"
                    EmptyString (hero_buttons hero)]
            else []))%list].

Definition create_feature_card (feature : Feature.t) (is_featured : bool)
  : Element :=
  let card_classes :=
    "feature-card p-8 bg-white shadow-lg hover-lift transition-all duration-300"
    ++ (if is_featured then " ring-2 ring-blue-500/20" else EmptyString) in
  Box "card" EmptyString card_classes EmptyString
    ((if truthy (Feature.icon feature)
      then [Box "row" EmptyString "items-center mb-6" EmptyString
              ([Icon (default EmptyString (Feature.icon feature)) "3rem"
                  ("color: "
                   ++ landing_page.or_else (Feature.icon_color feature)
                        "#3b82f6")]
               ++ (if is_featured
                   then [Badge "Featured"
                           "ml-auto bg-gradient-to-r from-blue-500 to-purple-600 text-white"]
                   else []))%list]
      else [])
     ++ [Label (Feature.title feature)
           "text-2xl font-bold mb-4 text-gray-800";
         Label (Feature.description feature)
           "text-gray-600 leading-relaxed mb-6"]
     ++ (if truthy (Feature.link_text feature)
            && truthy (Feature.link_url feature)
         then [Link (default EmptyString (Feature.link_text feature))
                 (default EmptyString (Feature.link_url feature)) true
                 "text-blue-600 hover:text-blue-800 font-semibold inline-flex items-center"]
         else []))%list.

Definition cta_bg_style (cta : CallToActionSection.t) : string :=
  (nl ++ "        background: "
   ++ landing_page.or_else (CallToActionSection.background_color cta)
        "linear-gradient(135deg, #f8fafc 0%, #e2e8f0 100%)"
   ++ ";" ++ nl ++ "        color: "
   ++ landing_page.or_else (CallToActionSection.text_color cta) "#1f2937"
   ++ ";" ++ nl ++ "    ")
  ++ (if truthy (CallToActionSection.background_image_url cta)
      then "background-image: url('"
           ++ default EmptyString
                (CallToActionSection.background_image_url cta)
           ++ "'); background-size: cover; background-position: center;"
      else EmptyString).

(** The buttons of the call to action, inside the row; a click on either
    always navigates. *)
Definition cta_buttons (cta : CallToActionSection.t) : list Element :=
  ([if String.eqb (CallToActionSection.primary_button_style cta) "primary"
    then Button (CallToActionSection.primary_button_text cta)
           (Some (CallToActionSection.primary_button_url cta))
           "cta-button px-10 py-4 text-lg rounded-xl shadow-lg" EmptyString
    else Button (CallToActionSection.primary_button_text cta)
           (Some (CallToActionSection.primary_button_url cta))
           "px-10 py-4 text-lg rounded-xl" "outline"]
   ++ (if truthy (CallToActionSection.secondary_button_text cta)
          && truthy (CallToActionSection.secondary_button_url cta)
       then [if String.eqb (CallToActionSection.secondary_button_style cta)
                  "primary"
             then Button
                    (default EmptyString
                       (CallToActionSection.secondary_button_text cta))
                    (CallToActionSection.secondary_button_url cta)
                    "cta-button px-10 py-4 text-lg rounded-xl shadow-lg"
                    EmptyString
             else Button
                    (default EmptyString
                       (CallToActionSection.secondary_button_text cta))
                    (CallToActionSection.secondary_button_url cta)
                    "px-10 py-4 text-lg rounded-xl border-2 border-gray-300 bg-white hover:bg-gray-50 text-gray-700 transition-all"
                    "outline"]
       else []))%list.

Definition create_cta_section (cta : CallToActionSection.t) : Element :=
  Box "section" (cta_bg_style cta) "section-padding" EmptyString
    [Box "column" EmptyString "max-w-4xl mx-auto text-center px-6 slide-up"
       EmptyString
       ([Label (CallToActionSection.headline cta)
           "text-4xl md:text-5xl font-bold mb-6 text-gray-800"]
        ++ (if truthy (CallToActionSection.subheadline cta)
            then [Label
                    (default EmptyString (CallToActionSection.subheadline cta))
                    "text-xl font-medium mb-4 text-gray-700"]
            else [])
        ++ (if truthy (CallToActionSection.description cta)
            then [Label
                    (default EmptyString (CallToActionSection.description cta))
                    "text-lg mb-12 max-w-2xl mx-auto text-gray-600 leading-relaxed"]
            else [])
        ++ [Box "row" EmptyString "gap-6 justify-center flex-wrap"
              EmptyString (cta_buttons cta)])%list].

(** Every element of a tree, the root first. *)
Fixpoint flatten (e : Element) : list Element :=
  e :: match e with
       | Box _ _ _ _ children => concat (List.map flatten children)
       | _ => []
       end.

Definition is_button (e : Element) : bool :=
  match e with Button _ _ _ _ => true | _ => false end.

Definition is_badge (e : Element) : bool :=
  match e with Badge _ _ => true | _ => false end.

Definition is_link (e : Element) : bool :=
  match e with Link _ _ _ _ => true | _ => false end.

(** Where a click on a button leads, if the element is a button that
    navigates. *)
Definition click (e : Element) : option string :=
  match e with Button _ target _ _ => target | _ => None end.

End view.



(** * Properties *)

Local Open Scope list_scope.

(** ** The order on titles *)

Lemma ascii_compare_lt a b :
  Ascii.compare a b = Lt ↔ (Ascii.N_of_ascii a < Ascii.N_of_ascii b)%N.
Proof. unfold Ascii.compare. apply N.compare_lt_iff. Qed.

Lemma string_compare_refl s : String.compare s s = Eq.
Proof.
  induction s as [|a s IH]; simpl; [done|].
  unfold Ascii.compare. by rewrite N.compare_refl.
Qed.

Lemma string_compare_lt_trans s1 s2 s3 :
  String.compare s1 s2 = Lt → String.compare s2 s3 = Lt →
  String.compare s1 s3 = Lt.
Proof.
  revert s2 s3. induction s1 as [|a s1 IH]; intros [|b s2] [|c s3]; simpl;
    try done.
  destruct (Ascii.compare a b) eqn:Hab; try done;
    destruct (Ascii.compare b c) eqn:Hbc; try done; intros H1 H2.
  - apply Ascii.compare_eq_iff in Hab, Hbc. subst.
    unfold Ascii.compare. rewrite N.compare_refl. eauto.
  - apply Ascii.compare_eq_iff in Hab. subst. by rewrite Hbc.
  - apply Ascii.compare_eq_iff in Hbc. subst. by rewrite Hab.
  - rewrite ascii_compare_lt in Hab. rewrite ascii_compare_lt in Hbc.
    assert (Ascii.compare a c = Lt) as ->; [|done].
    apply ascii_compare_lt. lia.
Qed.

Lemma string_leb_refl s : String.leb s s = true.
Proof. unfold String.leb. by rewrite string_compare_refl. Qed.

Lemma string_leb_trans s1 s2 s3 :
  String.leb s1 s2 = true → String.leb s2 s3 = true → String.leb s1 s3 = true.
Proof.
  unfold String.leb.
  destruct (String.compare s1 s2) eqn:H12; try done;
    destruct (String.compare s2 s3) eqn:H23; try done; intros _ _.
  - apply String.compare_eq_iff in H12, H23. subst.
    by rewrite string_compare_refl.
  - apply String.compare_eq_iff in H12. subst. by rewrite H23.
  - apply String.compare_eq_iff in H23. subst. by rewrite H12.
  - by rewrite (string_compare_lt_trans _ _ _ H12 H23).
Qed.

(** ** [order_by] sorts, keeps every row, and is stable *)

Section order_by.
Context {A : Type} (leb : A → A → bool).

Lemma insert_by_Permutation x l : insert_by leb x l ≡ₚ x :: l.
Proof.
  induction l as [|y l IH]; simpl; [done|].
  destruct (leb x y); [done|]. rewrite IH. apply Permutation_swap.
Qed.

Lemma order_by_Permutation l : order_by leb l ≡ₚ l.
Proof.
  induction l as [|x l IH]; simpl; [done|].
  by rewrite insert_by_Permutation, IH.
Qed.

Lemma order_by_elem_of x l : x ∈ order_by leb l ↔ x ∈ l.
Proof. by rewrite order_by_Permutation. Qed.

Lemma order_by_length l : length (order_by leb l) = length l.
Proof. by rewrite order_by_Permutation. Qed.

Hypothesis leb_total : ∀ x y, leb x y = true ∨ leb y x = true.
Hypothesis leb_trans : ∀ x y z, leb x y = true → leb y z = true → leb x z = true.

Lemma insert_by_StronglySorted x l :
  StronglySorted (le_of leb) l → StronglySorted (le_of leb) (insert_by leb x l).
Proof.
  induction l as [|y l IH]; simpl; intros Hl.
  - repeat constructor.
  - apply StronglySorted_inv in Hl as [Hl Hy].
    destruct (leb x y) eqn:Hxy.
    + constructor; [by constructor|].
      constructor; [done|].
      eapply Forall_impl; [exact Hy|]. intros z Hz. by eapply leb_trans.
    + constructor; [by apply IH|].
      rewrite insert_by_Permutation. constructor; [|done].
      destruct (leb_total x y) as [H|H]; [congruence | done].
Qed.

Lemma order_by_StronglySorted l : StronglySorted (le_of leb) (order_by leb l).
Proof.
  induction l as [|x l IH]; simpl; [constructor|].
  by apply insert_by_StronglySorted.
Qed.

(** A list that is already in order is left as it is: rows the order does
    not separate keep their insertion order. *)
Lemma order_by_sorted_id l : StronglySorted (le_of leb) l → order_by leb l = l.
Proof.
  induction 1 as [|x l Hl IH Hx]; simpl; [done|].
  rewrite IH. destruct Hx as [|y l' Hxy _]; simpl; [done|].
  unfold le_of in Hxy. by rewrite Hxy.
Qed.

End order_by.

Lemma hero_leb_total a b : hero_leb a b = true ∨ hero_leb b a = true.
Proof. unfold hero_leb. rewrite !Z.leb_le. lia. Qed.

Lemma hero_leb_trans a b c :
  hero_leb a b = true → hero_leb b c = true → hero_leb a c = true.
Proof. unfold hero_leb. rewrite !Z.leb_le. lia. Qed.

Lemma cta_leb_total a b : cta_leb a b = true ∨ cta_leb b a = true.
Proof. unfold cta_leb. rewrite !Z.leb_le. lia. Qed.

Lemma cta_leb_trans a b c :
  cta_leb a b = true → cta_leb b c = true → cta_leb a c = true.
Proof. unfold cta_leb. rewrite !Z.leb_le. lia. Qed.

(** [feature_leb] is the lexicographic order on (display_order, title). *)
Lemma feature_leb_spec a b :
  feature_leb a b = true ↔
  (Feature.display_order a < Feature.display_order b)%Z
  ∨ (Feature.display_order a = Feature.display_order b
     ∧ String.leb (Feature.title a) (Feature.title b) = true).
Proof.
  unfold feature_leb.
  rewrite orb_true_iff, andb_true_iff, Z.ltb_lt, Z.eqb_eq. tauto.
Qed.

Lemma feature_leb_total a b : feature_leb a b = true ∨ feature_leb b a = true.
Proof.
  rewrite !feature_leb_spec.
  destruct (String.leb_total (Feature.title a) (Feature.title b));
    destruct (Z.lt_trichotomy (Feature.display_order a)
                (Feature.display_order b)) as [?|[?|?]]; auto.
Qed.

Lemma feature_leb_trans a b c :
  feature_leb a b = true → feature_leb b c = true → feature_leb a c = true.
Proof.
  rewrite !feature_leb_spec. intros [?|[? ?]] [?|[? ?]]; try (left; lia).
  right. split; [lia|]. by eapply string_leb_trans.
Qed.

(** ** Read accessors *)

Lemma filter_none {A} (P : A → Prop) `{∀ x, Decision (P x)} (l : list A) :
  (∀ x, x ∈ l → ¬ P x) → filter P l = [].
Proof.
  induction l as [|x l IH]; intros Hl; [done|].
  rewrite filter_cons_False by (apply Hl; left).
  apply IH. intros y Hy. apply Hl. by right.
Qed.

Lemma StronglySorted_weaken {A} (R1 R2 : relation A) l :
  (∀ x y, R1 x y → R2 x y) → StronglySorted R1 l → StronglySorted R2 l.
Proof.
  intros HR. induction 1 as [|x l _ IH Hx]; constructor; [done|].
  eapply Forall_impl; [exact Hx|]. auto.
Qed.

Import LandingPageService.

(** C1. [get_features] returns exactly the rows of the page that are
    active, each as often as the table holds it, in ascending
    (display_order, title) order; rows with orders 2, 1 come back as
    "A", "B", and so do the tied rows (1, "B"), (1, "A"). *)
Theorem get_features_filtered_and_ordered :
  (∀ (s : Store) (page_id : Z),
     (∀ f, f ∈ get_features s page_id ↔
           f ∈ features s ∧ Feature.landing_page_id f = page_id
           ∧ Feature.is_active f = true)
     ∧ get_features s page_id ≡ₚ
         filter (λ f, Feature.landing_page_id f = page_id
                      ∧ Feature.is_active f = true) (features s)
     ∧ StronglySorted
         (λ a b, (Feature.display_order a < Feature.display_order b)%Z
                 ∨ (Feature.display_order a = Feature.display_order b
                    ∧ String.leb (Feature.title a) (Feature.title b) = true))
         (get_features s page_id))
  ∧ Feature.title <$> get_features Examples.two_orders 1 = ["A"; "B"]
  ∧ Feature.title <$> get_features Examples.tied_orders 1 = ["A"; "B"].
Proof.
  split; [|split; reflexivity].
  intros s page_id. unfold get_features. split; [|split].
  - intros f. rewrite order_by_elem_of, list_elem_of_filter. tauto.
  - apply order_by_Permutation.
  - eapply StronglySorted_weaken;
      [|apply order_by_StronglySorted;
         [apply feature_leb_total | apply feature_leb_trans]].
    intros a b Hab. by apply feature_leb_spec.
Qed.

(** C2. A row whose [is_active] is false is in the result of no read
    accessor, whatever the page id and whatever the store, so whatever the
    owning page's own flag; the accessors are functions of the store and
    leave it as it is. *)
Theorem inactive_rows_hidden (s : Store) (page_id : Z)
    (h : HeroSection.t) (f : Feature.t) (c : CallToActionSection.t) :
  HeroSection.is_active h = false →
  Feature.is_active f = false →
  CallToActionSection.is_active c = false →
  (h ∉ get_hero_sections s page_id)
  ∧ (f ∉ get_features s page_id)
  ∧ (c ∉ get_cta_sections s page_id).
Proof.
  intros Hh Hf Hc.
  unfold get_hero_sections, get_features, get_cta_sections.
  rewrite !order_by_elem_of, !list_elem_of_filter.
  repeat split; intros [[_ Hact] _]; congruence.
Qed.

(** The hidden rows of an inactive page: still in the tables, in no
    result. *)
Lemma inactive_rows_hidden_witness :
  let h := Examples.hero_row 2 1 0 "hidden" false in
  let f := Examples.feature_row 2 1 0 "hidden" false false in
  let c := Examples.cta_row 2 1 0 "hidden" false in
  (h ∈ hero_sections Examples.mixed ∧ f ∈ features Examples.mixed
   ∧ c ∈ cta_sections Examples.mixed)
  ∧ ((h ∉ get_hero_sections Examples.mixed 1)
     ∧ (f ∉ get_features Examples.mixed 1)
     ∧ (c ∉ get_cta_sections Examples.mixed 1)).
Proof.
  split.
  - repeat split; apply list_elem_of_In; simpl; auto.
  - apply inactive_rows_hidden; reflexivity.
Defined.

(** C5. When no active row of a table carries the page id (the page has no
    components, or there is no such page), each accessor returns the empty
    list; the accessors are total and have no error result. *)
Theorem accessors_empty_without_rows (s : Store) (page_id : Z) :
  (∀ h, h ∈ hero_sections s →
        ¬ (HeroSection.landing_page_id h = page_id
           ∧ HeroSection.is_active h = true)) →
  (∀ f, f ∈ features s →
        ¬ (Feature.landing_page_id f = page_id
           ∧ Feature.is_active f = true)) →
  (∀ c, c ∈ cta_sections s →
        ¬ (CallToActionSection.landing_page_id c = page_id
           ∧ CallToActionSection.is_active c = true)) →
  get_hero_sections s page_id = []
  ∧ get_features s page_id = []
  ∧ get_cta_sections s page_id = [].
Proof.
  intros Hh Hf Hc.
  unfold get_hero_sections, get_features, get_cta_sections.
  by rewrite !filter_none.
Qed.

(** Page 2 of [mixed] exists and has no components; 999 is the key of no
    page. *)
Lemma accessors_empty_without_rows_witness :
  (get_hero_sections Examples.mixed 2 = []
   ∧ get_features Examples.mixed 2 = []
   ∧ get_cta_sections Examples.mixed 2 = [])
  ∧ (get_hero_sections Examples.mixed 999 = []
     ∧ get_features Examples.mixed 999 = []
     ∧ get_cta_sections Examples.mixed 999 = []).
Proof.
  split; apply accessors_empty_without_rows;
    intros x Hx; apply list_elem_of_In in Hx; simpl in Hx;
    intros [Hid _]; intuition (subst; discriminate).
Defined.

(** ** The feature partition of the assembler *)

Import landing_page.

Lemma others_as_stated_few (slots : nat) (fs : list Feature.t) :
  (length (filter (λ f, Feature.is_featured f = true) fs) ≤ slots)%nat →
  others_as_stated slots fs = other_features fs.
Proof.
  unfold other_features. revert slots.
  induction fs as [|f fs IH]; intros slots; simpl; [done|].
  rewrite !filter_cons. destruct (Feature.is_featured f) eqn:Hf; simpl.
  - repeat case_decide; try done. simpl. destruct slots; [lia|].
    intros Hlen. apply IH. lia.
  - repeat case_decide; try done. intros Hlen. f_equal. by apply IH.
Qed.

(** C3 as stated fails: with five featured features the fourth and the
    fifth are in neither part, where the claim puts them in [others]. *)
Lemma others_drops_overflow_counterexample :
  let fs := get_features Examples.five_featured 1 in
  Feature.title <$> fs = ["F1"; "F2"; "F3"; "F4"; "F5"; "P6"]
  ∧ Feature.title <$> featured_features fs = ["F1"; "F2"; "F3"]
  ∧ Feature.title <$> others_as_stated 3 fs = ["F4"; "F5"; "P6"]
  ∧ Feature.title <$> other_features fs = ["P6"]
  ∧ other_features fs ≠ others_as_stated 3 fs.
Proof. repeat split; try reflexivity. discriminate. Qed.

(** C3, amended. [featured] is the first three featured features in the
    given order; [others] is exactly the features that are not featured, in
    the given order, so a featured feature past the third is in neither
    part; when at most three features are featured, [others] is every
    feature outside [featured], as the claim has it.  The section shows
    these two lists and nothing else of the features. *)
Theorem featured_cap_and_others (fs : list Feature.t) :
  (∃ overflow,
     filter (λ f, Feature.is_featured f = true) fs
       = (featured_features fs ++ overflow)%list
     ∧ length (featured_features fs)
       = (length (filter (λ f, Feature.is_featured f = true) fs) `min` 3)%nat)
  ∧ featured_features fs `sublist_of` fs
  ∧ other_features fs `sublist_of` fs
  ∧ (∀ f, f ∈ other_features fs ↔ f ∈ fs ∧ Feature.is_featured f = false)
  ∧ ((length (filter (λ f, Feature.is_featured f = true) fs) ≤ 3)%nat →
     featured_features fs = filter (λ f, Feature.is_featured f = true) fs
     ∧ other_features fs = others_as_stated 3 fs)
  ∧ (fs ≠ [] →
     ∀ cards, (FeaturedRow cards ∈ create_features_section fs →
               cards = featured_features fs)
              ∧ (FeaturesGrid cards ∈ create_features_section fs →
                 cards = other_features fs)).
Proof.
  set (P := λ f, Feature.is_featured f = true).
  split; [|split; [|split; [|split; [|split]]]].
  - exists (drop 3 (filter P fs)). unfold featured_features. split.
    + by rewrite take_drop.
    + rewrite length_take. apply Nat.min_comm.
  - unfold featured_features.
    etrans; [apply sublist_take | apply sublist_filter].
  - apply sublist_filter.
  - intros f. unfold other_features. rewrite list_elem_of_filter. tauto.
  - intros Hlen. split.
    + by apply take_ge.
    + symmetry. by apply others_as_stated_few.
  - intros Hne cards. unfold create_features_section.
    destruct fs as [|f0 fs']; [done|].
    destruct (featured_features (f0 :: fs')) as [|a la];
      destruct (other_features (f0 :: fs')) as [|b lb]; simpl;
      split; intros Hin; apply list_elem_of_In in Hin; simpl in Hin;
      intuition (try discriminate; congruence).
Qed.

(** Three featured features and one plain one: the claim's reading holds
    and the section shows both parts. *)
Lemma featured_cap_and_others_witness :
  let fs := [Examples.feature_row 1 1 1 "F1" true true;
             Examples.feature_row 2 1 2 "F2" true true;
             Examples.feature_row 3 1 3 "F3" true true;
             Examples.feature_row 4 1 4 "P4" false true] in
  (featured_features fs = filter (λ f, Feature.is_featured f = true) fs
   ∧ other_features fs = others_as_stated 3 fs)
  ∧ ∀ cards, (FeaturedRow cards ∈ create_features_section fs →
              cards = featured_features fs)
             ∧ (FeaturesGrid cards ∈ create_features_section fs →
                cards = other_features fs).
Proof.
  intros fs. pose proof (featured_cap_and_others fs) as (_ & _ & _ & _ & H5 & H6).
  split; [apply H5; simpl; lia | apply H6; discriminate].
Defined.

(** ** One creation call *)

Lemma commit_inv {R} env violated (insert : Store → R * Store) s r s' :
  commit env violated insert s = (r, s') →
  (outage env (commits s) = true ∧ r = Err OperationalError
   ∧ s' = count_commit s)
  ∨ (outage env (commits s) = false ∧ violated s = true
     ∧ r = Err IntegrityError ∧ s' = count_commit s)
  ∨ (outage env (commits s) = false ∧ violated s = false
     ∧ ∃ row, r = Ok row ∧ insert (count_commit s) = (row, s')).
Proof.
  unfold commit. destruct (outage env (commits s)).
  - intros [= <- <-]. by left.
  - destruct (violated s).
    + intros [= <- <-]. by right; left.
    + destruct (insert (count_commit s)) as [row s2]. intros [= <- <-].
      right. right. eauto.
Qed.

Lemma create_landing_page_inv env data s r s' :
  create_landing_page env data s = (r, s') →
  hero_sections s' = hero_sections s ∧ features s' = features s
  ∧ cta_sections s' = cta_sections s ∧ commits s' = S (commits s)
  ∧ match r with
    | Ok row =>
        row = LandingPage.set_id (next_id (LandingPage.id <$> landing_pages s))
                (LandingPage_init data (utcnow env (clock s))
                   (utcnow env (S (clock s))))
        ∧ landing_pages s' = (landing_pages s ++ [row])%list
        ∧ outage env (commits s) = false
        ∧ slug_taken (LandingPageCreate.slug data) s = false
    | Err e =>
        landing_pages s' = landing_pages s ∧ store_error env s e
        ∧ (outage env (commits s) = false →
           slug_taken (LandingPageCreate.slug data) s = true)
    end.
Proof.
  unfold create_landing_page, bind, read_clock, store_error. simpl.
  intros H. apply commit_inv in H as [(Ho & -> & ->)|[(Ho & Hv & -> & ->)|
    (Ho & Hv & row & -> & Hins)]]; simpl in *.
  - repeat split; auto; congruence.
  - repeat split; auto.
  - unfold add_landing_page in Hins. simpl in Hins.
    injection Hins as <- <-. simpl. repeat split; auto.
Qed.

Lemma create_hero_section_inv env data s r s' :
  create_hero_section env data s = (r, s') →
  landing_pages s' = landing_pages s ∧ features s' = features s
  ∧ cta_sections s' = cta_sections s ∧ commits s' = S (commits s)
  ∧ match r with
    | Ok row =>
        row = HeroSection.set_id (next_id (HeroSection.id <$> hero_sections s))
                (HeroSection_init data (utcnow env (clock s))
                   (utcnow env (S (clock s))))
        ∧ hero_sections s' = (hero_sections s ++ [row])%list
        ∧ outage env (commits s) = false
    | Err e => hero_sections s' = hero_sections s ∧ store_error env s e
    end.
Proof.
  unfold create_hero_section, bind, read_clock, store_error. simpl.
  intros H. apply commit_inv in H as [(Ho & -> & ->)|[(Ho & Hv & -> & ->)|
    (Ho & Hv & row & -> & Hins)]]; simpl in *.
  - repeat split; auto; congruence.
  - repeat split; auto.
  - unfold add_hero_section in Hins. simpl in Hins.
    injection Hins as <- <-. simpl. repeat split; auto.
Qed.

Lemma create_feature_inv env data s r s' :
  create_feature env data s = (r, s') →
  landing_pages s' = landing_pages s ∧ hero_sections s' = hero_sections s
  ∧ cta_sections s' = cta_sections s ∧ commits s' = S (commits s)
  ∧ match r with
    | Ok row =>
        row = Feature.set_id (next_id (Feature.id <$> features s))
                (Feature_init data (utcnow env (clock s))
                   (utcnow env (S (clock s))))
        ∧ features s' = (features s ++ [row])%list
        ∧ outage env (commits s) = false
    | Err e => features s' = features s ∧ store_error env s e
    end.
Proof.
  unfold create_feature, bind, read_clock, store_error. simpl.
  intros H. apply commit_inv in H as [(Ho & -> & ->)|[(Ho & Hv & -> & ->)|
    (Ho & Hv & row & -> & Hins)]]; simpl in *.
  - repeat split; auto; congruence.
  - repeat split; auto.
  - unfold add_feature in Hins. simpl in Hins.
    injection Hins as <- <-. simpl. repeat split; auto.
Qed.

Lemma create_cta_section_inv env data s r s' :
  create_cta_section env data s = (r, s') →
  landing_pages s' = landing_pages s ∧ hero_sections s' = hero_sections s
  ∧ features s' = features s ∧ commits s' = S (commits s)
  ∧ match r with
    | Ok row =>
        row = CallToActionSection.set_id
                (next_id (CallToActionSection.id <$> cta_sections s))
                (CallToActionSection_init data (utcnow env (clock s))
                   (utcnow env (S (clock s))))
        ∧ cta_sections s' = (cta_sections s ++ [row])%list
        ∧ outage env (commits s) = false
    | Err e => cta_sections s' = cta_sections s ∧ store_error env s e
    end.
Proof.
  unfold create_cta_section, bind, read_clock, store_error. simpl.
  intros H. apply commit_inv in H as [(Ho & -> & ->)|[(Ho & Hv & -> & ->)|
    (Ho & Hv & row & -> & Hins)]]; simpl in *.
  - repeat split; auto; congruence.
  - repeat split; auto.
  - unfold add_cta_section in Hins. simpl in Hins.
    injection Hins as <- <-. simpl. repeat split; auto.
Qed.

Lemma slug_taken_true (slug : string) (s : Store) :
  slug_taken slug s = true ↔
  ∃ p, p ∈ landing_pages s ∧ LandingPage.slug p = slug.
Proof.
  unfold slug_taken. rewrite existsb_exists. split.
  - intros (p & Hin & Heq). exists p. split; [by apply list_elem_of_In|].
    by apply String.eqb_eq.
  - intros (p & Hin & Heq). exists p. split; [by apply list_elem_of_In|].
    by apply String.eqb_eq.
Qed.

(** C6. On a store that already holds a page with the slug, creating a page
    with that slug fails and leaves every table as it was; the error is the
    store's unique violation whenever the store is within reach (out of
    reach, the commit fails as such). *)
Theorem duplicate_slug_rejected (env : Env) (s : Store)
    (data : LandingPageCreate.t) :
  (∃ p, p ∈ landing_pages s
        ∧ LandingPage.slug p = LandingPageCreate.slug data) →
  ∃ e s', create_landing_page env data s = (Err e, s')
          ∧ rows s' = rows s
          ∧ (e = IntegrityError ∨ e = OperationalError)
          ∧ (outage env (commits s) = false → e = IntegrityError).
Proof.
  intros Hdup. apply slug_taken_true in Hdup.
  destruct (create_landing_page env data s) as [r s'] eqn:Hrun.
  pose proof (create_landing_page_inv _ _ _ _ _ Hrun)
    as (Hh & Hf & Hc & _ & Hr).
  destruct r as [row|e].
  - destruct Hr as (_ & _ & _ & Hfree). congruence.
  - destruct Hr as (Hp & [Hkind Hint] & _). exists e, s'.
    unfold rows. rewrite Hp, Hh, Hf, Hc. repeat split; auto. tauto.
Qed.

(** A second page "home" on the seeded store. *)
Lemma duplicate_slug_rejected_witness :
  ∃ s', create_landing_page (calm true) Inputs.home_again Examples.seeded
        = (Err IntegrityError, s')
        ∧ rows s' = rows Examples.seeded.
Proof.
  destruct (duplicate_slug_rejected (calm true) Examples.seeded
              Inputs.home_again) as (e & s' & Hrun & Hrows & _ & He).
  - apply slug_taken_true. vm_compute. reflexivity.
  - exists s'. rewrite <- (He eq_refl). auto.
Defined.

(** ** Keys and fetching by key *)

Lemma next_id_above (ids : list (option Z)) (i : Z) :
  Some i ∈ ids → (i < next_id ids)%Z.
Proof.
  unfold next_id. induction ids as [|[j|] ids IH]; simpl.
  - intros H. by apply elem_of_nil in H.
  - intros H. apply elem_of_cons in H as [[= ->]|H]; [lia|].
    specialize (IH H). unfold omap in IH. lia.
  - intros H. apply elem_of_cons in H as [[=]|H]. auto.
Qed.

Lemma fetch_new_row {A} (key_of : A → option Z) (l : list A) (row : A) :
  key_of row = Some (next_id (key_of <$> l)) →
  head (filter (λ r, key_of r = Some (next_id (key_of <$> l))) (l ++ [row]))
  = Some row.
Proof.
  intros Hrow. rewrite filter_app, filter_none.
  - by rewrite filter_cons_True.
  - intros r Hr Hkey.
    assert (Some (next_id (key_of <$> l)) ∈ key_of <$> l) as Hin.
    { rewrite <- Hkey. by apply list_elem_of_fmap_2. }
    apply next_id_above in Hin. lia.
Qed.

(** C7. For each kind of entity: a row that was created from a creation
    input is the row fetched by its key afterwards, and it carries every
    field of the input unchanged; what is not compared is the key and the
    two timestamps (and the columns the input does not have). *)
Theorem create_then_fetch_round_trip (env : Env) (s : Store) :
  (∀ data row s',
     create_landing_page env data s = (Ok row, s') →
     ∃ key, LandingPage.id row = Some key
            ∧ get_landing_page key s' = Some row
            ∧ LandingPage_dump row = data)
  ∧ (∀ data row s',
       create_hero_section env data s = (Ok row, s') →
       ∃ key, HeroSection.id row = Some key
              ∧ get_hero_section key s' = Some row
              ∧ HeroSection_dump row = data)
  ∧ (∀ data row s',
       create_feature env data s = (Ok row, s') →
       ∃ key, Feature.id row = Some key
              ∧ get_feature key s' = Some row
              ∧ Feature_dump row = data)
  ∧ (∀ data row s',
       create_cta_section env data s = (Ok row, s') →
       ∃ key, CallToActionSection.id row = Some key
              ∧ get_cta_section key s' = Some row
              ∧ CallToActionSection_dump row = data).
Proof.
  repeat split.
  - intros data row s' Hrun.
    apply create_landing_page_inv in Hrun as (_ & _ & _ & _ & -> & Hp & _).
    eexists. split; [reflexivity|]. split; [|by destruct data].
    unfold get_landing_page. rewrite Hp. by apply fetch_new_row.
  - intros data row s' Hrun.
    apply create_hero_section_inv in Hrun as (_ & _ & _ & _ & -> & Hp & _).
    eexists. split; [reflexivity|]. split; [|by destruct data].
    unfold get_hero_section. rewrite Hp. by apply fetch_new_row.
  - intros data row s' Hrun.
    apply create_feature_inv in Hrun as (_ & _ & _ & _ & -> & Hp & _).
    eexists. split; [reflexivity|]. split; [|by destruct data].
    unfold get_feature. rewrite Hp. by apply fetch_new_row.
  - intros data row s' Hrun.
    apply create_cta_section_inv in Hrun as (_ & _ & _ & _ & -> & Hp & _).
    eexists. split; [reflexivity|]. split; [|by destruct data].
    unfold get_cta_section. rewrite Hp. by apply fetch_new_row.
Qed.

(** One entity of each kind, created on [mixed] and fetched again. *)
Lemma create_then_fetch_round_trip_witness :
  let env := calm true in
  let s := Examples.mixed in
  (∃ row, (create_landing_page env Inputs.page s).1 = Ok row
     ∧ ∃ key, LandingPage.id row = Some key
        ∧ get_landing_page key (create_landing_page env Inputs.page s).2
          = Some row
        ∧ LandingPage_dump row = Inputs.page)
  ∧ (∃ row, (create_hero_section env Inputs.hero s).1 = Ok row
       ∧ ∃ key, HeroSection.id row = Some key
          ∧ get_hero_section key (create_hero_section env Inputs.hero s).2
            = Some row
          ∧ HeroSection_dump row = Inputs.hero)
  ∧ (∃ row, (create_feature env Inputs.feature s).1 = Ok row
       ∧ ∃ key, Feature.id row = Some key
          ∧ get_feature key (create_feature env Inputs.feature s).2 = Some row
          ∧ Feature_dump row = Inputs.feature)
  ∧ (∃ row, (create_cta_section env Inputs.cta s).1 = Ok row
       ∧ ∃ key, CallToActionSection.id row = Some key
          ∧ get_cta_section key (create_cta_section env Inputs.cta s).2
            = Some row
          ∧ CallToActionSection_dump row = Inputs.cta).
Proof.
  intros env s.
  destruct (create_then_fetch_round_trip env s) as (Hp & Hh & Hf & Hc).
  repeat split.
  - eexists. split; [reflexivity|]. by apply Hp.
  - eexists. split; [reflexivity|]. by apply Hh.
  - eexists. split; [reflexivity|]. by apply Hf.
  - eexists. split; [reflexivity|]. by apply Hc.
Defined.

(** ** What the Create schemas let through *)

(** A validator reads one key only. *)

Lemma req_str_insert kw k v name n :
  k ≠ name → req_str (<[k:=v]> kw) name n = req_str kw name n.
Proof. intros Hne. unfold req_str. by rewrite lookup_insert_ne. Qed.

Lemma opt_str_insert kw k v name n :
  k ≠ name → opt_str (<[k:=v]> kw) name n = opt_str kw name n.
Proof. intros Hne. unfold opt_str. by rewrite lookup_insert_ne. Qed.

Lemma def_str_insert kw k v name d n :
  k ≠ name → def_str (<[k:=v]> kw) name d n = def_str kw name d n.
Proof. intros Hne. unfold def_str. by rewrite lookup_insert_ne. Qed.

Lemma req_int_insert kw k v name :
  k ≠ name → req_int (<[k:=v]> kw) name = req_int kw name.
Proof. intros Hne. unfold req_int. by rewrite lookup_insert_ne. Qed.

Lemma def_bool_insert kw k v name d :
  k ≠ name → def_bool (<[k:=v]> kw) name d = def_bool kw name d.
Proof. intros Hne. unfold def_bool. by rewrite lookup_insert_ne. Qed.

Ltac drop_extra Hk :=
  repeat (apply not_elem_of_cons in Hk as [? Hk]);
  repeat first
    [ rewrite req_str_insert by assumption
    | rewrite opt_str_insert by assumption
    | rewrite def_str_insert by assumption
    | rewrite req_int_insert by assumption
    | rewrite def_bool_insert by assumption ];
  reflexivity.

Lemma LandingPageCreate_extra kw k v :
  k ∉ LandingPageCreate.fields →
  LandingPageCreate.init (<[k:=v]> kw) = LandingPageCreate.init kw.
Proof.
  unfold LandingPageCreate.fields, LandingPageCreate.init. intros Hk.
  drop_extra Hk.
Qed.

Lemma HeroSectionCreate_extra kw k v :
  k ∉ HeroSectionCreate.fields →
  HeroSectionCreate.init (<[k:=v]> kw) = HeroSectionCreate.init kw.
Proof.
  unfold HeroSectionCreate.fields, HeroSectionCreate.init. intros Hk.
  drop_extra Hk.
Qed.

Lemma FeatureCreate_extra kw k v :
  k ∉ FeatureCreate.fields →
  FeatureCreate.init (<[k:=v]> kw) = FeatureCreate.init kw.
Proof.
  unfold FeatureCreate.fields, FeatureCreate.init. intros Hk.
  drop_extra Hk.
Qed.

Lemma CallToActionSectionCreate_extra kw k v :
  k ∉ CallToActionSectionCreate.fields →
  CallToActionSectionCreate.init (<[k:=v]> kw)
  = CallToActionSectionCreate.init kw.
Proof.
  unfold CallToActionSectionCreate.fields, CallToActionSectionCreate.init.
  intros Hk. drop_extra Hk.
Qed.

(** C10. A Create schema reads its declared fields and nothing else, so an
    argument under any other name changes nothing; a created row therefore
    has the model default in every column its schema lacks, whatever the
    caller passed: pages and components are active and at once visible to
    the read accessors, features have display_order 0 and no icon_color,
    background_color or text_color, hero sections have no background_color
    or text_color and height "full". *)
Theorem undeclared_fields_take_defaults (env : Env) (s : Store) :
  (∀ kw k v,
     (k ∉ LandingPageCreate.fields →
      LandingPageCreate.init (<[k:=v]> kw) = LandingPageCreate.init kw)
     ∧ (k ∉ HeroSectionCreate.fields →
        HeroSectionCreate.init (<[k:=v]> kw) = HeroSectionCreate.init kw)
     ∧ (k ∉ FeatureCreate.fields →
        FeatureCreate.init (<[k:=v]> kw) = FeatureCreate.init kw)
     ∧ (k ∉ CallToActionSectionCreate.fields →
        CallToActionSectionCreate.init (<[k:=v]> kw)
        = CallToActionSectionCreate.init kw))
  ∧ (∀ kw data row s',
       LandingPageCreate.init kw = Ok data →
       create_landing_page env data s = (Ok row, s') →
       LandingPage.is_active row = true
       ∧ get_active_landing_page s' (LandingPage.slug row) = Some row)
  ∧ (∀ kw data row s',
       HeroSectionCreate.init kw = Ok data →
       create_hero_section env data s = (Ok row, s') →
       HeroSection.is_active row = true
       ∧ HeroSection.background_color row = None
       ∧ HeroSection.text_color row = None
       ∧ HeroSection.height row = "full"
       ∧ HeroSection.display_order row = 0
       ∧ row ∈ get_hero_sections s' (HeroSection.landing_page_id row))
  ∧ (∀ kw data row s',
       FeatureCreate.init kw = Ok data →
       create_feature env data s = (Ok row, s') →
       Feature.is_active row = true
       ∧ Feature.display_order row = 0
       ∧ Feature.icon_color row = None
       ∧ Feature.background_color row = None
       ∧ Feature.text_color row = None
       ∧ row ∈ get_features s' (Feature.landing_page_id row))
  ∧ (∀ kw data row s',
       CallToActionSectionCreate.init kw = Ok data →
       create_cta_section env data s = (Ok row, s') →
       CallToActionSection.is_active row = true
       ∧ CallToActionSection.display_order row = 0
       ∧ row ∈ get_cta_sections s' (CallToActionSection.landing_page_id row)).
Proof.
  split; [|split; [|split; [|split]]].
  - intros kw k v.
    auto using LandingPageCreate_extra, HeroSectionCreate_extra,
      FeatureCreate_extra, CallToActionSectionCreate_extra.
  - intros kw data row s' _ Hrun.
    apply create_landing_page_inv in Hrun
      as (_ & _ & _ & _ & Hrow & Hp & _ & Hfree).
    split; [by subst row|].
    unfold get_active_landing_page. rewrite Hp, filter_app, filter_none.
    + rewrite filter_cons_True; [done|]. by subst row.
    + intros p Hin [Hslug _].
      assert (slug_taken (LandingPageCreate.slug data) s = true) as Htaken.
      { apply slug_taken_true. exists p. split; [done|]. by subst row. }
      congruence.
  - intros kw data row s' _ Hrun.
    apply create_hero_section_inv in Hrun as (_ & _ & _ & _ & Hrow & Hp & _).
    repeat split; try by subst row.
    unfold get_hero_sections.
    rewrite order_by_elem_of, list_elem_of_filter, Hp, elem_of_app.
    split; [by subst row|]. right. by apply list_elem_of_singleton.
  - intros kw data row s' _ Hrun.
    apply create_feature_inv in Hrun as (_ & _ & _ & _ & Hrow & Hp & _).
    repeat split; try by subst row.
    unfold get_features.
    rewrite order_by_elem_of, list_elem_of_filter, Hp, elem_of_app.
    split; [by subst row|]. right. by apply list_elem_of_singleton.
  - intros kw data row s' _ Hrun.
    apply create_cta_section_inv in Hrun as (_ & _ & _ & _ & Hrow & Hp & _).
    repeat split; try by subst row.
    unfold get_cta_sections.
    rewrite order_by_elem_of, list_elem_of_filter, Hp, elem_of_app.
    split; [by subst row|]. right. by apply list_elem_of_singleton.
Qed.

(** A feature and a hero section asked for with an order, colours, a height
    and [is_active=False] on [mixed]: none of it reaches the row. *)
Lemma undeclared_fields_take_defaults_witness :
  let env := calm true in
  let s := Examples.mixed in
  (∃ data row s',
     FeatureCreate.init Inputs.feature_kwargs = Ok data
     ∧ create_feature env data s = (Ok row, s')
     ∧ Feature.is_active row = true
     ∧ Feature.display_order row = 0
     ∧ Feature.icon_color row = None
     ∧ Feature.background_color row = None
     ∧ Feature.text_color row = None
     ∧ row ∈ get_features s' (Feature.landing_page_id row))
  ∧ (∃ data row s',
       HeroSectionCreate.init Inputs.hero_kwargs = Ok data
       ∧ create_hero_section env data s = (Ok row, s')
       ∧ HeroSection.is_active row = true
       ∧ HeroSection.background_color row = None
       ∧ HeroSection.text_color row = None
       ∧ HeroSection.height row = "full"
       ∧ HeroSection.display_order row = 0
       ∧ row ∈ get_hero_sections s' (HeroSection.landing_page_id row)).
Proof.
  intros env s.
  destruct (undeclared_fields_take_defaults env s) as (_ & _ & Hh & Hf & _).
  split.
  - eexists _, _, _. split; [vm_compute; reflexivity|].
    split; [vm_compute; reflexivity|].
    eapply (Hf Inputs.feature_kwargs); vm_compute; reflexivity.
  - eexists _, _, _. split; [vm_compute; reflexivity|].
    split; [vm_compute; reflexivity|].
    eapply (Hh Inputs.hero_kwargs); vm_compute; reflexivity.
Defined.

(** ** The sample data, step by step *)

Lemma Feature_dump_init data i created updated :
  Feature_dump (Feature.set_id i (Feature_init data created updated)) = data.
Proof. by destruct data. Qed.

Lemma HeroSection_dump_init data i created updated :
  HeroSection_dump (HeroSection.set_id i (HeroSection_init data created updated))
  = data.
Proof. by destruct data. Qed.

Lemma CallToActionSection_dump_init data i created updated :
  CallToActionSection_dump
    (CallToActionSection.set_id i
       (CallToActionSection_init data created updated)) = data.
Proof. by destruct data. Qed.

(** The loop over the features: the rows of a prefix of the inputs are
    appended, all of them when the loop ends well and fewer when it raises;
    every new row is active and has display_order 0. *)
Lemma for_each_create_feature env (ds : list FeatureCreate.t) s r s' :
  for_each ds (create_feature env) s = (r, s') →
  landing_pages s' = landing_pages s ∧ hero_sections s' = hero_sections s
  ∧ cta_sections s' = cta_sections s
  ∧ ∃ new, features s' = features s ++ new
      ∧ Feature_dump <$> new = take (length new) ds
      ∧ Forall (λ f, Feature.display_order f = 0%Z
                     ∧ Feature.is_active f = true) new
      ∧ match r with
        | Ok _ => length new = length ds
        | Err _ => (length new < length ds)%nat
        end.
Proof.
  revert s. induction ds as [|d ds IH]; intros s; simpl.
  - intros [= <- <-]. repeat split; try done.
    exists []. by rewrite app_nil_r.
  - unfold bind at 1.
    destruct (create_feature env d s) as [[row|e] s1] eqn:Hrun;
      apply create_feature_inv in Hrun as (Hp & Hh & Hc & _ & Hr).
    + destruct Hr as (Hrow & Hf & _). intros Hrest.
      apply IH in Hrest as (Hp' & Hh' & Hc' & new & Hf' & Hd & Hall & Hlen).
      repeat split; try congruence.
      exists (row :: new). split; [|split; [|split]].
      * by rewrite Hf', Hf, <- app_assoc.
      * rewrite fmap_cons, Hd. subst row. by rewrite Feature_dump_init.
      * constructor; [by subst row|done].
      * destruct r; simpl; lia.
    + destruct Hr as [Hf _]. intros [= <- <-]. repeat split; try done.
      exists []. rewrite app_nil_r. repeat split; try done. simpl. lia.
Qed.

Lemma hero_kwargs_valid page_id :
  ∃ h, HeroSectionCreate.init (hero_kwargs page_id) = Ok h
       ∧ HeroSectionCreate.landing_page_id h = page_id.
Proof.
  assert (match HeroSectionCreate.init (hero_kwargs page_id) with
          | Ok h => HeroSectionCreate.landing_page_id h = page_id
          | Err _ => False
          end) as H by (vm_compute; reflexivity).
  destruct (HeroSectionCreate.init (hero_kwargs page_id)); [eauto|done].
Qed.

Lemma features_kwargs_valid page_id :
  ∃ fs, all_ok (FeatureCreate.init <$> features_kwargs page_id) = Ok fs
        ∧ FeatureCreate.landing_page_id <$> fs = replicate 6 page_id
        ∧ FeatureCreate.is_featured <$> fs
          = [true; true; true; false; false; false].
Proof.
  assert (match all_ok (FeatureCreate.init <$> features_kwargs page_id) with
          | Ok fs =>
              FeatureCreate.landing_page_id <$> fs = replicate 6 page_id
              ∧ FeatureCreate.is_featured <$> fs
                = [true; true; true; false; false; false]
          | Err _ => False
          end) as H by (vm_compute; split; reflexivity).
  destruct (all_ok (FeatureCreate.init <$> features_kwargs page_id));
    [eauto|done].
Qed.

Lemma cta_kwargs_valid page_id :
  ∃ c, CallToActionSectionCreate.init (cta_kwargs page_id) = Ok c
       ∧ CallToActionSectionCreate.landing_page_id c = page_id.
Proof.
  assert (match CallToActionSectionCreate.init (cta_kwargs page_id) with
          | Ok c => CallToActionSectionCreate.landing_page_id c = page_id
          | Err _ => False
          end) as H by (vm_compute; reflexivity).
  destruct (CallToActionSectionCreate.init (cta_kwargs page_id));
    [eauto|done].
Qed.

(** The component inserts as a whole.  [k] counts the inserts that went
    through, in the order hero section, six features, call to action: the
    rows of exactly these are appended, the page table is not touched, and
    [k] is 8 when the sequence ends well and less when it raises. *)
Lemma create_sample_components_inv env page_id s r s' :
  create_sample_components env page_id s = (r, s') →
  ∃ h fs c (k : nat) hnew fnew cnew,
    (HeroSectionCreate.init (hero_kwargs page_id) = Ok h
     ∧ all_ok (FeatureCreate.init <$> features_kwargs page_id) = Ok fs
     ∧ CallToActionSectionCreate.init (cta_kwargs page_id) = Ok c)
    ∧ landing_pages s' = landing_pages s
    ∧ (hero_sections s' = hero_sections s ++ hnew
       ∧ features s' = features s ++ fnew
       ∧ cta_sections s' = cta_sections s ++ cnew)
    ∧ (HeroSection_dump <$> hnew = take k [h]
       ∧ Feature_dump <$> fnew = take (k - 1) fs
       ∧ CallToActionSection_dump <$> cnew = take (k - 7) [c])
    ∧ Forall (λ f, Feature.display_order f = 0%Z
                   ∧ Feature.is_active f = true) fnew
    ∧ match r with
      | Ok _ => k = 8%nat
      | Err _ => (k < 8)%nat
      end.
Proof.
  intros Hrun.
  destruct (hero_kwargs_valid page_id) as (h & Hh & _).
  destruct (features_kwargs_valid page_id) as (fs & Hfs & Hlinked & _).
  destruct (cta_kwargs_valid page_id) as (c & Hc & _).
  assert (length fs = 6%nat) as Hlen.
  { apply (f_equal length) in Hlinked.
    by rewrite length_fmap, length_replicate in Hlinked. }
  unfold create_sample_components, bind, lift, ret in Hrun.
  rewrite Hh, Hfs, Hc in Hrun. cbn beta iota in Hrun.
  assert (∀ k hnew fnew cnew,
    landing_pages s' = landing_pages s
    ∧ (hero_sections s' = hero_sections s ++ hnew
       ∧ features s' = features s ++ fnew
       ∧ cta_sections s' = cta_sections s ++ cnew)
    ∧ (HeroSection_dump <$> hnew = take k [h]
       ∧ Feature_dump <$> fnew = take (k - 1) fs
       ∧ CallToActionSection_dump <$> cnew = take (k - 7) [c])
    ∧ Forall (λ f, Feature.display_order f = 0%Z
                   ∧ Feature.is_active f = true) fnew
    ∧ match r with
      | Ok _ => k = 8%nat
      | Err _ => (k < 8)%nat
      end →
    ∃ h fs c (k : nat) hnew fnew cnew,
    (HeroSectionCreate.init (hero_kwargs page_id) = Ok h
     ∧ all_ok (FeatureCreate.init <$> features_kwargs page_id) = Ok fs
     ∧ CallToActionSectionCreate.init (cta_kwargs page_id) = Ok c)
    ∧ landing_pages s' = landing_pages s
    ∧ (hero_sections s' = hero_sections s ++ hnew
       ∧ features s' = features s ++ fnew
       ∧ cta_sections s' = cta_sections s ++ cnew)
    ∧ (HeroSection_dump <$> hnew = take k [h]
       ∧ Feature_dump <$> fnew = take (k - 1) fs
       ∧ CallToActionSection_dump <$> cnew = take (k - 7) [c])
    ∧ Forall (λ f, Feature.display_order f = 0%Z
                   ∧ Feature.is_active f = true) fnew
    ∧ match r with
      | Ok _ => k = 8%nat
      | Err _ => (k < 8)%nat
      end) as Hpack.
  { intros k hnew fnew cnew Hall. exists h, fs, c, k, hnew, fnew, cnew.
    split; [exact (conj Hh (conj Hfs Hc)) | exact Hall]. }
  clear Hh Hfs Hc.
  destruct (create_hero_section env h s) as [[hrow|e1] s1] eqn:H1;
    apply create_hero_section_inv in H1 as (Hp1 & Hf1 & Hc1 & _ & Hr1).
  2:{ destruct Hr1 as [Hh1 _]. injection Hrun as <- <-.
      apply (Hpack 0%nat [] [] []). rewrite !app_nil_r.
      repeat split; try done. lia. }
  destruct Hr1 as (Hrow1 & Hh1 & _).
  assert (HeroSection_dump hrow = h) as Hdump1
    by (subst hrow; apply HeroSection_dump_init).
  clear Hrow1.
  destruct (for_each fs (create_feature env) s1) as [[[]|e2] s2] eqn:H2;
    apply for_each_create_feature in H2
      as (Hp2 & Hh2 & Hc2 & fnew & Hf2 & Hd2 & Hall2 & Hlen2).
  2:{ injection Hrun as <- <-.
      apply (Hpack (S (length fnew)) [hrow] fnew []).
      rewrite app_nil_r. simpl. rewrite Nat.sub_0_r, Hdump1.
      repeat split; try congruence.
      - by rewrite take_nil.
      - by replace (length fnew - 6)%nat with 0%nat by lia.
      - lia. }
  destruct (create_cta_section env c s2) as [[crow|e3] s3] eqn:H3;
    apply create_cta_section_inv in H3 as (Hp3 & Hh3 & Hf3 & _ & Hr3).
  - destruct Hr3 as (Hrow3 & Hc3 & _). injection Hrun as <- <-.
    assert (CallToActionSection_dump crow = c) as Hdump3
      by (subst crow; apply CallToActionSection_dump_init).
    clear Hrow3.
    apply (Hpack 8%nat [hrow] fnew [crow]). simpl. rewrite Hdump1, Hdump3.
    rewrite Hlen2, Hlen in Hd2.
    repeat split; try congruence.
    rewrite Hd2, !take_ge; [done|lia..].
  - destruct Hr3 as [Hc3 _]. injection Hrun as <- <-.
    apply (Hpack 7%nat [hrow] fnew []). rewrite app_nil_r. simpl.
    rewrite Hdump1. rewrite Hlen2, Hlen in Hd2.
    repeat split; try congruence; try lia.
Qed.

Lemma landing_page_kwargs_valid :
  ∃ data, LandingPageCreate.init landing_page_kwargs = Ok data
          ∧ LandingPageCreate.slug data = "home".
Proof. eexists. split; [vm_compute; reflexivity | reflexivity]. Qed.

(** [create_sample_data] is the page creation followed, when it went
    through, by the component inserts; an error of either is the error of
    the whole. *)
Lemma create_sample_data_inv env s r s' :
  create_sample_data env s = (r, s') →
  ∃ data,
    LandingPageCreate.init landing_page_kwargs = Ok data
    ∧ LandingPageCreate.slug data = "home"
    ∧ ((∃ e, r = Err e ∧ create_landing_page env data s = (Err e, s'))
       ∨ (∃ page page_id s1 r',
            create_landing_page env data s = (Ok page, s1)
            ∧ LandingPage.id page = Some page_id
            ∧ create_sample_components env page_id s1 = (r', s')
            ∧ r = match r' with Ok _ => Ok page | Err e => Err e end)).
Proof.
  destruct landing_page_kwargs_valid as (data & Hdata & Hslug).
  intros Hrun. exists data. split; [done|]. split; [done|].
  unfold create_sample_data in Hrun. unfold bind at 1 2, lift in Hrun.
  rewrite Hdata in Hrun.
  destruct (create_landing_page env data s) as [[page|e] s1] eqn:Hpage.
  - right.
    pose proof (create_landing_page_inv _ _ _ _ _ Hpage)
      as (_ & _ & _ & _ & Hrow & _).
    assert (LandingPage.id page
            = Some (next_id (LandingPage.id <$> landing_pages s))) as Hid
      by (by subst page).
    rewrite Hid in Hrun. unfold bind, ret in Hrun.
    destruct (create_sample_components env _ s1) as [[[]|e] s2] eqn:Hcomp;
      injection Hrun as <- <-; eexists _, _, _, _; eauto.
  - left. injection Hrun as <- <-. eauto.
Qed.

(** ** The sample data as a whole *)

(** C9. [create_sample_data] is not atomic.  When the page creation
    fails, its error is the error of the call and no row is inserted.
    When the page was created and a component insert then fails, the error
    of that insert is the error of the call, and the store keeps the new
    page ("home", active) together with the rows of the [k] component
    inserts that went through before it (hero section, then the six
    features, then the call to action; [k < 8]): nothing is rolled back.
    Every failure of the call is one of these two. *)
Theorem sample_data_not_atomic (env : Env) (s : Store) :
  ∃ data,
    LandingPageCreate.init landing_page_kwargs = Ok data
    ∧ (∀ e s1,
         create_landing_page env data s = (Err e, s1) →
         create_sample_data env s = (Err e, s1) ∧ rows s1 = rows s)
    ∧ (∀ page page_id s1 e s2,
         create_landing_page env data s = (Ok page, s1) →
         LandingPage.id page = Some page_id →
         create_sample_components env page_id s1 = (Err e, s2) →
         create_sample_data env s = (Err e, s2)
         ∧ landing_pages s2 = landing_pages s ++ [page]
         ∧ LandingPage.slug page = "home"
         ∧ LandingPage.is_active page = true
         ∧ ∃ h fs c (k : nat) hnew fnew,
             (HeroSectionCreate.init (hero_kwargs page_id) = Ok h
              ∧ all_ok (FeatureCreate.init <$> features_kwargs page_id)
                = Ok fs
              ∧ CallToActionSectionCreate.init (cta_kwargs page_id) = Ok c)
             ∧ (k < 8)%nat
             ∧ hero_sections s2 = hero_sections s ++ hnew
             ∧ features s2 = features s ++ fnew
             ∧ cta_sections s2 = cta_sections s
             ∧ HeroSection_dump <$> hnew = take k [h]
             ∧ Feature_dump <$> fnew = take (k - 1) fs)
    ∧ (∀ e s',
         create_sample_data env s = (Err e, s') →
         create_landing_page env data s = (Err e, s')
         ∨ ∃ page page_id s1,
             create_landing_page env data s = (Ok page, s1)
             ∧ LandingPage.id page = Some page_id
             ∧ create_sample_components env page_id s1 = (Err e, s')).
Proof.
  destruct landing_page_kwargs_valid as (data & Hdata & Hslug).
  exists data. split; [done|]. split; [|split].
  - intros e s1 Hpage. split.
    + unfold create_sample_data. unfold bind at 1 2, lift.
      by rewrite Hdata, Hpage.
    + apply create_landing_page_inv in Hpage
        as (Hh & Hf & Hc & _ & Hp & _).
      unfold rows. by rewrite Hp, Hh, Hf, Hc.
  - intros page page_id s1 e s2 Hpage Hid Hcomp. split.
    + unfold create_sample_data. unfold bind at 1 2, lift.
      rewrite Hdata, Hpage, Hid. unfold bind. by rewrite Hcomp.
    + apply create_landing_page_inv in Hpage
        as (Hh & Hf & Hc & _ & Hrow & Hp & _).
      apply create_sample_components_inv in Hcomp
        as (h & fs & c & k & hnew & fnew & cnew & Hinit & Hp2
            & (Hh2 & Hf2 & Hc2) & (Hdh & Hdf & Hdc) & _ & Hk).
      split; [by rewrite Hp2|]. split; [by subst page|].
      split; [by subst page|].
      exists h, fs, c, k, hnew, fnew.
      replace (k - 7)%nat with 0%nat in Hdc by lia.
      apply fmap_nil_inv in Hdc. subst cnew. rewrite app_nil_r in Hc2.
      split; [exact Hinit|]. repeat split; try assumption; congruence.
  - intros e s' Hrun.
    apply create_sample_data_inv in Hrun as (data' & Hdata' & _ & Hcases).
    assert (data' = data) as -> by congruence.
    destruct Hcases as [(e' & [= <-] & Hpage)
                       |(page & page_id & s1 & r' & Hpage & Hid & Hcomp & Hr)].
    + by left.
    + right. exists page, page_id, s1.
      destruct r' as [[]|e']; [discriminate|].
      injection Hr as <-. exact (conj Hpage (conj Hid Hcomp)).
Qed.

(** The store out of reach at the fourth commit, on an empty store: the
    page, the hero section and the first feature are committed, the second
    feature is not, and the page stays. *)
Lemma sample_data_not_atomic_witness :
  let s2 := (create_sample_data Examples.flaky empty_store).2 in
  create_sample_data Examples.flaky empty_store = (Err OperationalError, s2)
  ∧ ∃ page, landing_pages s2 = [page]
            ∧ LandingPage.slug page = "home"
            ∧ LandingPage.is_active page = true.
Proof.
  intros s2.
  destruct (sample_data_not_atomic Examples.flaky empty_store)
    as (data & Hdata & _ & Hcomp & _).
  vm_compute in Hdata. injection Hdata as <-.
  destruct (Hcomp Examples.sample_page 1%Z
              (mkStore [Examples.sample_page] [] [] [] 1 2)
              OperationalError s2)
    as (Hrun & Hp & Hslug & Hact & _).
  - vm_compute. reflexivity.
  - reflexivity.
  - vm_compute. reflexivity.
  - split; [exact Hrun|]. eexists. split; [exact Hp|]. split; assumption.
Defined.

(** A run of the sample data that ends well has added its page, with the
    slug "home", at the end of the page table. *)
Lemma create_sample_data_ok env s page s' :
  create_sample_data env s = (Ok page, s') →
  landing_pages s' = landing_pages s ++ [page]
  ∧ LandingPage.slug page = "home"
  ∧ ∃ hnew fnew cnew,
      hero_sections s' = hero_sections s ++ hnew
      ∧ features s' = features s ++ fnew
      ∧ cta_sections s' = cta_sections s ++ cnew
      ∧ length hnew = 1%nat ∧ length fnew = 6%nat ∧ length cnew = 1%nat
      ∧ Forall (λ f, Feature.display_order f = 0%Z
                     ∧ Feature.is_active f = true) fnew.
Proof.
  intros Hrun.
  apply create_sample_data_inv in Hrun as (data & _ & Hslug & Hcases).
  destruct Hcases as [(e & [=] & _)
                     |(p & page_id & s1 & r' & Hpage & Hid & Hcomp & Hr)].
  destruct r' as [[]|e']; [|discriminate]. injection Hr as <-.
  apply create_landing_page_inv in Hpage as (Hh & Hf & Hc & _ & Hrow & Hp & _).
  apply create_sample_components_inv in Hcomp
    as (h & fs & c & k & hnew & fnew & cnew & (_ & Hfs & _) & Hp2
        & (Hh2 & Hf2 & Hc2) & (Hdh & Hdf & Hdc) & Hall & ->).
  destruct (features_kwargs_valid page_id) as (fs' & Hfs' & Hlinked & _).
  assert (fs' = fs) as -> by congruence. clear Hfs Hfs'.
  assert (length fs = 6%nat) as Hlen.
  { apply (f_equal length) in Hlinked.
    by rewrite length_fmap, length_replicate in Hlinked. }
  split; [congruence|]. split; [by subst page|].
  exists hnew, fnew, cnew.
  apply (f_equal length) in Hdh. apply (f_equal length) in Hdf.
  apply (f_equal length) in Hdc.
  rewrite length_fmap in Hdh. rewrite length_fmap, length_take in Hdf.
  rewrite length_fmap in Hdc. simpl in Hdh, Hdc.
  repeat split; try congruence. lia.
Qed.

(** C4, evaluated.  One run on an empty store creates one page "home", one
    hero section, six features, of which the first three are featured, and
    one call to action, all with the key of the new page; but the
    display_order arguments 1 to 6 that [create_sample_data] writes are not
    fields of [FeatureCreate], and every persisted display_order is 0. *)
Theorem sample_data_display_orders_dropped :
  ∃ page s',
    create_sample_data (calm true) empty_store = (Ok page, s')
    ∧ LandingPage.slug page = "home"
    ∧ LandingPage.id page = Some 1%Z
    ∧ landing_pages s' = [page]
    ∧ HeroSection.landing_page_id <$> hero_sections s' = [1%Z]
    ∧ Feature.landing_page_id <$> features s' = replicate 6 1%Z
    ∧ CallToActionSection.landing_page_id <$> cta_sections s' = [1%Z]
    ∧ Feature.is_featured <$> features s'
      = [true; true; true; false; false; false]
    ∧ (λ kw : kwargs, kw !! "display_order") <$> features_kwargs 1
      = [Some (VInt 1); Some (VInt 2); Some (VInt 3);
         Some (VInt 4); Some (VInt 5); Some (VInt 6)]
    ∧ Feature.display_order <$> features s' = replicate 6 0%Z.
Proof.
  eexists _, _. split; [vm_compute; reflexivity|].
  vm_compute. repeat split; reflexivity.
Qed.

(** C8 as stated fails: on an empty store that is always reachable the
    first run ends well and the second raises the unique violation of the
    slug; one page "home" is all there is afterwards. *)
Lemma sample_data_twice_counterexample :
  ∃ page s1 s2,
    create_sample_data (calm true) empty_store = (Ok page, s1)
    ∧ create_sample_data (calm true) s1 = (Err IntegrityError, s2)
    ∧ LandingPage.slug <$> landing_pages s2 = ["home"]
    ∧ ¬ (∃ page2 s2', create_sample_data (calm true) s1 = (Ok page2, s2')).
Proof.
  eexists _, _, _. split; [vm_compute; reflexivity|].
  split; [vm_compute; reflexivity|]. split; [vm_compute; reflexivity|].
  intros (page2 & s2' & Hrun). vm_compute in Hrun. discriminate.
Qed.

(** C8, amended.  [create_sample_data] makes no check of its own for a
    page "home"; it goes to the commit, and there the store's unique slug
    stops it: after a run that ended well, the next run in sequence fails at
    that first commit, with the unique violation whenever the store is
    within reach, and leaves every table as the first run left it. *)
Theorem sample_data_twice_rejected (env : Env) (s : Store)
    (page : LandingPage.t) (s1 : Store) :
  create_sample_data env s = (Ok page, s1) →
  (page ∈ landing_pages s1 ∧ LandingPage.slug page = "home")
  ∧ ∃ e s2,
      create_sample_data env s1 = (Err e, s2)
      ∧ rows s2 = rows s1
      ∧ commits s2 = S (commits s1)
      ∧ (e = IntegrityError ∨ e = OperationalError)
      ∧ (outage env (commits s1) = false → e = IntegrityError).
Proof.
  intros Hfirst.
  apply create_sample_data_ok in Hfirst as (Hp & Hslug & _).
  assert (page ∈ landing_pages s1) as Hin.
  { rewrite Hp, elem_of_app. right. by apply list_elem_of_singleton. }
  split; [done|].
  destruct (create_sample_data env s1) as [r s2] eqn:Hsecond.
  apply create_sample_data_inv in Hsecond as (data & _ & Hdata & Hcases).
  assert (slug_taken (LandingPageCreate.slug data) s1 = true) as Htaken.
  { apply slug_taken_true. exists page. split; [done|congruence]. }
  destruct Hcases as [(e & -> & Hpage)
                     |(p & page_id & s1' & r' & Hpage & _)];
    apply create_landing_page_inv in Hpage as (Hh & Hf & Hc & Hn & Hr).
  - destruct Hr as (Hp2 & [Hkind Hint] & _). exists e, s2.
    split; [done|]. unfold rows. rewrite Hp2, Hh, Hf, Hc.
    repeat split; [done|tauto|done].
  - destruct Hr as (_ & _ & _ & Hfree). congruence.
Qed.

(** Two runs on an empty store that is always reachable. *)
Lemma sample_data_twice_rejected_witness :
  ∃ s2, create_sample_data (calm true) Examples.seeded
        = (Err IntegrityError, s2)
        ∧ rows s2 = rows Examples.seeded.
Proof.
  destruct (sample_data_twice_rejected (calm true) empty_store
              Examples.sample_page Examples.seeded)
    as (_ & e & s2 & Hrun & Hrows & _ & _ & He).
  - vm_compute. reflexivity.
  - exists s2. rewrite <- (He eq_refl). auto.
Defined.

(** * Further properties of the code *)

(** ** The other read accessors *)

(** X1. [get_hero_sections] and [get_cta_sections] return exactly the
    active rows of the page, each as often as the table holds it, in
    ascending display_order. *)
Theorem hero_and_cta_filtered_and_ordered (s : Store) (page_id : Z) :
  (get_hero_sections s page_id ≡ₚ
     filter (λ h, HeroSection.landing_page_id h = page_id
                  ∧ HeroSection.is_active h = true) (hero_sections s)
   ∧ StronglySorted
       (λ a b, (HeroSection.display_order a ≤ HeroSection.display_order b)%Z)
       (get_hero_sections s page_id))
  ∧ (get_cta_sections s page_id ≡ₚ
       filter (λ c, CallToActionSection.landing_page_id c = page_id
                    ∧ CallToActionSection.is_active c = true)
         (cta_sections s)
     ∧ StronglySorted
         (λ a b, (CallToActionSection.display_order a
                  ≤ CallToActionSection.display_order b)%Z)
         (get_cta_sections s page_id)).
Proof.
  unfold get_hero_sections, get_cta_sections. repeat split.
  - apply order_by_Permutation.
  - eapply StronglySorted_weaken;
      [|apply order_by_StronglySorted;
         [apply hero_leb_total | apply hero_leb_trans]].
    intros a b. unfold le_of, hero_leb. by rewrite Z.leb_le.
  - apply order_by_Permutation.
  - eapply StronglySorted_weaken;
      [|apply order_by_StronglySorted;
         [apply cta_leb_total | apply cta_leb_trans]].
    intros a b. unfold le_of, cta_leb. by rewrite Z.leb_le.
Qed.

Lemma head_filter_first {A} (P : A → Prop) `{∀ x, Decision (P x)}
    (l : list A) :
  match head (filter P l) with
  | Some x => ∃ l1 l2, l = l1 ++ x :: l2 ∧ P x ∧ ∀ y, y ∈ l1 → ¬ P y
  | None => ∀ y, y ∈ l → ¬ P y
  end.
Proof.
  induction l as [|a l IH]; simpl.
  - intros y Hy. by apply elem_of_nil in Hy.
  - rewrite filter_cons. destruct (decide (P a)) as [Ha|Ha]; simpl.
    + exists [], l. repeat split; [done|]. intros y Hy.
      by apply elem_of_nil in Hy.
    + destruct (head (filter P l)) as [x|].
      * destruct IH as (l1 & l2 & -> & Hx & Hl1).
        exists (a :: l1), l2. repeat split; [done|].
        intros y Hy. apply elem_of_cons in Hy as [->|Hy]; auto.
      * intros y Hy. apply elem_of_cons in Hy as [->|Hy]; auto.
Qed.

(** X2. [get_active_landing_page] returns the first page of the table
    that has the slug and is active, and [None] exactly when no page has
    the slug and is active; an inactive page is never returned. *)
Theorem get_active_landing_page_first_match (s : Store) (slug : string) :
  match get_active_landing_page s slug with
  | Some p =>
      LandingPage.slug p = slug ∧ LandingPage.is_active p = true
      ∧ ∃ before after,
          landing_pages s = before ++ p :: after
          ∧ ∀ q, q ∈ before →
                 ¬ (LandingPage.slug q = slug ∧ LandingPage.is_active q = true)
  | None =>
      ∀ q, q ∈ landing_pages s →
           ¬ (LandingPage.slug q = slug ∧ LandingPage.is_active q = true)
  end.
Proof.
  unfold get_active_landing_page.
  pose proof (head_filter_first
    (λ p, LandingPage.slug p = slug ∧ LandingPage.is_active p = true)
    (landing_pages s)) as H.
  destruct (head _) as [p|]; [|done].
  destruct H as (l1 & l2 & Heq & [Hs Ha] & Hl1). eauto 10.
Qed.

Lemma unique_slug_elsewhere (l1 l2 : list LandingPage.t) (p q : LandingPage.t) :
  NoDup (LandingPage.slug <$> (l1 ++ p :: l2)) →
  q ∈ l1 ++ p :: l2 → LandingPage.slug q = LandingPage.slug p → q = p.
Proof.
  intros Hnd Hq Hslug.
  apply list_elem_of_lookup in Hq as [i Hi].
  assert ((l1 ++ p :: l2) !! length l1 = Some p) as Hp
    by (by rewrite list_lookup_middle).
  assert (i = length l1) as ->; [|congruence].
  eapply NoDup_lookup; [exact Hnd| |].
  - by rewrite list_lookup_fmap, Hi.
  - rewrite list_lookup_fmap, Hp. simpl. by rewrite Hslug.
Qed.

(** X3. On a store whose slugs are distinct, the lookup by slug finds a
    page exactly when that page is active: an active page is returned for
    its slug, and the slug of a deactivated page finds nothing. *)
Theorem get_active_landing_page_unique (s : Store) (p : LandingPage.t) :
  slugs_unique s →
  p ∈ landing_pages s →
  get_active_landing_page s (LandingPage.slug p)
  = if LandingPage.is_active p then Some p else None.
Proof.
  unfold slugs_unique. intros Hnd Hin.
  apply list_elem_of_split in Hin as (l1 & l2 & Heq).
  pose proof (head_filter_first
    (λ q, LandingPage.slug q = LandingPage.slug p
          ∧ LandingPage.is_active q = true) (landing_pages s)) as Hfirst.
  unfold get_active_landing_page.
  destruct (head _) as [q|].
  - destruct Hfirst
      as (k1 & k2 & Hk & [Hslug Hact] & _).
    assert (q = p) as ->.
    { rewrite Heq in Hnd. eapply unique_slug_elsewhere; [exact Hnd| |done].
      rewrite <- Heq, Hk, elem_of_app. right. by left. }
    by rewrite Hact.
  - destruct (LandingPage.is_active p) eqn:Hact; [|done].
    exfalso. apply (Hfirst p); [|done].
    rewrite Heq, elem_of_app. right. by left.
Qed.

(** The active page "empty" and the deactivated page "old" of [mixed]. *)
Lemma get_active_landing_page_unique_witness :
  get_active_landing_page Examples.mixed "empty"
  = Some (Examples.page_row 2 "empty" true)
  ∧ get_active_landing_page Examples.mixed "old" = None.
Proof.
  split.
  - apply (get_active_landing_page_unique Examples.mixed
             (Examples.page_row 2 "empty" true)).
    + apply (bool_decide_unpack _). vm_compute. exact I.
    + apply list_elem_of_In. simpl. auto.
  - apply (get_active_landing_page_unique Examples.mixed
             (Examples.page_row 1 "old" false)).
    + apply (bool_decide_unpack _). vm_compute. exact I.
    + apply list_elem_of_In. simpl. auto.
Defined.

(** ** When a creation call succeeds *)

Lemma page_exists_true (page_id : Z) (s : Store) :
  page_exists page_id s = true ↔
  ∃ p, p ∈ landing_pages s ∧ LandingPage.id p = Some page_id.
Proof.
  unfold page_exists. rewrite existsb_exists. split.
  - intros (p & Hin & Heq). exists p. split; [by apply list_elem_of_In|].
    by apply bool_decide_eq_true in Heq.
  - intros (p & Hin & Heq). exists p. split; [by apply list_elem_of_In|].
    by apply bool_decide_eq_true.
Qed.




(** ** What a creation call changes for the readers *)

Lemma filter_snoc_False {A} (P : A → Prop) `{∀ x, Decision (P x)}
    (l : list A) (x : A) :
  ¬ P x → filter P (l ++ [x]) = filter P l.
Proof.
  intros Hx. by rewrite filter_app, (filter_cons_False _ _ _ Hx), app_nil_r.
Qed.

Lemma filter_snoc_True {A} (P : A → Prop) `{∀ x, Decision (P x)}
    (l : list A) (x : A) :
  P x → filter P (l ++ [x]) = filter P l ++ [x].
Proof. intros Hx. by rewrite filter_app, (filter_cons_True _ _ _ Hx). Qed.

(** X6. A creation call is invisible where it should be.  A failed call
    changes the result of no read accessor.  A created component changes
    nothing for the accessors of the other kinds, nothing for the lookup of
    pages, and nothing for any other page id; a created page changes no
    component accessor and no lookup under another slug. *)
Theorem creation_is_local (env : Env) (s : Store) :
  (∀ data r s' page_id slug,
     create_landing_page env data s = (r, s') →
     get_hero_sections s' page_id = get_hero_sections s page_id
     ∧ get_features s' page_id = get_features s page_id
     ∧ get_cta_sections s' page_id = get_cta_sections s page_id
     ∧ (is_ok r = false ∨ slug ≠ LandingPageCreate.slug data →
        get_active_landing_page s' slug = get_active_landing_page s slug))
  ∧ (∀ data r s' page_id slug,
       create_hero_section env data s = (r, s') →
       get_active_landing_page s' slug = get_active_landing_page s slug
       ∧ get_features s' page_id = get_features s page_id
       ∧ get_cta_sections s' page_id = get_cta_sections s page_id
       ∧ (is_ok r = false
          ∨ page_id ≠ HeroSectionCreate.landing_page_id data →
          get_hero_sections s' page_id = get_hero_sections s page_id))
  ∧ (∀ data r s' page_id slug,
       create_feature env data s = (r, s') →
       get_active_landing_page s' slug = get_active_landing_page s slug
       ∧ get_hero_sections s' page_id = get_hero_sections s page_id
       ∧ get_cta_sections s' page_id = get_cta_sections s page_id
       ∧ (is_ok r = false ∨ page_id ≠ FeatureCreate.landing_page_id data →
          get_features s' page_id = get_features s page_id))
  ∧ (∀ data r s' page_id slug,
       create_cta_section env data s = (r, s') →
       get_active_landing_page s' slug = get_active_landing_page s slug
       ∧ get_hero_sections s' page_id = get_hero_sections s page_id
       ∧ get_features s' page_id = get_features s page_id
       ∧ (is_ok r = false
          ∨ page_id ≠ CallToActionSectionCreate.landing_page_id data →
          get_cta_sections s' page_id = get_cta_sections s page_id)).
Proof.
  split; [|split; [|split]]; intros data r s' page_id slug Hrun.
  - apply create_landing_page_inv in Hrun as (Hh & Hf & Hc & _ & Hr).
    unfold get_hero_sections, get_features, get_cta_sections,
      get_active_landing_page. rewrite Hh, Hf, Hc.
    repeat split; try done. intros Hcase.
    destruct r as [row|e].
    + destruct Hr as (Hrow & -> & _). rewrite filter_snoc_False; [done|].
      intros [Hslug _]. destruct Hcase as [|Hne]; [done|].
      apply Hne. rewrite <- Hslug. by subst row.
    + destruct Hr as (-> & _). done.
  - apply create_hero_section_inv in Hrun as (Hp & Hf & Hc & _ & Hr).
    unfold get_hero_sections, get_features, get_cta_sections,
      get_active_landing_page. rewrite Hp, Hf, Hc.
    repeat split; try done. intros Hcase.
    destruct r as [row|e].
    + destruct Hr as (Hrow & -> & _). rewrite filter_snoc_False; [done|].
      intros [Hid _]. destruct Hcase as [|Hne]; [done|].
      apply Hne. rewrite <- Hid. by subst row.
    + destruct Hr as (-> & _). done.
  - apply create_feature_inv in Hrun as (Hp & Hh & Hc & _ & Hr).
    unfold get_hero_sections, get_features, get_cta_sections,
      get_active_landing_page. rewrite Hp, Hh, Hc.
    repeat split; try done. intros Hcase.
    destruct r as [row|e].
    + destruct Hr as (Hrow & -> & _). rewrite filter_snoc_False; [done|].
      intros [Hid _]. destruct Hcase as [|Hne]; [done|].
      apply Hne. rewrite <- Hid. by subst row.
    + destruct Hr as (-> & _). done.
  - apply create_cta_section_inv in Hrun as (Hp & Hh & Hf & _ & Hr).
    unfold get_hero_sections, get_features, get_cta_sections,
      get_active_landing_page. rewrite Hp, Hh, Hf.
    repeat split; try done. intros Hcase.
    destruct r as [row|e].
    + destruct Hr as (Hrow & -> & _). rewrite filter_snoc_False; [done|].
      intros [Hid _]. destruct Hcase as [|Hne]; [done|].
      apply Hne. rewrite <- Hid. by subst row.
    + destruct Hr as (-> & _). done.
Qed.

(** A feature for page 2 of [mixed]: page 1 reads as before. *)
Lemma creation_is_local_witness :
  let s' := (create_feature (calm true) Inputs.feature Examples.mixed).2 in
  get_features s' 1 = get_features Examples.mixed 1
  ∧ get_hero_sections s' 2 = get_hero_sections Examples.mixed 2.
Proof.
  intros s'.
  destruct (creation_is_local (calm true) Examples.mixed) as (_ & _ & Hf & _).
  destruct (Hf Inputs.feature
              (create_feature (calm true) Inputs.feature Examples.mixed).1
              s' 1%Z "home") as (_ & Hh & _ & Hsame).
  - reflexivity.
  - split; [apply Hsame; right; discriminate|].
    destruct (Hf Inputs.feature
              (create_feature (calm true) Inputs.feature Examples.mixed).1
              s' 2%Z "home") as (_ & Hh2 & _); [reflexivity|exact Hh2].
Defined.

(** X7. After a component was created, the accessor of its kind returns,
    for its page, the rows it returned before and the new row, once. *)
Theorem created_component_is_added (env : Env) (s : Store) :
  (∀ data row s',
     create_hero_section env data s = (Ok row, s') →
     get_hero_sections s' (HeroSectionCreate.landing_page_id data)
     ≡ₚ row :: get_hero_sections s (HeroSectionCreate.landing_page_id data))
  ∧ (∀ data row s',
       create_feature env data s = (Ok row, s') →
       get_features s' (FeatureCreate.landing_page_id data)
       ≡ₚ row :: get_features s (FeatureCreate.landing_page_id data))
  ∧ (∀ data row s',
       create_cta_section env data s = (Ok row, s') →
       get_cta_sections s' (CallToActionSectionCreate.landing_page_id data)
       ≡ₚ row :: get_cta_sections s
                   (CallToActionSectionCreate.landing_page_id data)).
Proof.
  split; [|split]; intros data row s' Hrun.
  - apply create_hero_section_inv in Hrun as (_ & _ & _ & _ & Hrow & Hh & _).
    unfold get_hero_sections.
    rewrite !order_by_Permutation, Hh, filter_snoc_True by (by subst row).
    by rewrite Permutation_app_comm.
  - apply create_feature_inv in Hrun as (_ & _ & _ & _ & Hrow & Hf & _).
    unfold get_features.
    rewrite !order_by_Permutation, Hf, filter_snoc_True by (by subst row).
    by rewrite Permutation_app_comm.
  - apply create_cta_section_inv in Hrun as (_ & _ & _ & _ & Hrow & Hc & _).
    unfold get_cta_sections.
    rewrite !order_by_Permutation, Hc, filter_snoc_True by (by subst row).
    by rewrite Permutation_app_comm.
Qed.

(** A feature for page 2 of [mixed], which had none. *)
Lemma created_component_is_added_witness :
  ∃ row s',
    create_feature (calm true) Inputs.feature Examples.mixed = (Ok row, s')
    ∧ get_features s' 2 ≡ₚ [row].
Proof.
  destruct (created_component_is_added (calm true) Examples.mixed)
    as (_ & Hf & _).
  eexists _, _. split; [vm_compute; reflexivity|].
  exact (Hf Inputs.feature _ _ eq_refl).
Defined.

(** ** Invariants the creation calls keep *)

Lemma preserves_lift {A} (inv : Store → Prop) (r : result A) :
  preserves inv (lift r).
Proof. intros s r' s' Hs [= <- <-]. done. Qed.

Lemma preserves_ret {A} (inv : Store → Prop) (a : A) : preserves inv (ret a).
Proof. intros s r' s' Hs [= <- <-]. done. Qed.

Lemma preserves_bind {A B} (inv : Store → Prop) (m : M A) (k : A → M B) :
  preserves inv m → (∀ a, preserves inv (k a)) → preserves inv (bind m k).
Proof.
  intros Hm Hk s r s' Hs. unfold bind.
  destruct (m s) as [[a|e] s1] eqn:Hrun.
  - intros Hrest. eapply Hk; [|exact Hrest]. eapply Hm; eauto.
  - intros [= <- <-]. eapply Hm; eauto.
Qed.

Lemma preserves_bind_lift {A B} (inv : Store → Prop) (r : result A)
    (k : A → M B) :
  (∀ a, r = Ok a → preserves inv (k a)) → preserves inv (bind (lift r) k).
Proof.
  intros Hk s r' s' Hs. unfold bind, lift. destruct r as [a|e].
  - by apply Hk.
  - intros [= <- <-]. done.
Qed.

Lemma preserves_for_each {A B} (inv : Store → Prop) (xs : list A)
    (body : A → M B) :
  Forall (λ x, preserves inv (body x)) xs → preserves inv (for_each xs body).
Proof.
  induction 1 as [|x xs Hx _ IH]; simpl.
  - apply preserves_ret.
  - apply preserves_bind; [exact Hx|]. intros _. exact IH.
Qed.

(** The component inserts of the sample data keep whatever each insert
    for that page keeps. *)
Lemma create_sample_components_preserves (inv : Store → Prop) env page_id :
  (∀ d, HeroSectionCreate.landing_page_id d = page_id →
        preserves inv (create_hero_section env d)) →
  (∀ d, FeatureCreate.landing_page_id d = page_id →
        preserves inv (create_feature env d)) →
  (∀ d, CallToActionSectionCreate.landing_page_id d = page_id →
        preserves inv (create_cta_section env d)) →
  preserves inv (create_sample_components env page_id).
Proof.
  intros Hhero Hfeature Hcta.
  destruct (hero_kwargs_valid page_id) as (h & Hh & Hhid).
  destruct (features_kwargs_valid page_id) as (fs & Hfs & Hlinked & _).
  destruct (cta_kwargs_valid page_id) as (c & Hc & Hcid).
  assert (Forall (λ d, FeatureCreate.landing_page_id d = page_id) fs) as Hall.
  { apply Forall_forall. intros d Hd.
    assert (FeatureCreate.landing_page_id d
            ∈ FeatureCreate.landing_page_id <$> fs) as Hin
      by (by apply list_elem_of_fmap_2).
    rewrite Hlinked in Hin. by apply elem_of_replicate in Hin as [-> _]. }
  unfold create_sample_components. rewrite Hh, Hfs, Hc.
  apply preserves_bind_lift. intros ? [= <-].
  apply preserves_bind; [by apply Hhero|]. intros _.
  apply preserves_bind_lift. intros ? [= <-].
  apply preserves_bind.
  { apply preserves_for_each. eapply Forall_impl; [exact Hall|].
    intros d Hd. by apply Hfeature. }
  intros _. apply preserves_bind_lift. intros ? [= <-].
  apply preserves_bind; [by apply Hcta|]. intros _. apply preserves_ret.
Qed.

(** The sample data keep what the page creation and the component inserts
    keep, where the component inserts may rely on a fact [known] about the
    new page that the page creation has established. *)
Lemma create_sample_data_preserves (inv : Store → Prop)
    (known : Z → Store → Prop) env :
  (∀ data s r s',
     inv s → create_landing_page env data s = (r, s') →
     inv s' ∧ ∀ page page_id,
                r = Ok page → LandingPage.id page = Some page_id →
                known page_id s') →
  (∀ page_id d, HeroSectionCreate.landing_page_id d = page_id →
     preserves (λ s, inv s ∧ known page_id s) (create_hero_section env d)) →
  (∀ page_id d, FeatureCreate.landing_page_id d = page_id →
     preserves (λ s, inv s ∧ known page_id s) (create_feature env d)) →
  (∀ page_id d, CallToActionSectionCreate.landing_page_id d = page_id →
     preserves (λ s, inv s ∧ known page_id s) (create_cta_section env d)) →
  preserves inv (create_sample_data env).
Proof.
  intros Hpage Hhero Hfeature Hcta s r s' Hs Hrun.
  apply create_sample_data_inv in Hrun as (data & _ & _ & Hcases).
  destruct Hcases as [(e & -> & Hrun)
                     |(page & page_id & s1 & r' & Hrun & Hid & Hcomp & _)].
  - by apply (Hpage _ _ _ _ Hs) in Hrun as [? _].
  - apply (Hpage _ _ _ _ Hs) in Hrun as [Hs1 Hknown].
    specialize (Hknown page page_id eq_refl Hid).
    eapply (create_sample_components_preserves
              (λ s, inv s ∧ known page_id s)) in Hcomp as [? _]; eauto.
Qed.

Lemma keyed_snoc {A} (key_of : A → option Z) (l : list A) (row : A) :
  keyed key_of l → key_of row = Some (next_id (key_of <$> l)) →
  keyed key_of (l ++ [row]).
Proof.
  intros [Hnd Hall] Hrow. split.
  - rewrite fmap_app. apply NoDup_app. split; [done|]. split.
    + intros k Hk Hin. apply list_elem_of_singleton in Hin. subst k.
      rewrite Hrow in Hk. apply next_id_above in Hk. lia.
    + apply NoDup_singleton.
  - apply Forall_app. split; [done|]. constructor; [|constructor].
    by rewrite Hrow.
Qed.

Lemma create_landing_page_keys env data :
  preserves keys_unique (create_landing_page env data).
Proof.
  intros s r s' (Hp & Hh & Hf & Hc) Hrun.
  apply create_landing_page_inv in Hrun as (Hh' & Hf' & Hc' & _ & Hr).
  unfold keys_unique. rewrite Hh', Hf', Hc'. split; [|done].
  destruct r as [row|e].
  - destruct Hr as (Hrow & -> & _). apply keyed_snoc; [done|by subst row].
  - destruct Hr as (-> & _). done.
Qed.

Lemma create_hero_section_keys env data :
  preserves keys_unique (create_hero_section env data).
Proof.
  intros s r s' (Hp & Hh & Hf & Hc) Hrun.
  apply create_hero_section_inv in Hrun as (Hp' & Hf' & Hc' & _ & Hr).
  unfold keys_unique. rewrite Hp', Hf', Hc'. split; [done|]. split; [|done].
  destruct r as [row|e].
  - destruct Hr as (Hrow & -> & _). apply keyed_snoc; [done|by subst row].
  - destruct Hr as (-> & _). done.
Qed.

Lemma create_feature_keys env data :
  preserves keys_unique (create_feature env data).
Proof.
  intros s r s' (Hp & Hh & Hf & Hc) Hrun.
  apply create_feature_inv in Hrun as (Hp' & Hh' & Hc' & _ & Hr).
  unfold keys_unique. rewrite Hp', Hh', Hc'. do 2 (split; [done|]). split; [|done].
  destruct r as [row|e].
  - destruct Hr as (Hrow & -> & _). apply keyed_snoc; [done|by subst row].
  - destruct Hr as (-> & _). done.
Qed.

Lemma create_cta_section_keys env data :
  preserves keys_unique (create_cta_section env data).
Proof.
  intros s r s' (Hp & Hh & Hf & Hc) Hrun.
  apply create_cta_section_inv in Hrun as (Hp' & Hh' & Hf' & _ & Hr).
  unfold keys_unique. rewrite Hp', Hh', Hf'. do 3 (split; [done|]).
  destruct r as [row|e].
  - destruct Hr as (Hrow & -> & _). apply keyed_snoc; [done|by subst row].
  - destruct Hr as (-> & _). done.
Qed.

Lemma preserves_and_True {A} (inv : Store → Prop) (m : M A) :
  preserves inv m → preserves (λ s, inv s ∧ True) m.
Proof. intros Hm s r s' [Hs _] Hrun. split; [|done]. eapply Hm; eauto. Qed.

(** X8. Primary keys stay keys: on a store where every row has a key and
    no two rows of a table share one, that still holds after any creation
    call and after the sample data, however the call ends. *)
Theorem keys_stay_unique (env : Env) :
  (∀ data, preserves keys_unique (create_landing_page env data))
  ∧ (∀ data, preserves keys_unique (create_hero_section env data))
  ∧ (∀ data, preserves keys_unique (create_feature env data))
  ∧ (∀ data, preserves keys_unique (create_cta_section env data))
  ∧ preserves keys_unique (create_sample_data env).
Proof.
  split; [apply create_landing_page_keys|].
  split; [apply create_hero_section_keys|].
  split; [apply create_feature_keys|].
  split; [apply create_cta_section_keys|].
  apply (create_sample_data_preserves keys_unique (λ _ _, True)).
  - intros data s r s' Hs Hrun. split; [|done].
    eapply create_landing_page_keys; eauto.
  - intros _ d _. apply preserves_and_True, create_hero_section_keys.
  - intros _ d _. apply preserves_and_True, create_feature_keys.
  - intros _ d _. apply preserves_and_True, create_cta_section_keys.
Qed.

Lemma keys_unique_mixed : keys_unique Examples.mixed.
Proof.
  unfold keys_unique, keyed. repeat split;
    try (apply (bool_decide_unpack _); vm_compute; exact I);
    repeat constructor; simpl; eauto.
Qed.

(** The keys of [mixed] are distinct, and still so after the sample data. *)
Lemma keys_stay_unique_witness :
  keys_unique (create_sample_data (calm true) Examples.mixed).2.
Proof.
  destruct (keys_stay_unique (calm true)) as (_ & _ & _ & _ & Hseed).
  eapply Hseed; [apply keys_unique_mixed | apply surjective_pairing].
Defined.


Lemma create_landing_page_slugs env data :
  preserves slugs_unique (create_landing_page env data).
Proof.
  intros s r s' Hs Hrun.
  apply create_landing_page_inv in Hrun as (_ & _ & _ & _ & Hr).
  unfold slugs_unique in *. destruct r as [row|e].
  - destruct Hr as (Hrow & -> & _ & Hfree).
    rewrite fmap_app. apply NoDup_app. split; [done|]. split.
    + intros sl Hsl Hin. apply list_elem_of_singleton in Hin. subst sl.
      apply list_elem_of_fmap in Hsl as (p & Hslug & Hp).
      assert (slug_taken (LandingPageCreate.slug data) s = true) as Htaken.
      { apply slug_taken_true. exists p. split; [done|].
        rewrite <- Hslug. by subst row. }
      congruence.
    + apply NoDup_singleton.
  - by destruct Hr as (-> & _).
Qed.

(** X9. Slugs stay distinct: on a store where no two pages share a slug,
    that still holds after any creation call and after the sample data,
    however the call ends. *)
Theorem slugs_stay_unique (env : Env) :
  (∀ data, preserves slugs_unique (create_landing_page env data))
  ∧ (∀ data, preserves slugs_unique (create_hero_section env data))
  ∧ (∀ data, preserves slugs_unique (create_feature env data))
  ∧ (∀ data, preserves slugs_unique (create_cta_section env data))
  ∧ preserves slugs_unique (create_sample_data env).
Proof.
  assert (∀ data, preserves slugs_unique (create_hero_section env data)) as Hh.
  { intros data s r s' Hs Hrun.
    apply create_hero_section_inv in Hrun as (Hp & _).
    unfold slugs_unique. by rewrite Hp. }
  assert (∀ data, preserves slugs_unique (create_feature env data)) as Hf.
  { intros data s r s' Hs Hrun.
    apply create_feature_inv in Hrun as (Hp & _).
    unfold slugs_unique. by rewrite Hp. }
  assert (∀ data, preserves slugs_unique (create_cta_section env data)) as Hc.
  { intros data s r s' Hs Hrun.
    apply create_cta_section_inv in Hrun as (Hp & _).
    unfold slugs_unique. by rewrite Hp. }
  split; [apply create_landing_page_slugs|].
  do 3 (split; [done|]).
  apply (create_sample_data_preserves slugs_unique (λ _ _, True)).
  - intros data s r s' Hs Hrun. split; [|done].
    eapply create_landing_page_slugs; eauto.
  - intros _ d _. apply preserves_and_True, Hh.
  - intros _ d _. apply preserves_and_True, Hf.
  - intros _ d _. apply preserves_and_True, Hc.
Qed.

(** One more page on [mixed], whose slugs are "old" and "empty". *)
Lemma slugs_stay_unique_witness :
  slugs_unique (create_landing_page (calm true) Inputs.page Examples.mixed).2.
Proof.
  destruct (slugs_stay_unique (calm true)) as (Hpage & _).
  eapply Hpage; [|apply surjective_pairing].
  apply (bool_decide_unpack _). vm_compute. exact I.
Defined.


Lemma page_exists_grows page_id s s' :
  landing_pages s `prefix_of` landing_pages s' →
  page_exists page_id s = true → page_exists page_id s' = true.
Proof.
  intros [l Hl]. rewrite !page_exists_true. intros (p & Hp & Hid).
  exists p. split; [|done]. rewrite Hl, elem_of_app. by left.
Qed.

Lemma references_valid_step s s' :
  landing_pages s `prefix_of` landing_pages s' →
  references_valid s →
  Forall (λ h, page_exists (HeroSection.landing_page_id h) s' = true)
    (drop (length (hero_sections s)) (hero_sections s')) →
  Forall (λ f, page_exists (Feature.landing_page_id f) s' = true)
    (drop (length (features s)) (features s')) →
  Forall (λ c, page_exists (CallToActionSection.landing_page_id c) s' = true)
    (drop (length (cta_sections s)) (cta_sections s')) →
  hero_sections s `prefix_of` hero_sections s' →
  features s `prefix_of` features s' →
  cta_sections s `prefix_of` cta_sections s' →
  references_valid s'.
Proof.
  intros Hpages (Hh & Hf & Hc) Hh' Hf' Hc' [lh Elh] [lf Elf] [lc Elc].
  rewrite Elh, drop_app_length in Hh'. rewrite Elf, drop_app_length in Hf'.
  rewrite Elc, drop_app_length in Hc'.
  unfold references_valid. rewrite Elh, Elf, Elc, !Forall_app.
  repeat split; try done.
  all: eapply Forall_impl; [eassumption|]; simpl; intros x Hx.
  all: by eapply page_exists_grows.
Qed.

Lemma dangling_false env page_id s :
  dangling env page_id s = false → foreign_keys env = true →
  page_exists page_id s = true.
Proof.
  unfold dangling. intros Hd Hfk. rewrite Hfk in Hd. simpl in Hd.
  by apply negb_false_iff in Hd.
Qed.

Lemma create_hero_section_page env data s row s' :
  create_hero_section env data s = (Ok row, s') → foreign_keys env = true →
  page_exists (HeroSectionCreate.landing_page_id data) s = true.
Proof.
  unfold create_hero_section, bind, read_clock. simpl. intros Hrun Hfk.
  apply commit_inv in Hrun as [(_ & [=] & _)|[(_ & _ & [=] & _)|
    (_ & Hv & _)]].
  by apply (dangling_false env _ (tick (tick s))).
Qed.

Lemma create_feature_page env data s row s' :
  create_feature env data s = (Ok row, s') → foreign_keys env = true →
  page_exists (FeatureCreate.landing_page_id data) s = true.
Proof.
  unfold create_feature, bind, read_clock. simpl. intros Hrun Hfk.
  apply commit_inv in Hrun as [(_ & [=] & _)|[(_ & _ & [=] & _)|
    (_ & Hv & _)]].
  by apply (dangling_false env _ (tick (tick s))).
Qed.

Lemma create_cta_section_page env data s row s' :
  create_cta_section env data s = (Ok row, s') → foreign_keys env = true →
  page_exists (CallToActionSectionCreate.landing_page_id data) s = true.
Proof.
  unfold create_cta_section, bind, read_clock. simpl. intros Hrun Hfk.
  apply commit_inv in Hrun as [(_ & [=] & _)|[(_ & _ & [=] & _)|
    (_ & Hv & _)]].
  by apply (dangling_false env _ (tick (tick s))).
Qed.

(** A component insert keeps the references valid when the page it names
    is known to exist, or when the engine checks it. *)
Lemma create_hero_section_references env data s r s' :
  references_valid s →
  foreign_keys env = true
  ∨ page_exists (HeroSectionCreate.landing_page_id data) s = true →
  create_hero_section env data s = (r, s') → references_valid s'.
Proof.
  intros Hs Hpage Hrun.
  pose proof (create_hero_section_inv _ _ _ _ _ Hrun)
    as (Hp & Hf & Hc & _ & Hr).
  apply (references_valid_step s); try done;
    rewrite ?Hp, ?Hf, ?Hc, ?drop_all; try done.
  - destruct r as [row|e]; [|destruct Hr as (-> & _);
                              by rewrite drop_all].
    destruct Hr as (Hrow & -> & _). rewrite drop_app_length.
    constructor; [|constructor]. subst row. simpl.
    apply (page_exists_grows _ s); [by rewrite Hp|].
    destruct Hpage as [Hfk|]; [|done].
    by eapply create_hero_section_page.
  - destruct r as [row|e]; [destruct Hr as (_ & -> & _)
                           |destruct Hr as (-> & _)]; [|done].
    by apply prefix_app_r.
Qed.

Lemma create_feature_references env data s r s' :
  references_valid s →
  foreign_keys env = true
  ∨ page_exists (FeatureCreate.landing_page_id data) s = true →
  create_feature env data s = (r, s') → references_valid s'.
Proof.
  intros Hs Hpage Hrun.
  pose proof (create_feature_inv _ _ _ _ _ Hrun)
    as (Hp & Hh & Hc & _ & Hr).
  apply (references_valid_step s); try done;
    rewrite ?Hp, ?Hh, ?Hc, ?drop_all; try done.
  - destruct r as [row|e]; [|destruct Hr as (-> & _);
                              by rewrite drop_all].
    destruct Hr as (Hrow & -> & _). rewrite drop_app_length.
    constructor; [|constructor]. subst row. simpl.
    apply (page_exists_grows _ s); [by rewrite Hp|].
    destruct Hpage as [Hfk|]; [|done].
    by eapply create_feature_page.
  - destruct r as [row|e]; [destruct Hr as (_ & -> & _)
                           |destruct Hr as (-> & _)]; [|done].
    by apply prefix_app_r.
Qed.

Lemma create_cta_section_references env data s r s' :
  references_valid s →
  foreign_keys env = true
  ∨ page_exists (CallToActionSectionCreate.landing_page_id data) s = true →
  create_cta_section env data s = (r, s') → references_valid s'.
Proof.
  intros Hs Hpage Hrun.
  pose proof (create_cta_section_inv _ _ _ _ _ Hrun)
    as (Hp & Hh & Hf & _ & Hr).
  apply (references_valid_step s); try done;
    rewrite ?Hp, ?Hh, ?Hf, ?drop_all; try done.
  - destruct r as [row|e]; [|destruct Hr as (-> & _);
                              by rewrite drop_all].
    destruct Hr as (Hrow & -> & _). rewrite drop_app_length.
    constructor; [|constructor]. subst row. simpl.
    apply (page_exists_grows _ s); [by rewrite Hp|].
    destruct Hpage as [Hfk|]; [|done].
    by eapply create_cta_section_page.
  - destruct r as [row|e]; [destruct Hr as (_ & -> & _)
                           |destruct Hr as (-> & _)]; [|done].
    by apply prefix_app_r.
Qed.

Lemma create_landing_page_references env data s r s' :
  references_valid s → create_landing_page env data s = (r, s') →
  references_valid s'
  ∧ ∀ page page_id, r = Ok page → LandingPage.id page = Some page_id →
                    page_exists page_id s' = true.
Proof.
  intros Hs Hrun.
  apply create_landing_page_inv in Hrun as (Hh & Hf & Hc & _ & Hr).
  assert (landing_pages s `prefix_of` landing_pages s') as Hpre.
  { destruct r as [row|e]; [destruct Hr as (_ & -> & _)
                           |destruct Hr as (-> & _)]; [|done].
    by apply prefix_app_r. }
  split.
  - apply (references_valid_step s); try done;
      rewrite ?Hh, ?Hf, ?Hc, ?drop_all; done.
  - intros page page_id -> Hid. destruct Hr as (_ & Hp & _).
    apply page_exists_true. exists page. split; [|done].
    rewrite Hp, elem_of_app. right. by apply list_elem_of_singleton.
Qed.

(** X10. References stay valid: on a store where every component belongs
    to a page of the store, that still holds after a page creation, after
    the sample data (whose components name the page just created), and,
    when the engine enforces foreign keys, after any component insert. *)
Theorem references_stay_valid (env : Env) :
  (∀ data, preserves references_valid (create_landing_page env data))
  ∧ preserves references_valid (create_sample_data env)
  ∧ (foreign_keys env = true →
     (∀ data, preserves references_valid (create_hero_section env data))
     ∧ (∀ data, preserves references_valid (create_feature env data))
     ∧ (∀ data, preserves references_valid (create_cta_section env data))).
Proof.
  split; [|split].
  - intros data s r s' Hs Hrun.
    by eapply create_landing_page_references in Hrun as [? _].
  - apply (create_sample_data_preserves references_valid
             (λ page_id s, page_exists page_id s = true)).
    + intros data s r s' Hs Hrun.
      by eapply create_landing_page_references.
    + intros page_id d <- s r s' [Hs Hpage] Hrun. split.
      * eapply create_hero_section_references; eauto.
      * apply create_hero_section_inv in Hrun as (Hp & _).
        apply (page_exists_grows _ s); [by rewrite Hp|done].
    + intros page_id d <- s r s' [Hs Hpage] Hrun. split.
      * eapply create_feature_references; eauto.
      * apply create_feature_inv in Hrun as (Hp & _).
        apply (page_exists_grows _ s); [by rewrite Hp|done].
    + intros page_id d <- s r s' [Hs Hpage] Hrun. split.
      * eapply create_cta_section_references; eauto.
      * apply create_cta_section_inv in Hrun as (Hp & _).
        apply (page_exists_grows _ s); [by rewrite Hp|done].
  - intros Hfk. split; [|split]; intros data s r s' Hs Hrun.
    + eapply create_hero_section_references; eauto.
    + eapply create_feature_references; eauto.
    + eapply create_cta_section_references; eauto.
Qed.

Lemma references_valid_mixed : references_valid Examples.mixed.
Proof. repeat split; repeat constructor. Qed.

(** A feature for page 2 of [mixed], with foreign keys enforced. *)
Lemma references_stay_valid_witness :
  references_valid
    (create_feature (calm true) Inputs.feature Examples.mixed).2.
Proof.
  destruct (references_stay_valid (calm true)) as (_ & _ & Hfk).
  destruct (Hfk eq_refl) as (_ & Hfeature & _).
  eapply Hfeature; [apply references_valid_mixed | apply surjective_pairing].
Defined.


Lemma extends_refl s : extends s s.
Proof. by repeat split. Qed.

Lemma extends_trans s1 s2 s3 : extends s1 s2 → extends s2 s3 → extends s1 s3.
Proof.
  intros (? & ? & ? & ?) (? & ? & ? & ?). repeat split; by etrans.
Qed.

Lemma create_landing_page_extends env data s r s' :
  create_landing_page env data s = (r, s') → extends s s'.
Proof.
  intros Hrun.
  apply create_landing_page_inv in Hrun as (Hh & Hf & Hc & _ & Hr).
  unfold extends. rewrite Hh, Hf, Hc. split; [|done].
  destruct r as [row|e]; [destruct Hr as (_ & -> & _)|destruct Hr as (-> & _)];
    [by apply prefix_app_r | done].
Qed.

Lemma create_hero_section_extends env data s r s' :
  create_hero_section env data s = (r, s') → extends s s'.
Proof.
  intros Hrun.
  apply create_hero_section_inv in Hrun as (Hp & Hf & Hc & _ & Hr).
  unfold extends. rewrite Hp, Hf, Hc. split; [done|]. split; [|done].
  destruct r as [row|e]; [destruct Hr as (_ & -> & _)|destruct Hr as (-> & _)];
    [by apply prefix_app_r | done].
Qed.

Lemma create_feature_extends env data s r s' :
  create_feature env data s = (r, s') → extends s s'.
Proof.
  intros Hrun.
  apply create_feature_inv in Hrun as (Hp & Hh & Hc & _ & Hr).
  unfold extends. rewrite Hp, Hh, Hc. do 2 (split; [done|]). split; [|done].
  destruct r as [row|e]; [destruct Hr as (_ & -> & _)|destruct Hr as (-> & _)];
    [by apply prefix_app_r | done].
Qed.

Lemma create_cta_section_extends env data s r s' :
  create_cta_section env data s = (r, s') → extends s s'.
Proof.
  intros Hrun.
  apply create_cta_section_inv in Hrun as (Hp & Hh & Hf & _ & Hr).
  unfold extends. rewrite Hp, Hh, Hf. do 3 (split; [done|]).
  destruct r as [row|e]; [destruct Hr as (_ & -> & _)|destruct Hr as (-> & _)];
    [by apply prefix_app_r | done].
Qed.

(** X11. The creation calls only append: whatever a creation call or the
    sample data does, and however it ends, every table afterwards starts
    with the rows it had before, in the same order and unchanged.  No row
    is ever removed, changed or moved. *)
Theorem creation_only_appends (env : Env) (s : Store) :
  (∀ data r s', create_landing_page env data s = (r, s') → extends s s')
  ∧ (∀ data r s', create_hero_section env data s = (r, s') → extends s s')
  ∧ (∀ data r s', create_feature env data s = (r, s') → extends s s')
  ∧ (∀ data r s', create_cta_section env data s = (r, s') → extends s s')
  ∧ (∀ r s', create_sample_data env s = (r, s') → extends s s').
Proof.
  split; [intros; by eapply create_landing_page_extends|].
  split; [intros; by eapply create_hero_section_extends|].
  split; [intros; by eapply create_feature_extends|].
  split; [intros; by eapply create_cta_section_extends|].
  intros r s' Hrun.
  eapply (create_sample_data_preserves (extends s) (λ _ _, True));
    [| | | |apply extends_refl|exact Hrun].
  - intros data s1 r1 s2 Hs Hrun1. split; [|done].
    eapply extends_trans; [exact Hs|]. by eapply create_landing_page_extends.
  - intros _ d _ s1 r1 s2 [Hs _] Hrun1. split; [|done].
    eapply extends_trans; [exact Hs|]. by eapply create_hero_section_extends.
  - intros _ d _ s1 r1 s2 [Hs _] Hrun1. split; [|done].
    eapply extends_trans; [exact Hs|]. by eapply create_feature_extends.
  - intros _ d _ s1 r1 s2 [Hs _] Hrun1. split; [|done].
    eapply extends_trans; [exact Hs|]. by eapply create_cta_section_extends.
Qed.

(** The sample data on [mixed]. *)
Lemma creation_only_appends_witness :
  extends Examples.mixed (create_sample_data (calm true) Examples.mixed).2.
Proof.
  destruct (creation_only_appends (calm true) Examples.mixed)
    as (_ & _ & _ & _ & Hseed).
  eapply Hseed. apply surjective_pairing.
Defined.


(** ** How the sample data can fail *)

Lemma within_lift_bind {A B} env page_id k (r : result A) (f : A → M B) :
  (∃ a, r = Ok a ∧ within env page_id k (f a)) →
  within env page_id k (bind (lift r) f).
Proof. intros (a & -> & Hf). exact Hf. Qed.

Lemma within_ret {A} env page_id (a : A) : within env page_id 0 (ret a).
Proof. intros s r s' Hs [= <- <-]. split; [done|]. simpl. lia. Qed.

Lemma within_bind {A B} env page_id k1 k2 (m : M A) (f : A → M B) :
  within env page_id k1 m → (∀ a, within env page_id k2 (f a)) →
  within env page_id (k1 + k2) (bind m f).
Proof.
  intros Hm Hf s r s' Hs. unfold bind.
  destruct (m s) as [[a|e] s1] eqn:Hrun;
    destruct (Hm _ _ _ Hs Hrun) as [Hs1 Hr1].
  - intros Hrest. destruct (Hf a _ _ _ Hs1 Hrest) as [Hs2 Hr2].
    split; [done|]. destruct r as [b|e].
    + lia.
    + destruct Hr2 as (-> & n & Hn & Hout). split; [done|].
      exists n. split; [lia|done].
  - intros [= <- <-]. split; [done|].
    destruct Hr1 as (-> & n & Hn & Hout). split; [done|].
    exists n. split; [lia|done].
Qed.

Lemma within_for_each {A B} env page_id (xs : list A) (body : A → M B) :
  Forall (λ x, within env page_id 1 (body x)) xs →
  within env page_id (length xs) (for_each xs body).
Proof.
  induction 1 as [|x xs Hx _ IH]; simpl.
  - apply within_ret.
  - apply (within_bind env page_id 1 (length xs)); [exact Hx|].
    intros _. exact IH.
Qed.

Lemma commit_within {R} env page_id violated (insert : Store → R * Store) :
  (∀ s, page_exists page_id s = true → violated s = false) →
  (∀ s, page_exists page_id s = true →
        page_exists page_id (insert s).2 = true
        ∧ commits (insert s).2 = commits s) →
  within env page_id 1 (commit env violated insert).
Proof.
  intros Hv Hins s r s' Hs Hrun.
  apply commit_inv in Hrun as [(Ho & -> & ->)|[(Ho & Hv' & -> & ->)|
    (Ho & _ & row & -> & Hrun)]].
  - split; [done|]. split; [done|]. exists (commits s). split; [lia|done].
  - rewrite Hv in Hv'; done.
  - destruct (Hins (count_commit s) Hs) as [Hp Hc].
    rewrite Hrun in Hp, Hc. simpl in Hp, Hc. split; [done|].
    rewrite Hc. simpl. lia.
Qed.

Lemma read_clock_bind_within {B} env page_id k (f : Z → M B) :
  (∀ t, within env page_id k (f t)) →
  within env page_id k (bind (read_clock env) f).
Proof.
  intros Hf s r s' Hs. unfold bind, read_clock.
  intros Hrun. apply (Hf _ (tick s)) in Hrun as [? ?]; done.
Qed.

Lemma dangling_known env page_id s :
  page_exists page_id s = true → dangling env page_id s = false.
Proof. unfold dangling. intros ->. by rewrite andb_false_r. Qed.

Lemma create_hero_section_within env data :
  within env (HeroSectionCreate.landing_page_id data) 1
    (create_hero_section env data).
Proof.
  unfold create_hero_section.
  apply read_clock_bind_within. intros created.
  apply read_clock_bind_within. intros updated.
  apply commit_within.
  - intros s. apply dangling_known.
  - intros s Hs. done.
Qed.

Lemma create_feature_within env data :
  within env (FeatureCreate.landing_page_id data) 1
    (create_feature env data).
Proof.
  unfold create_feature.
  apply read_clock_bind_within. intros created.
  apply read_clock_bind_within. intros updated.
  apply commit_within.
  - intros s. apply dangling_known.
  - intros s Hs. done.
Qed.

Lemma create_cta_section_within env data :
  within env (CallToActionSectionCreate.landing_page_id data) 1
    (create_cta_section env data).
Proof.
  unfold create_cta_section.
  apply read_clock_bind_within. intros created.
  apply read_clock_bind_within. intros updated.
  apply commit_within.
  - intros s. apply dangling_known.
  - intros s Hs. done.
Qed.

Lemma create_sample_components_within env page_id :
  within env page_id 8 (create_sample_components env page_id).
Proof.
  destruct (hero_kwargs_valid page_id) as (h & Hh & Hhid).
  destruct (features_kwargs_valid page_id) as (fs & Hfs & Hlinked & _).
  destruct (cta_kwargs_valid page_id) as (c & Hc & Hcid).
  assert (length fs = 6%nat) as Hlen.
  { apply (f_equal length) in Hlinked.
    by rewrite length_fmap, length_replicate in Hlinked. }
  assert (Forall (λ d, FeatureCreate.landing_page_id d = page_id) fs) as Hall.
  { apply Forall_forall. intros d Hd.
    assert (FeatureCreate.landing_page_id d
            ∈ FeatureCreate.landing_page_id <$> fs) as Hin
      by (by apply list_elem_of_fmap_2).
    rewrite Hlinked in Hin. by apply elem_of_replicate in Hin as [-> _]. }
  unfold create_sample_components. rewrite Hh, Hfs, Hc.
  apply within_lift_bind. exists h. split; [done|].
  apply (within_bind env page_id 1 7).
  { rewrite <- Hhid. apply create_hero_section_within. }
  intros _. apply within_lift_bind. exists fs. split; [done|].
  apply (within_bind env page_id 6 1).
  { rewrite <- Hlen. apply within_for_each.
    eapply Forall_impl; [exact Hall|]. intros d <-.
    apply create_feature_within. }
  intros _. apply within_lift_bind. exists c. split; [done|].
  apply (within_bind env page_id 1 0).
  { rewrite <- Hcid. apply create_cta_section_within. }
  intros _. apply within_ret.
Qed.

Lemma create_landing_page_failure env data s e s' :
  create_landing_page env data s = (Err e, s') →
  (e = OperationalError ∧ outage env (commits s) = true)
  ∨ (e = IntegrityError ∧ outage env (commits s) = false
     ∧ slug_taken (LandingPageCreate.slug data) s = true).
Proof.
  unfold create_landing_page, bind, read_clock. simpl. intros Hrun.
  apply commit_inv in Hrun as [(Ho & [= <-] & _)|[(Ho & Hv & [= <-] & _)|
    (_ & _ & row & [=] & _)]]; auto.
Qed.

Lemma create_sample_data_failure (env : Env) (s : Store) (e : error)
    (s' : Store) :
  create_sample_data env s = (Err e, s') →
  (e = IntegrityError
   ∧ outage env (commits s) = false
   ∧ slug_taken "home" s = true
   ∧ (landing_pages s' = landing_pages s
      ∧ hero_sections s' = hero_sections s
      ∧ features s' = features s
      ∧ cta_sections s' = cta_sections s))
  ∨ (e = OperationalError
     ∧ ∃ n, (commits s ≤ n < commits s + 9)%nat ∧ outage env n = true).
Proof.
  intros Hrun.
  apply create_sample_data_inv in Hrun as (data & _ & Hslug & Hcases).
  destruct Hcases as [(e' & [= <-] & Hpage)
                     |(page & page_id & s1 & r' & Hpage & Hid & Hcomp & Hr)].
  - pose proof (create_landing_page_inv _ _ _ _ _ Hpage)
      as (Hh & Hf & Hc & _ & Hp & _).
    apply create_landing_page_failure in Hpage
      as [[-> Ho]|(-> & Ho & Htaken)].
    + right. split; [done|]. exists (commits s). split; [lia|done].
    + left. rewrite Hslug in Htaken. done.
  - destruct r' as [[]|e']; [done|]. injection Hr as <-. right.
    apply create_landing_page_inv in Hpage as (_ & _ & _ & Hn & _ & Hp & _).
    assert (page_exists page_id s1 = true) as Hex.
    { apply page_exists_true. exists page. split; [|done].
      rewrite Hp, elem_of_app. right. by apply list_elem_of_singleton. }
    destruct (create_sample_components_within env page_id _ _ _ Hex Hcomp)
      as (_ & -> & n & Hrange & Hout).
    split; [done|]. exists n. split; [lia|done].
Qed.

(** X12. The sample data can fail in two ways only.  Either the page
    insert is refused because a page "home" exists, active or not: the
    error is the unique violation and no row was written.  Or one of its
    nine commits found the store out of reach: the error is the store's
    operational error.  It raises nothing else, in particular no
    validation error and not the [ValueError] of its own. *)
Theorem sample_data_failures (env : Env) (s : Store) (e : error)
    (s' : Store) :
  create_sample_data env s = (Err e, s') →
  (e = IntegrityError
   ∧ outage env (commits s) = false
   ∧ (∃ p, p ∈ landing_pages s ∧ LandingPage.slug p = "home")
   ∧ rows s' = rows s)
  ∨ (e = OperationalError
     ∧ ∃ n, (commits s ≤ n < commits s + 9)%nat ∧ outage env n = true).
Proof.
  intros Hrun.
  apply create_sample_data_failure in Hrun
    as [(-> & Hreach & Htaken & Hp & Hh & Hf & Hc)|(-> & Hout)].
  - left. split; [done|]. split; [done|]. split.
    + by apply slug_taken_true.
    + unfold rows. by rewrite Hp, Hh, Hf, Hc.
  - right. by split.
Qed.

(** On the seeded store "home" is taken: the run writes nothing. *)
Lemma sample_data_failures_witness :
  rows (create_sample_data (calm true) Examples.seeded).2
  = rows Examples.seeded.
Proof.
  destruct (sample_data_failures (calm true) Examples.seeded IntegrityError
              (create_sample_data (calm true) Examples.seeded).2)
    as [(_ & _ & _ & Hrows)|(Heq & _)].
  - vm_compute. reflexivity.
  - exact Hrows.
  - discriminate.
Defined.

(** X13. The sample data end well on every store that has no page
    "home" and stays within reach for the next nine commits, whether or
    not the engine enforces foreign keys; they attempt exactly nine
    commits. *)
Theorem sample_data_succeeds (env : Env) (s : Store) :
  (∀ p, p ∈ landing_pages s → LandingPage.slug p ≠ "home") →
  (∀ n, (commits s ≤ n < commits s + 9)%nat → outage env n = false) →
  ∃ page s',
    create_sample_data env s = (Ok page, s')
    ∧ commits s' = (commits s + 9)%nat
    ∧ get_active_landing_page s' "home" = Some page.
Proof.
  intros Hfree Hreach.
  destruct (create_sample_data env s) as [[page|e] s'] eqn:Hrun.
  - exists page, s'. split; [done|].
    apply create_sample_data_inv in Hrun as (data & _ & Hslug & Hcases).
    destruct Hcases as [(e' & [=] & _)
                       |(p & page_id & s1 & r' & Hpage & Hid & Hcomp & Hr)].
    destruct r' as [[]|e']; [|done]. injection Hr as ->.
    apply create_landing_page_inv in Hpage
      as (_ & _ & _ & Hn & Hrow & Hp & _).
    assert (page_exists page_id s1 = true) as Hex.
    { apply page_exists_true. exists p. split; [|done].
      rewrite Hp, elem_of_app. right. by apply list_elem_of_singleton. }
    destruct (create_sample_components_within env page_id _ _ _ Hex Hcomp)
      as (_ & Hcommits).
    split; [lia|].
    apply create_sample_components_inv in Hcomp
      as (_ & _ & _ & _ & _ & _ & _ & _ & Hp2 & _).
    unfold get_active_landing_page. rewrite Hp2, Hp, filter_app.
    rewrite filter_none, filter_cons_True; [done|by subst p|].
    intros q Hq [Hq' _]. by apply (Hfree q).
  - exfalso. apply create_sample_data_failure in Hrun
      as [(_ & _ & Htaken & _)|(_ & n & Hn & Hout)].
    + apply slug_taken_true in Htaken as (p & Hp & Hhome).
      by apply (Hfree p).
    + rewrite Hreach in Hout; done.
Qed.

(** The store [mixed] has the pages "old" and "empty" only. *)
Lemma sample_data_succeeds_witness :
  ∃ page s',
    create_sample_data (calm true) Examples.mixed = (Ok page, s')
    ∧ commits s' = 17%nat
    ∧ get_active_landing_page s' "home" = Some page.
Proof.
  apply (sample_data_succeeds (calm true) Examples.mixed).
  - intros p Hp. apply list_elem_of_In in Hp. simpl in Hp.
    intuition (subst; discriminate).
  - reflexivity.
Defined.

(** ** What the seeded page shows *)

Lemma Forall_drop_snoc {A} (P : A → Prop) (n : nat) (l : list A) (x : A) :
  Forall P (drop n l) → P x → Forall P (drop n (l ++ [x])).
Proof.
  intros Hl Hx. rewrite drop_app. apply Forall_app. split; [done|].
  apply Forall_drop. by constructor.
Qed.

(** The hero sections and calls to action from a given position on are
    active: kept by every insert, since a new row is active. *)
Lemma new_rows_active env nh nc :
  (∀ d, preserves
          (λ s, (Forall (λ h, HeroSection.is_active h = true)
                   (drop nh (hero_sections s))
                 ∧ Forall (λ c, CallToActionSection.is_active c = true)
                     (drop nc (cta_sections s))) ∧ True)
          (create_hero_section env d))
  ∧ (∀ d, preserves
            (λ s, (Forall (λ h, HeroSection.is_active h = true)
                     (drop nh (hero_sections s))
                   ∧ Forall (λ c, CallToActionSection.is_active c = true)
                       (drop nc (cta_sections s))) ∧ True)
            (create_feature env d))
  ∧ (∀ d, preserves
            (λ s, (Forall (λ h, HeroSection.is_active h = true)
                     (drop nh (hero_sections s))
                   ∧ Forall (λ c, CallToActionSection.is_active c = true)
                       (drop nc (cta_sections s))) ∧ True)
            (create_cta_section env d)).
Proof.
  split; [|split]; intros d s r s' [[Hh Hc] _] Hrun; (split; [|done]).
  - apply create_hero_section_inv in Hrun as (_ & _ & Hc' & _ & Hr).
    rewrite Hc'. split; [|done].
    destruct r as [row|e]; [destruct Hr as (Hrow & -> & _)
                           |by destruct Hr as (-> & _)].
    apply Forall_drop_snoc; [done|by subst row].
  - apply create_feature_inv in Hrun as (_ & Hh' & Hc' & _).
    by rewrite Hh', Hc'.
  - apply create_cta_section_inv in Hrun as (_ & Hh' & _ & _ & Hr).
    rewrite Hh'. split; [done|].
    destruct r as [row|e]; [destruct Hr as (Hrow & -> & _)
                           |by destruct Hr as (-> & _)].
    apply Forall_drop_snoc; [done|by subst row].
Qed.

(** The rows of a run of the sample data that ended well. *)
Lemma create_sample_data_rows env s page s' :
  create_sample_data env s = (Ok page, s') →
  ∃ page_id h fs c hrow fnew crow,
    (LandingPage.id page = Some page_id
     ∧ page_id = next_id (LandingPage.id <$> landing_pages s)
     ∧ landing_pages s' = landing_pages s ++ [page])
    ∧ (HeroSectionCreate.init (hero_kwargs page_id) = Ok h
       ∧ all_ok (FeatureCreate.init <$> features_kwargs page_id) = Ok fs
       ∧ CallToActionSectionCreate.init (cta_kwargs page_id) = Ok c)
    ∧ (hero_sections s' = hero_sections s ++ [hrow]
       ∧ features s' = features s ++ fnew
       ∧ cta_sections s' = cta_sections s ++ [crow])
    ∧ (HeroSection_dump hrow = h
       ∧ Feature_dump <$> fnew = fs
       ∧ CallToActionSection_dump crow = c)
    ∧ (HeroSection.is_active hrow = true
       ∧ Forall (λ f, Feature.display_order f = 0%Z
                      ∧ Feature.is_active f = true) fnew
       ∧ CallToActionSection.is_active crow = true).
Proof.
  intros Hrun.
  apply create_sample_data_inv in Hrun as (data & _ & _ & Hcases).
  destruct Hcases as [(e & [=] & _)
                     |(p & page_id & s1 & r' & Hpage & Hid & Hcomp & Hr)].
  destruct r' as [[]|e']; [|discriminate]. injection Hr as <-.
  apply create_landing_page_inv in Hpage as (Hh & Hf & Hc & _ & Hrow & Hp & _).
  destruct (new_rows_active env (length (hero_sections s1))
              (length (cta_sections s1))) as (Ha1 & Ha2 & Ha3).
  assert (Forall (λ h, HeroSection.is_active h = true)
            (drop (length (hero_sections s1)) (hero_sections s1))) as Hh0
    by (by rewrite drop_all).
  assert (Forall (λ c, CallToActionSection.is_active c = true)
            (drop (length (cta_sections s1)) (cta_sections s1))) as Hc0
    by (by rewrite drop_all).
  pose proof (create_sample_components_preserves _ env page_id
                (λ d _, Ha1 d) (λ d _, Ha2 d) (λ d _, Ha3 d) s1 _ _
                (conj (conj Hh0 Hc0) I) Hcomp)
    as [[Hact_h Hact_c] _].
  clear Hh0 Hc0.
  apply create_sample_components_inv in Hcomp
    as (h & fs & c & k & hnew & fnew & cnew & Hinit & Hp2
        & (Hh2 & Hf2 & Hc2) & (Hdh & Hdf & Hdc) & Hall & ->).
  rewrite Hh2, drop_app_length in Hact_h.
  rewrite Hc2, drop_app_length in Hact_c.
  pose proof Hinit as (_ & Hfs & _).
  destruct (features_kwargs_valid page_id) as (fs' & Hfs' & Hlinked & _).
  assert (fs' = fs) as -> by congruence. clear Hfs Hfs'.
  assert (length fs = 6%nat) as Hlen.
  { apply (f_equal length) in Hlinked.
    by rewrite length_fmap, length_replicate in Hlinked. }
  simpl in Hdh, Hdc. rewrite take_ge in Hdf by lia.
  destruct hnew as [|hrow [|? ?]]; try discriminate.
  destruct cnew as [|crow [|? ?]]; try discriminate.
  injection Hdh as Hdh. injection Hdc as Hdc.
  apply Forall_inv in Hact_h. apply Forall_inv in Hact_c.
  exists page_id, h, fs, c, hrow, fnew, crow.
  split.
  { split; [done|]. split; [|congruence]. subst page. simpl in Hid.
    congruence. }
  split; [exact Hinit|].
  split; [by rewrite Hh2, Hf2, Hc2, Hh, Hf, Hc|].
  done.
Qed.

Lemma sample_kwargs_content page_id :
  ∃ h fs c,
    (HeroSectionCreate.init (hero_kwargs page_id) = Ok h
     ∧ all_ok (FeatureCreate.init <$> features_kwargs page_id) = Ok fs
     ∧ CallToActionSectionCreate.init (cta_kwargs page_id) = Ok c)
    ∧ (HeroSectionCreate.landing_page_id h = page_id
       ∧ HeroSectionCreate.headline h
         = "Transform Your Business with Modern Solutions")
    ∧ (λ d, (FeatureCreate.landing_page_id d, FeatureCreate.title d,
             FeatureCreate.is_featured d)) <$> fs
      = [(page_id, "Lightning Fast Performance", true);
         (page_id, "Intuitive Design", true);
         (page_id, "Enterprise Security", true);
         (page_id, "24/7 Support", false);
         (page_id, "Scalable Infrastructure", false);
         (page_id, "Advanced Analytics", false)]
    ∧ (CallToActionSectionCreate.landing_page_id c = page_id
       ∧ CallToActionSectionCreate.headline c
         = "Ready to Transform Your Business?").
Proof.
  assert (match HeroSectionCreate.init (hero_kwargs page_id),
                all_ok (FeatureCreate.init <$> features_kwargs page_id),
                CallToActionSectionCreate.init (cta_kwargs page_id) with
          | Ok h, Ok fs, Ok c =>
              (HeroSectionCreate.landing_page_id h = page_id
               ∧ HeroSectionCreate.headline h
                 = "Transform Your Business with Modern Solutions")
              ∧ (λ d, (FeatureCreate.landing_page_id d, FeatureCreate.title d,
                       FeatureCreate.is_featured d)) <$> fs
                = [(page_id, "Lightning Fast Performance", true);
                   (page_id, "Intuitive Design", true);
                   (page_id, "Enterprise Security", true);
                   (page_id, "24/7 Support", false);
                   (page_id, "Scalable Infrastructure", false);
                   (page_id, "Advanced Analytics", false)]
              ∧ (CallToActionSectionCreate.landing_page_id c = page_id
                 ∧ CallToActionSectionCreate.headline c
                   = "Ready to Transform Your Business?")
          | _, _, _ => False
          end) as H by (vm_compute; repeat split; reflexivity).
  destruct (HeroSectionCreate.init (hero_kwargs page_id)) as [h|]; [|done].
  destruct (all_ok (FeatureCreate.init <$> features_kwargs page_id))
    as [fs|]; [|done].
  destruct (CallToActionSectionCreate.init (cta_kwargs page_id)) as [c|];
    [|done].
  exists h, fs, c. split; [by repeat split|exact H].
Qed.

Lemma referenced_page_is_old (s : Store) (page_id : Z) :
  page_exists page_id s = true →
  page_id ≠ next_id (LandingPage.id <$> landing_pages s).
Proof.
  intros Hex Heq. apply page_exists_true in Hex as (p & Hp & Hid).
  assert (Some page_id ∈ LandingPage.id <$> landing_pages s) as Hin.
  { rewrite <- Hid. by apply list_elem_of_fmap_2. }
  apply next_id_above in Hin. lia.
Qed.

Lemma feature_leb_same_order (a b : Feature.t) :
  Feature.display_order a = Feature.display_order b →
  feature_leb a b = String.leb (Feature.title a) (Feature.title b).
Proof.
  intros Heq. unfold feature_leb. rewrite Heq, Z.ltb_irrefl, Z.eqb_refl. done.
Qed.

(** X14. What the readers get for a freshly seeded page, on any store whose
    components all belong to pages of the store: the one hero section, the
    one call to action, and the six features in the order of their titles,
    since all six are persisted with display_order 0.  The featured part is
    then the three featured features in title order, the rest the three
    plain ones. *)
Theorem seeded_page_contents (env : Env) (s : Store)
    (page : LandingPage.t) (s' : Store) :
  references_valid s →
  create_sample_data env s = (Ok page, s') →
  ∃ page_id,
    LandingPage.id page = Some page_id
    ∧ HeroSection.headline <$> get_hero_sections s' page_id
      = ["Transform Your Business with Modern Solutions"]
    ∧ CallToActionSection.headline <$> get_cta_sections s' page_id
      = ["Ready to Transform Your Business?"]
    ∧ Feature.title <$> get_features s' page_id
      = ["24/7 Support"; "Advanced Analytics"; "Enterprise Security";
         "Intuitive Design"; "Lightning Fast Performance";
         "Scalable Infrastructure"]
    ∧ Feature.title <$> featured_features (get_features s' page_id)
      = ["Enterprise Security"; "Intuitive Design";
         "Lightning Fast Performance"]
    ∧ Feature.title <$> other_features (get_features s' page_id)
      = ["24/7 Support"; "Advanced Analytics"; "Scalable Infrastructure"].
Proof.
  intros (Hrh & Hrf & Hrc) Hrun.
  apply create_sample_data_rows in Hrun
    as (page_id & h & fs & c & hrow & fnew & crow & (Hid & Hfresh & _)
        & (Hih & Hifs & Hic) & (Hh & Hf & Hc) & (Hdh & Hdf & Hdc)
        & (Hah & Haf & Hac)).
  destruct (sample_kwargs_content page_id)
    as (h' & fs' & c' & (Hih' & Hifs' & Hic') & (Hhid & Hhead) & Hfs
        & (Hcid & Hchead)).
  assert (h' = h) as -> by congruence.
  assert (fs' = fs) as -> by congruence.
  assert (c' = c) as -> by congruence.
  clear Hih Hifs Hic Hih' Hifs' Hic'.
  exists page_id. split; [done|].
  assert (get_hero_sections s' page_id = [hrow]) as ->.
  { unfold get_hero_sections. rewrite Hh, filter_app, filter_none.
    - rewrite filter_cons_True; [done|]. split; [|done].
      rewrite <- Hhid, <- Hdh. by destruct hrow.
    - intros x Hx [Hx' _]. rewrite Forall_forall in Hrh.
      apply (referenced_page_is_old s page_id); [|done].
      rewrite <- Hx'. by apply Hrh. }
  assert (get_cta_sections s' page_id = [crow]) as ->.
  { unfold get_cta_sections. rewrite Hc, filter_app, filter_none.
    - rewrite filter_cons_True; [done|]. split; [|done].
      rewrite <- Hcid, <- Hdc. by destruct crow.
    - intros x Hx [Hx' _]. rewrite Forall_forall in Hrc.
      apply (referenced_page_is_old s page_id); [|done].
      rewrite <- Hx'. by apply Hrc. }
  split. { simpl. rewrite <- Hhead, <- Hdh. by destruct hrow. }
  split. { simpl. rewrite <- Hchead, <- Hdc. by destruct crow. }
  rewrite <- Hdf, <- list_fmap_compose in Hfs.
  destruct fnew as [|f1 [|f2 [|f3 [|f4 [|f5 [|f6 [|? ?]]]]]]];
    try discriminate.
  injection Hfs as Hl1 Ht1 Hb1 Hl2 Ht2 Hb2 Hl3 Ht3 Hb3 Hl4 Ht4 Hb4
    Hl5 Ht5 Hb5 Hl6 Ht6 Hb6.
  simpl in * |-.
  repeat match goal with
         | H : Forall _ (_ :: _) |- _ =>
             apply Forall_cons in H as [[? ?] H]
         end.
  assert (get_features s' page_id = [f4; f6; f3; f2; f1; f5]) as ->.
  { unfold get_features. rewrite Hf, filter_app, filter_none.
    - rewrite !filter_cons_True by (by split).
      rewrite filter_nil. cbn [app order_by].
      repeat (cbn [insert_by];
              rewrite ?feature_leb_same_order by congruence;
              rewrite ?Ht1, ?Ht2, ?Ht3, ?Ht4, ?Ht5, ?Ht6;
              repeat match goal with
                     | |- context [String.leb ?x ?y] =>
                         let v := eval vm_compute in (String.leb x y) in
                         change (String.leb x y) with v
                     end;
              cbn [insert_by]).
      reflexivity.
    - intros x Hx [Hx' _]. rewrite Forall_forall in Hrf.
      apply (referenced_page_is_old s page_id); [|done].
      rewrite <- Hx'. by apply Hrf. }
  unfold featured_features, other_features.
  rewrite !filter_cons, filter_nil, Hb1, Hb2, Hb3, Hb4, Hb5, Hb6. simpl.
  rewrite Ht1, Ht2, Ht3, Ht4, Ht5, Ht6. done.
Qed.

(** The sample data on [mixed], whose components belong to its page 1. *)
Lemma seeded_page_contents_witness :
  ∃ page s',
    create_sample_data (calm true) Examples.mixed = (Ok page, s')
    ∧ ∃ page_id,
        LandingPage.id page = Some page_id
        ∧ HeroSection.headline <$> get_hero_sections s' page_id
          = ["Transform Your Business with Modern Solutions"]
        ∧ CallToActionSection.headline <$> get_cta_sections s' page_id
          = ["Ready to Transform Your Business?"]
        ∧ Feature.title <$> get_features s' page_id
          = ["24/7 Support"; "Advanced Analytics"; "Enterprise Security";
             "Intuitive Design"; "Lightning Fast Performance";
             "Scalable Infrastructure"]
        ∧ Feature.title <$> featured_features (get_features s' page_id)
          = ["Enterprise Security"; "Intuitive Design";
             "Lightning Fast Performance"]
        ∧ Feature.title <$> other_features (get_features s' page_id)
          = ["24/7 Support"; "Advanced Analytics";
             "Scalable Infrastructure"].
Proof.
  eexists _, _. split; [vm_compute; reflexivity|].
  apply (seeded_page_contents (calm true) Examples.mixed).
  - apply references_valid_mixed.
  - vm_compute. reflexivity.
Defined.

(** ** The route *)

Lemma create_landing_page_ui_head s page :
  ∀ ui, create_landing_page_ui s page ≠ Notify :: ui.
Proof.
  intros ui. unfold create_landing_page_ui.
  destruct (LandingPage.id page); discriminate.
Qed.

Lemma create_sample_data_page env s page s' :
  create_sample_data env s = (Ok page, s') →
  LandingPage.slug page = "home" ∧ LandingPage.is_active page = true
  ∧ landing_pages s' = landing_pages s ++ [page].
Proof.
  intros Hrun.
  pose proof (create_sample_data_ok _ _ _ _ Hrun) as (Hp & Hslug & _).
  apply create_sample_data_inv in Hrun as (data & _ & _ & Hcases).
  destruct Hcases as [(e & [=] & _)
                     |(p & page_id & s1 & r' & Hpage & _ & _ & Hr)].
  destruct r' as [[]|e']; [|discriminate]. injection Hr as <-.
  apply create_landing_page_inv in Hpage as (_ & _ & _ & _ & -> & _).
  done.
Qed.

(** X15. The route seeds at most once: when a request has created the
    sample data (it answers with the notification and the page), the next
    request finds the page "home", shows the same page without the
    notification and leaves the store as it is. *)
Theorem route_after_seed (env : Env) (s : Store) (ui : list Ui)
    (s' : Store) :
  route env s = (Notify :: ui, s') → route env s' = (ui, s').
Proof.
  unfold route at 1.
  pose proof (head_filter_first
    (λ p, LandingPage.slug p = "home" ∧ LandingPage.is_active p = true)
    (landing_pages s)) as Hnone.
  fold (get_active_landing_page s "home") in Hnone.
  destruct (get_active_landing_page s "home") as [page|].
  { intros [= Hui _]. by apply create_landing_page_ui_head in Hui. }
  destruct (create_sample_data env s) as [[page|e] s1] eqn:Hrun;
    [|discriminate].
  intros [= <- <-].
  apply create_sample_data_page in Hrun as (Hslug & Hact & Hp).
  assert (get_active_landing_page s1 "home" = Some page) as Hget.
  { unfold get_active_landing_page. rewrite Hp, filter_app, filter_none.
    - by rewrite filter_cons_True.
    - exact Hnone. }
  unfold route. by rewrite Hget.
Qed.

(** The first request on an empty store seeds it; the second serves it. *)
Lemma route_after_seed_witness :
  let first := route (calm true) empty_store in
  route (calm true) first.2 = (tail first.1, first.2).
Proof.
  intros first. apply (route_after_seed (calm true) empty_store).
  vm_compute. reflexivity.
Defined.

(** X16. A page "home" that is not active blocks the route: the request
    finds no active page, tries the sample data, and the store refuses the
    second "home".  The answer is the error label alone, no row is
    written, and so every later request ends the same way. *)
Theorem route_blocked_by_inactive_home (env : Env) (s : Store) :
  (∃ p, p ∈ landing_pages s ∧ LandingPage.slug p = "home") →
  get_active_landing_page s "home" = None →
  outage env (commits s) = false →
  ∃ s', route env s = ([ErrorLabel IntegrityError], s')
        ∧ rows s' = rows s
        ∧ get_active_landing_page s' "home" = None.
Proof.
  intros Hhome Hnone Hreach. unfold route. rewrite Hnone.
  destruct (create_sample_data env s) as [[page|e] s'] eqn:Hrun.
  - exfalso.
    apply create_sample_data_inv in Hrun as (data & _ & Hslug & Hcases).
    destruct Hcases as [(e & [=] & _)
                       |(p & page_id & s1 & r' & Hpage & _)].
    apply create_landing_page_inv in Hpage
      as (_ & _ & _ & _ & _ & _ & _ & Hfree).
    rewrite Hslug in Hfree. apply slug_taken_true in Hhome. congruence.
  - exists s'.
    pose proof (create_sample_data_inv _ _ _ _ Hrun)
      as (data & _ & Hslug & Hcases).
    destruct Hcases as [(e' & [= <-] & Hpage)
                       |(p & page_id & s1 & r' & Hpage & _)].
    + pose proof (create_landing_page_inv _ _ _ _ _ Hpage)
        as (Hh & Hf & Hc & _ & Hp & _).
      apply create_landing_page_failure in Hpage
        as [[_ Ho]|(-> & _ & _)]; [congruence|].
      split; [done|]. unfold rows. rewrite Hp, Hh, Hf, Hc.
      split; [done|]. unfold get_active_landing_page in *. by rewrite Hp.
    + exfalso.
      apply create_landing_page_inv in Hpage
        as (_ & _ & _ & _ & _ & _ & _ & Hfree).
      rewrite Hslug in Hfree. apply slug_taken_true in Hhome. congruence.
Qed.

(** The store whose only "home" has been deactivated. *)
Lemma route_blocked_by_inactive_home_witness :
  ∃ s', route (calm true) MoreExamples.retired_home
        = ([ErrorLabel IntegrityError], s')
        ∧ rows s' = rows MoreExamples.retired_home
        ∧ get_active_landing_page s' "home" = None.
Proof.
  apply (route_blocked_by_inactive_home (calm true)
           MoreExamples.retired_home).
  - eexists. split; [apply list_elem_of_In; left; reflexivity|reflexivity].
  - reflexivity.
  - reflexivity.
Defined.

(** ** What a rendering shows *)

Lemma filter_split_Permutation (fs : list Feature.t) :
  filter (λ f, Feature.is_featured f = true) fs
  ++ filter (λ f, Feature.is_featured f = false) fs ≡ₚ fs.
Proof.
  induction fs as [|f fs IH]; [done|].
  rewrite !filter_cons. destruct (Feature.is_featured f); simpl.
  - by rewrite IH.
  - by rewrite <- Permutation_middle, IH.
Qed.

Lemma cards_shown_section (fs : list Feature.t) :
  cards_shown (create_features_section fs)
  = featured_features fs ++ other_features fs.
Proof.
  unfold create_features_section, cards_shown.
  destruct fs as [|f0 fs']; [done|].
  destruct (featured_features (f0 :: fs')) as [|a la];
    destruct (other_features (f0 :: fs')) as [|b lb]; simpl;
    by rewrite ?app_nil_r.
Qed.

(** X17. The features section shows every feature exactly once when at
    most three of them are featured, and only then: with a fourth featured
    feature the section shows fewer cards than there are features.  It
    never shows a feature that is not in the list. *)
Theorem features_section_shows_all_iff (fs : list Feature.t) :
  (cards_shown (create_features_section fs) ≡ₚ fs ↔
   (length (filter (λ f, Feature.is_featured f = true) fs) ≤ 3)%nat)
  ∧ (length (cards_shown (create_features_section fs))
     = (length (filter (λ f, Feature.is_featured f = true) fs) `min` 3
        + length (filter (λ f, Feature.is_featured f = false) fs))%nat)
  ∧ (∀ f, f ∈ cards_shown (create_features_section fs) → f ∈ fs).
Proof.
  rewrite cards_shown_section. unfold featured_features, other_features.
  pose proof (filter_split_Permutation fs) as Hsplit.
  split; [|split].
  - split.
    + intros Hperm. apply Permutation_length in Hperm.
      apply Permutation_length in Hsplit.
      rewrite length_app in Hperm, Hsplit. rewrite length_take in Hperm. lia.
    + intros Hlen. by rewrite take_ge.
  - rewrite length_app, length_take. lia.
  - intros f. rewrite elem_of_app. intros [Hf|Hf].
    + apply elem_of_take in Hf as (i & Hf & _).
      apply list_elem_of_lookup_2 in Hf.
      by apply list_elem_of_filter in Hf as [_ ?].
    + by apply list_elem_of_filter in Hf as [_ ?].
Qed.

(** Five featured features and a plain one: four cards for six features. *)
Lemma features_section_shows_all_iff_witness :
  let fs := get_features Examples.five_featured 1 in
  length (cards_shown (create_features_section fs)) = 4%nat
  ∧ ¬ cards_shown (create_features_section fs) ≡ₚ fs.
Proof.
  intros fs.
  destruct (features_section_shows_all_iff fs) as (Hall & Hlen & _).
  split; [rewrite Hlen; reflexivity|].
  intros Hperm. apply Hall in Hperm. vm_compute in Hperm. lia.
Defined.


Lemma section_node_cases (fs : list Feature.t) (node : Ui) :
  node ∈ create_features_section fs →
  node = FeaturesHeader ∨ node = MoreFeaturesLabel
  ∨ node = FeaturedRow (featured_features fs)
  ∨ node = FeaturesGrid (other_features fs).
Proof.
  unfold create_features_section. destruct fs as [|f0 l].
  { intros Hn. by apply elem_of_nil in Hn. }
  destruct (featured_features (f0 :: l)); destruct (other_features (f0 :: l));
    intros Hn; apply list_elem_of_In in Hn; simpl in Hn; intuition auto.
Qed.

(** X18. A page shows its own active rows and nothing else: every hero
    section, feature card and call to action in the rendering of a page is
    an active row of the store that carries the key of that page; no
    notification or error label is part of it; and a page without a key
    renders as the "not found" label alone. *)
Theorem page_shows_own_active_rows (s : Store) (page : LandingPage.t) :
  (LandingPage.id page = None →
   create_landing_page_ui s page = [NotFoundLabel])
  ∧ ∀ node, node ∈ create_landing_page_ui s page →
      match node with
      | Hero h =>
          h ∈ hero_sections s ∧ HeroSection.is_active h = true
          ∧ LandingPage.id page = Some (HeroSection.landing_page_id h)
      | FeaturedRow cards | FeaturesGrid cards =>
          Forall (λ f, f ∈ features s ∧ Feature.is_active f = true
                       ∧ LandingPage.id page
                         = Some (Feature.landing_page_id f)) cards
      | Cta c =>
          c ∈ cta_sections s ∧ CallToActionSection.is_active c = true
          ∧ LandingPage.id page
            = Some (CallToActionSection.landing_page_id c)
      | Notify | ErrorLabel _ => False
      | _ => True
      end.
Proof.
  unfold create_landing_page_ui. split.
  { by intros ->. }
  destruct (LandingPage.id page) as [page_id|].
  2:{ intros node Hn. apply list_elem_of_singleton in Hn. by subst. }
  intros node. rewrite !elem_of_app. intros [Hn|[Hn|[Hn|Hn]]].
  - apply list_elem_of_singleton in Hn. by subst.
  - apply list_elem_of_fmap in Hn as (h & -> & Hh).
    unfold get_hero_sections in Hh.
    rewrite order_by_elem_of, list_elem_of_filter in Hh.
    destruct Hh as ([<- ?] & ?). done.
  - assert (∀ f, f ∈ get_features s page_id →
               f ∈ features s ∧ Feature.is_active f = true
               ∧ Some page_id = Some (Feature.landing_page_id f)) as Hrows.
    { intros f Hf. unfold get_features in Hf.
      rewrite order_by_elem_of, list_elem_of_filter in Hf.
      destruct Hf as ([<- ?] & ?). done. }
    assert (node ∈ create_features_section (get_features s page_id)) as Hn'.
    { destruct (get_features s page_id); [by apply elem_of_nil in Hn|done]. }
    apply section_node_cases in Hn' as [->|[->|[->| ->]]]; try done.
    + apply Forall_forall. intros f Hf. apply Hrows.
      unfold featured_features in Hf.
      apply elem_of_take in Hf as (i & Hf & _).
      apply list_elem_of_lookup_2 in Hf.
      by apply list_elem_of_filter in Hf as [_ ?].
    + apply Forall_forall. intros f Hf. apply Hrows.
      unfold other_features in Hf.
      by apply list_elem_of_filter in Hf as [_ ?].
  - apply list_elem_of_fmap in Hn as (c & -> & Hc).
    unfold get_cta_sections in Hc.
    rewrite order_by_elem_of, list_elem_of_filter in Hc.
    destruct Hc as ([<- ?] & ?). done.
Qed.

(** Hidden rows of the inactive page 1 of [mixed] are not on the page. *)
Lemma page_shows_own_active_rows_witness :
  Hero (Examples.hero_row 2 1 0 "hidden" false)
  ∉ create_landing_page_ui Examples.mixed (Examples.page_row 1 "old" false).
Proof.
  intros Hin.
  destruct (page_shows_own_active_rows Examples.mixed
              (Examples.page_row 1 "old" false)) as [_ Hnodes].
  apply Hnodes in Hin as (_ & Hactive & _). discriminate.
Defined.

(** ** The widgets *)

(** X19. Rows created through the service are drawn with the default
    look, whatever keyword arguments the caller gave: a hero section has
    the default gradient and text colour and at most the primary button; a
    feature card has the default icon colour; a call to action has the
    default background, no background image, its first button in the
    filled style and a second button, if any, outlined. *)
Theorem service_rows_render_with_defaults (env : Env) (s : Store) :
  (∀ kw data row s',
     HeroSectionCreate.init kw = Ok data →
     create_hero_section env data s = (Ok row, s') →
     view.hero_bg_style row
     = (view.nl ++ "        background: linear-gradient(135deg, #1e293b 0%, #334155 100%);"
        ++ view.nl ++ "        color: #ffffff;"
        ++ view.nl ++ "        min-height: 100vh;"
        ++ view.nl ++ "        position: relative;"
        ++ view.nl ++ "        overflow: hidden;"
        ++ view.nl ++ "    "
        ++ (if view.truthy (HeroSectionCreate.background_image_url data)
            then "background-image: url('"
                 ++ default EmptyString
                      (HeroSectionCreate.background_image_url data)
                 ++ "'); background-size: cover; background-position: center;"
            else EmptyString))%string
     ∧ (length (view.hero_buttons row) ≤ 1)%nat
     ∧ Forall (λ b, ∃ text target,
                 b = view.Button text target
                       "cta-button px-8 py-4 text-lg rounded-xl shadow-lg"
                       EmptyString)
         (view.hero_buttons row))
  ∧ (∀ kw data row s' featured name size style,
       FeatureCreate.init kw = Ok data →
       create_feature env data s = (Ok row, s') →
       view.Icon name size style
       ∈ view.flatten (view.create_feature_card row featured) →
       style = "color: #3b82f6")
  ∧ (∀ kw data row s',
       CallToActionSectionCreate.init kw = Ok data →
       create_cta_section env data s = (Ok row, s') →
       view.cta_bg_style row
       = (view.nl ++ "        background: linear-gradient(135deg, #f8fafc 0%, #e2e8f0 100%);"
          ++ view.nl ++ "        color: #1f2937;"
          ++ view.nl ++ "    ")%string
       ∧ ∃ rest,
           view.cta_buttons row
           = view.Button (CallToActionSectionCreate.primary_button_text data)
               (Some (CallToActionSectionCreate.primary_button_url data))
               "cta-button px-10 py-4 text-lg rounded-xl shadow-lg"
               EmptyString :: rest
           ∧ Forall (λ b, ∃ text target,
                       b = view.Button text target
                             "px-10 py-4 text-lg rounded-xl border-2 border-gray-300 bg-white hover:bg-gray-50 text-gray-700 transition-all"
                             "outline") rest).
Proof.
  split; [|split].
  - intros kw data row s' _ Hrun.
    apply create_hero_section_inv in Hrun as (_ & _ & _ & _ & -> & _).
    destruct data as [lp hl sub desc img pt pu al].
    unfold view.hero_bg_style, view.hero_buttons. simpl.
    split; [reflexivity|].
    destruct (view.truthy pt); simpl; split; try lia;
      repeat constructor; eauto.
  - intros kw data row s' featured name size style _ Hrun.
    apply create_feature_inv in Hrun as (_ & _ & _ & _ & -> & _).
    destruct data as [lp t d ic img lt lu ft].
    unfold view.create_feature_card. simpl.
    destruct (view.truthy ic), featured,
      (view.truthy lt && view.truthy lu); simpl;
      intros Hin; apply list_elem_of_In in Hin; simpl in Hin;
      repeat match goal with
             | H : _ ∨ _ |- _ => destruct H
             | H : False |- _ => destruct H
             | H : _ = view.Icon _ _ _ |- _ =>
                 first [discriminate H
                       |injection H as <- <- <-; reflexivity]
             end.
  - intros kw data row s' _ Hrun.
    apply create_cta_section_inv in Hrun as (_ & _ & _ & _ & -> & _).
    destruct data as [lp hl sub desc pt pu st su al].
    unfold view.cta_bg_style, view.cta_buttons. simpl.
    split; [reflexivity|]. eexists. split; [reflexivity|].
    destruct (view.truthy st && view.truthy su); simpl;
      repeat constructor; eauto.
Qed.

(** A hero section asked for with colours on [mixed]. *)
Lemma service_rows_render_with_defaults_witness :
  ∃ data row s',
    HeroSectionCreate.init Inputs.hero_kwargs = Ok data
    ∧ create_hero_section (calm true) data Examples.mixed = (Ok row, s')
    ∧ (length (view.hero_buttons row) ≤ 1)%nat.
Proof.
  destruct (service_rows_render_with_defaults (calm true) Examples.mixed)
    as (Hhero & _ & _).
  eexists _, _, _. split; [vm_compute; reflexivity|].
  split; [vm_compute; reflexivity|].
  eapply (Hhero Inputs.hero_kwargs); vm_compute; reflexivity.
Defined.

(** X20. The widgets do not look at the layout columns: a hero section
    is drawn the same whatever its alignment, height, display_order,
    is_active, key, page and timestamps; a call to action the same
    whatever its alignment and size; a feature card the same whatever
    the image_url, background_color and text_color of the feature, and
    whatever its own is_featured flag, since featuring is decided by the
    caller. *)
Theorem widgets_ignore_layout_columns :
  (∀ key page_id hl sub desc img bg tc pt pu st su al ht ord act cr up
     key' page_id' al' ht' ord' act' cr' up',
     view.create_hero_section
       (HeroSection.mk key page_id hl sub desc img bg tc pt pu st su al ht
          ord act cr up)
     = view.create_hero_section
         (HeroSection.mk key' page_id' hl sub desc img bg tc pt pu st su al'
            ht' ord' act' cr' up'))
  ∧ (∀ key page_id t d ic icc img lt lu bg tc ord ft act cr up
       key' page_id' img' bg' tc' ord' ft' act' cr' up' featured,
       view.create_feature_card
         (Feature.mk key page_id t d ic icc img lt lu bg tc ord ft act cr up)
         featured
       = view.create_feature_card
           (Feature.mk key' page_id' t d ic icc img' lt lu bg' tc' ord' ft'
              act' cr' up') featured)
  ∧ (∀ key page_id hl sub desc pt pu ps st su ss bg tc img al sz ord act cr
       up key' page_id' al' sz' ord' act' cr' up',
       view.create_cta_section
         (CallToActionSection.mk key page_id hl sub desc pt pu ps st su ss bg
            tc img al sz ord act cr up)
       = view.create_cta_section
           (CallToActionSection.mk key' page_id' hl sub desc pt pu ps st su ss
              bg tc img al' sz' ord' act' cr' up')).
Proof. repeat split. Qed.

Lemma truthy_Some (a : option string) :
  view.truthy a = true → ∃ c s, a = Some (String c s).
Proof. destruct a as [[|c s]|]; try discriminate. eauto. Qed.

(** X21. The buttons of a hero section.  A button is shown exactly when
    its text is given and not empty, and the section has no other button.
    A click never navigates to "#" or to an empty url: the first button
    navigates to its url exactly when that url is given, not empty and not
    "#", and otherwise does nothing when clicked. *)
Theorem hero_buttons_behaviour (hero : HeroSection.t) :
  length (view.hero_buttons hero)
  = ((if view.truthy (HeroSection.primary_button_text hero) then 1 else 0)
     + (if view.truthy (HeroSection.secondary_button_text hero)
        then 1 else 0))%nat
  ∧ List.filter view.is_button
      (view.flatten (view.create_hero_section hero))
    = view.hero_buttons hero
  ∧ Forall (λ b, view.click b ≠ Some "#" ∧ view.click b ≠ Some EmptyString)
      (view.hero_buttons hero)
  ∧ (view.truthy (HeroSection.primary_button_text hero) = true →
     ∀ url, head (view.click <$> view.hero_buttons hero) = Some (Some url) ↔
            HeroSection.primary_button_url hero = Some url
            ∧ url ≠ EmptyString ∧ url ≠ "#").
Proof.
  unfold view.create_hero_section, view.hero_buttons.
  assert (∀ url : option string,
    view.handle_hero_click (or_else url "#") ≠ Some "#"
    ∧ view.handle_hero_click (or_else url "#") ≠ Some EmptyString) as Hclick.
  { intros [[|c u]|]; cbn [or_else]; unfold view.handle_hero_click.
    - by rewrite String.eqb_refl.
    - destruct (String.eqb_spec (String c u) "#") as [Heq|Hne]; [done|].
      split; [congruence|done].
    - by rewrite String.eqb_refl. }
  split; [|split; [|split]].
  - destruct (view.truthy (HeroSection.primary_button_text hero)),
      (view.truthy (HeroSection.secondary_button_text hero)); reflexivity.
  - destruct (view.truthy (HeroSection.primary_button_text hero)),
      (view.truthy (HeroSection.secondary_button_text hero)),
      (view.truthy (HeroSection.subheadline hero)),
      (view.truthy (HeroSection.description hero));
      reflexivity.
  - destruct (view.truthy (HeroSection.primary_button_text hero)),
      (view.truthy (HeroSection.secondary_button_text hero));
      cbn [app]; repeat constructor; apply Hclick.
  - intros -> url. cbn [head fmap list_fmap app view.click].
    unfold view.handle_hero_click.
    destruct (HeroSection.primary_button_url hero) as [[|c u]|];
      cbn [or_else].
    + rewrite String.eqb_refl. split; [discriminate|].
      by intros ([= <-] & ? & _).
    + destruct (String.eqb_spec (String c u) "#") as [Heq|Hne].
      * split; [discriminate|]. intros ([= <-] & _ & ?). done.
      * split; [intros [= <-]; done|]. by intros ([= <-] & _).
    + rewrite String.eqb_refl. split; [discriminate|]. by intros ([=] & _).
Qed.

(** A first button with the url "#": a click does not navigate there. *)
Lemma hero_buttons_behaviour_witness :
  head (view.click <$> view.hero_buttons MoreExamples.hero_hash)
  ≠ Some (Some "#").
Proof.
  destruct (hero_buttons_behaviour MoreExamples.hero_hash)
    as (_ & _ & _ & Hfirst).
  intros Hhead. apply (Hfirst eq_refl "#") in Hhead as (_ & _ & Hne).
  by apply Hne.
Defined.

(** X22. The parts of a feature card.  The title and the description are
    always there.  The "Featured" badge sits beside the icon: it is shown
    only when the card is featured and the feature has an icon, so a
    featured card without an icon has no badge.  The link is shown only
    when both its text and its url are given and not empty, and opens in a
    new tab. *)
Theorem feature_card_parts (feature : Feature.t) (featured : bool) :
  List.filter view.is_badge
    (view.flatten (view.create_feature_card feature featured))
  = (if featured && view.truthy (Feature.icon feature)
     then [view.Badge "Featured"
             "ml-auto bg-gradient-to-r from-blue-500 to-purple-600 text-white"]
     else [])
  ∧ List.filter view.is_link
      (view.flatten (view.create_feature_card feature featured))
    = (if view.truthy (Feature.link_text feature)
          && view.truthy (Feature.link_url feature)
       then [view.Link (default EmptyString (Feature.link_text feature))
               (default EmptyString (Feature.link_url feature)) true
               "text-blue-600 hover:text-blue-800 font-semibold inline-flex items-center"]
       else [])
  ∧ view.Label (Feature.title feature) "text-2xl font-bold mb-4 text-gray-800"
    ∈ view.flatten (view.create_feature_card feature featured)
  ∧ view.Label (Feature.description feature)
      "text-gray-600 leading-relaxed mb-6"
    ∈ view.flatten (view.create_feature_card feature featured).
Proof.
  unfold view.create_feature_card.
  destruct featured, (view.truthy (Feature.icon feature)),
    (view.truthy (Feature.link_text feature)),
    (view.truthy (Feature.link_url feature));
    (split; [reflexivity|]); (split; [reflexivity|]);
    split; apply list_elem_of_In; simpl; auto 10.
Qed.

(** X23. The buttons of a call to action.  The first button is always
    shown and a click on it always navigates to primary_button_url, also
    when that is "#" or empty; the second is shown exactly when both its
    text and its url are given and not empty; the section has no other
    button, and every button navigates. *)
Theorem cta_buttons_behaviour (cta : CallToActionSection.t) :
  List.filter view.is_button (view.flatten (view.create_cta_section cta))
  = view.cta_buttons cta
  ∧ length (view.cta_buttons cta)
    = (if view.truthy (CallToActionSection.secondary_button_text cta)
          && view.truthy (CallToActionSection.secondary_button_url cta)
       then 2 else 1)%nat
  ∧ head (view.click <$> view.cta_buttons cta)
    = Some (Some (CallToActionSection.primary_button_url cta))
  ∧ Forall (λ b, is_Some (view.click b)) (view.cta_buttons cta).
Proof.
  unfold view.create_cta_section, view.cta_buttons.
  destruct (CallToActionSection.primary_button_style cta =? "primary")%string,
    (CallToActionSection.secondary_button_style cta =? "primary")%string,
    (view.truthy (CallToActionSection.subheadline cta)),
    (view.truthy (CallToActionSection.description cta)),
    (view.truthy (CallToActionSection.secondary_button_text cta)),
    (CallToActionSection.secondary_button_url cta) as [[|c u]|];
    (split; [reflexivity|]); (split; [reflexivity|]);
    (split; [reflexivity|]); repeat constructor; simpl; eauto.
Qed.

(** ** What the Create schemas accept *)









